(** * MNPI agent: normalizer, classification controller and aggregator

    A shallow embedding of [classifier.py], [analyzer.py] and
    [aggregator.py].

    Modelling conventions.
    - Python values are the JSON-shaped ones the code handles: [None],
      [bool], [int] (as [Z]), [float], [str], [list] and [dict] with string
      keys (as [gmap string value]).
    - A finite Python [float] is modelled by the rational it denotes ([Q]);
      [nan], [inf] and [-inf] are values of their own.  [round(x, 2)] of a
      finite float is rounding to the nearest hundredth, ties to even, and
      always yields [k # 100], which stands for the float nearest to that
      decimal.  The sign of zero is not modelled ([-0.0 == 0.0] in Python).
    - A raised exception is the [Raise] branch of [outcome]; exceptions carry
      their kind and the text [str(e)] gives.
    - The model client [llm.invoke] and [time.sleep] are the two events of the
      free monad [prog]; a run against a stateful model is [run].
    - Strings are sequences of 8-bit characters. *)

From Stdlib Require Import ZArith QArith Qabs Qround Lqa Lia String Ascii.
From Stdlib Require OrderedTypeEx.
From stdpp Require Import gmap strings list sorting pretty.

Set Warnings "-register-all".
Local Open Scope string_scope.

(** ** Exceptions and the error monad *)

Inductive exn_kind : Type :=
| TypeError | ValueError | OverflowError | KeyError | AttributeError
| RuntimeError.

Record exn : Type := Exn { exn_kind_of : exn_kind; exn_msg : string }.

Inductive outcome (A : Type) : Type :=
| Ok (a : A)
| Raise (e : exn).
Arguments Ok {A} a.
Arguments Raise {A} e.

#[export] Instance outcome_ret : MRet outcome := fun A a => Ok a.
#[export] Instance outcome_bind : MBind outcome := fun A B f m =>
  match m with
  | Ok a => f a
  | Raise e => Raise e
  end.

(** ** Python values *)

(** The floats that are not finite. *)
Inductive nonfinite : Type := NaN | PosInf | NegInf.

Inductive value : Type :=
| VNone
| VBool (b : bool)
| VInt (n : Z)
| VFloat (q : Q)
| VNonFinite (x : nonfinite)
| VStr (s : string)
| VList (l : list value)
| VDict (d : gmap string value).

Abbreviation dict := (gmap string value).

(** The double quote character, for JSON text. *)
Definition dq : ascii := "034"%char.
Definition quoted (s : string) : string :=
  String dq (s ++ String dq EmptyString).

(** [type(v).__name__] *)
Definition type_name (v : value) : string :=
  match v with
  | VNone => "NoneType"
  | VBool _ => "bool"
  | VInt _ => "int"
  | VFloat _ => "float"
  | VNonFinite _ => "float"
  | VStr _ => "str"
  | VList _ => "list"
  | VDict _ => "dict"
  end.

(** [bool(v)], the test behind [not v] and [a or b]. *)
Definition truthy (v : value) : bool :=
  match v with
  | VNone => false
  | VBool b => b
  | VInt n => negb (n =? 0)%Z
  | VFloat q => negb (Qeq_bool q 0)
  | VNonFinite _ => true
  | VStr s => negb (String.eqb s EmptyString)
  | VList l => match l with [] => false | _ => true end
  | VDict d => match map_to_list d with [] => false | _ => true end
  end.

(** [a or b] *)
Definition py_or (a b : value) : value := if truthy a then a else b.

(** [v == lit] for a string literal [lit]. *)
Definition eq_str (v : value) (lit : string) : bool :=
  match v with
  | VStr s => String.eqb s lit
  | _ => false
  end.

(** [v in (lit1, lit2, ...)]: membership in a tuple of string literals. *)
Definition in_strs (v : value) (lits : list string) : bool :=
  existsb (eq_str v) lits.

(** [d.get(k)] and [d.get(k, dflt)] *)
Definition py_get (d : dict) (k : string) : value :=
  default VNone (d !! k).
Definition py_get_or (d : dict) (k : string) (dflt : value) : value :=
  default dflt (d !! k).

(** [d[k]] *)
Definition py_getitem (d : dict) (k : string) : outcome value :=
  match d !! k with
  | Some v => Ok v
  | None => Raise (Exn KeyError ("'" ++ k ++ "'"))
  end.

Definition is_list (v : value) : bool :=
  match v with VList _ => true | _ => false end.
Definition is_dict (v : value) : bool :=
  match v with VDict _ => true | _ => false end.
(** [isinstance(v, (int, float))]; [bool] is a subclass of [int]. *)
Definition is_int_or_float (v : value) : bool :=
  match v with
  | VBool _ | VInt _ | VFloat _ | VNonFinite _ => true
  | _ => false
  end.

(** ** Floats *)

Definition Qltb (a b : Q) : bool := negb (Qle_bool b a).

(** [min(a, b)] and [max(a, b)]: the first argument wins ties. *)
Definition py_min (a b : Q) : Q := if Qltb b a then b else a.
Definition py_max (a b : Q) : Q := if Qltb a b then b else a.

Definition round_half_even (q : Q) : Z :=
  let f := Qfloor q in
  match (q - inject_Z f ?= 1 # 2)%Q with
  | Lt => f
  | Gt => (f + 1)%Z
  | Eq => if Z.even f then f else (f + 1)%Z
  end.

(** [round(x, 2)] *)
Definition round2 (q : Q) : Q := round_half_even (q * 100) # 100.

(** A float: a finite one or one of the three others.  A rational is read
    as the finite float where a float is expected. *)
Inductive pyfloat : Type :=
| Fin (q : Q)
| NonFin (x : nonfinite).
Coercion Fin : Q >-> pyfloat.
Bind Scope Q_scope with pyfloat.

Definition float_value (x : pyfloat) : value :=
  match x with
  | Fin q => VFloat q
  | NonFin n => VNonFinite n
  end.

(** [a < b] and [a <= b] on floats: every comparison with [nan] is
    false. *)
Definition fl_ltb (a b : pyfloat) : bool :=
  match a, b with
  | Fin x, Fin y => Qltb x y
  | NonFin NaN, _ | _, NonFin NaN => false
  | NonFin NegInf, NonFin NegInf => false
  | NonFin NegInf, _ => true
  | NonFin PosInf, _ => false
  | Fin _, NonFin PosInf => true
  | Fin _, NonFin NegInf => false
  end.
Definition fl_leb (a b : pyfloat) : bool :=
  match a, b with
  | Fin x, Fin y => Qle_bool x y
  | NonFin NaN, _ | _, NonFin NaN => false
  | NonFin NegInf, _ => true
  | NonFin PosInf, NonFin PosInf => true
  | NonFin PosInf, _ => false
  | Fin _, NonFin PosInf => true
  | Fin _, NonFin NegInf => false
  end.

(** [min(a, b)], [max(a, b)] and [round(x, 2)] on floats. *)
Definition fl_min (a b : pyfloat) : pyfloat := if fl_ltb b a then b else a.
Definition fl_max (a b : pyfloat) : pyfloat := if fl_ltb a b then b else a.
Definition fl_round2 (x : pyfloat) : pyfloat :=
  match x with
  | Fin q => Fin (round2 q)
  | NonFin n => NonFin n
  end.

(** [int] values at or above 2^1024 - 2^970 in magnitude do not convert. *)
Definition float_int_limit : Z := (2 ^ 1024 - 2 ^ 970)%Z.

(** The float nearest to a rational, ties to the even mantissa: 53
    significant bits, and steps of 2^-1074 below 2^-1022.  The result is
    the rational the float denotes; it is beyond the finite floats when
    its magnitude reaches 2^1024. *)
Definition Qlog2 (a : Q) : Z :=
  let e := (Z.log2 (Qnum a) - Z.log2 (Zpos (Qden a)))%Z in
  if Qle_bool (Qpower 2 e) a then e else (e - 1)%Z.

Definition round_to_double (q : Q) : Q :=
  if Qeq_bool q 0 then 0
  else
    let a := Qabs q in
    let ulp := Qpower 2 (Z.max (Qlog2 a) (-1022) - 52) in
    let m := (inject_Z (round_half_even (a / ulp)) * ulp)%Q in
    if Qltb q 0 then (- m)%Q else m.

Definition nearest_float (q : Q) : pyfloat :=
  let r := round_to_double q in
  if Qle_bool (Qpower 2 1024) r then NonFin PosInf
  else if Qle_bool r (- Qpower 2 1024)%Q then NonFin NegInf
  else Fin r.

(** ** Library functions the code calls

    [json.loads] and the string case of [float()] belong to the Python
    runtime, and the prompt text is data: the development is parametric in
    them.  [json_loads s = None] and [float_of_str s = None] stand for the
    call raising ([JSONDecodeError], [ValueError]).

    What [time.sleep] makes of a delay near the end of its range (about
    9.2e9 seconds on either side) depends on the build and on the clock:
    [sleep_near_limit] is the exception it raises there, if any. *)

Class PyLib : Type := {
  json_loads : string -> option value;
  float_of_str : string -> option pyfloat;
  sleep_near_limit : Q -> option exn;
  PROMPT_TEMPLATE : string
}.

Definition unsupported_operand (op : string) (l r : string) : exn :=
  Exn TypeError ("'" ++ op ++ "' not supported between instances of '"
                 ++ l ++ "' and '" ++ r ++ "'").

(** ** The search for an opening brace, anything, a closing brace (DOTALL)

    The leftmost match starts at the first opening brace; the greedy middle
    part runs to the end of the text and backtracks to the last closing
    brace.  A later opening brace cannot match when the first one does
    not. *)

Fixpoint from_first_open (s : string) : option string :=
  match s with
  | EmptyString => None
  | String c s' => if Ascii.eqb c "{" then Some s' else from_first_open s'
  end.

(** The longest prefix that ends with a closing brace. *)
Fixpoint upto_last_close (s : string) : option string :=
  match s with
  | EmptyString => None
  | String c s' =>
      match upto_last_close s' with
      | Some p => Some (String c p)
      | None => if Ascii.eqb c "}" then Some (String c EmptyString) else None
      end
  end.

(** [m.group(0)] of the search, [None] when there is no match. *)
Definition re_search_braces (s : string) : option string :=
  match from_first_open s with
  | Some rest =>
      match upto_last_close rest with
      | Some p => Some (String "{" p)
      | None => None
      end
  | None => None
  end.

(** ** A reference decoder for the library interface

    [json_loads_ref] decodes JSON text the way [json.loads] does: the
    same whitespace, number grammar, duplicate keys (the last one wins),
    strict strings, rejection of trailing data, the literals [NaN],
    [Infinity] and [-Infinity], and a number with a fraction or an
    exponent read as the nearest float.  A [\u] escape is decoded when it
    names a character of the model's strings (a code point below 256) and
    rejected otherwise. *)

Definition is_ws (c : ascii) : bool :=
  Ascii.eqb c " " || Ascii.eqb c "009" || Ascii.eqb c "010" || Ascii.eqb c "013".

Fixpoint skip_ws (s : string) : string :=
  match s with
  | String c s' => if is_ws c then skip_ws s' else s
  | EmptyString => s
  end.

Definition is_digit (c : ascii) : bool :=
  (48 <=? nat_of_ascii c)%nat && (nat_of_ascii c <=? 57)%nat.

Fixpoint span_digits (s : string) : string * string :=
  match s with
  | String c s' =>
      if is_digit c then
        let '(d, r) := span_digits s' in (String c d, r)
      else (EmptyString, s)
  | EmptyString => (EmptyString, EmptyString)
  end.

Fixpoint digits_to_Z (acc : Z) (s : string) : Z :=
  match s with
  | String c s' => digits_to_Z (10 * acc + (Z.of_nat (nat_of_ascii c) - 48))%Z s'
  | EmptyString => acc
  end.

(** [mant * 10 ^ e10] *)
Definition scale10 (mant e10 : Z) : Q :=
  if (0 <=? e10)%Z then inject_Z (mant * 10 ^ e10)
  else mant # Z.to_pos (10 ^ (- e10)).

(** The optional groups: a dot with at least one digit, and e or E with an
    optional sign and at least one digit. *)
Definition scan_frac (s : string) : string * string :=
  match s with
  | String c s' =>
      if Ascii.eqb c "." then
        match span_digits s' with
        | (EmptyString, _) => (EmptyString, s)
        | (d, r) => (d, r)
        end
      else (EmptyString, s)
  | EmptyString => (EmptyString, s)
  end.

Definition scan_exp (s : string) : option Z * string :=
  match s with
  | String c s' =>
      if Ascii.eqb c "e" || Ascii.eqb c "E" then
        let '(neg, s1) :=
          match s' with
          | String sg s2 =>
              if Ascii.eqb sg "-" then (true, s2)
              else if Ascii.eqb sg "+" then (false, s2)
              else (false, s')
          | EmptyString => (false, s')
          end in
        match span_digits s1 with
        | (EmptyString, _) => (None, s)
        | (d, r) =>
            let e := digits_to_Z 0 d in
            (Some (if neg then (- e)%Z else e), r)
        end
      else (None, s)
  | EmptyString => (None, s)
  end.

(** The number at the start of [s], by the decoder's pattern: an optional
    minus sign, then 0 or a nonzero digit followed by digits, then the
    optional fraction and exponent groups.  The result is an [int] when
    there is neither fraction nor exponent, else a [float]. *)
Definition scan_number (s : string) : option (value * string) :=
  let '(neg, s1) :=
    match s with
    | String c s' => if Ascii.eqb c "-" then (true, s') else (false, s)
    | EmptyString => (false, s)
    end in
  match span_digits s1 with
  | (EmptyString, _) => None
  | (String d0 ds, r) =>
      let '(ip, r1) :=
        if Ascii.eqb d0 "0" then (String d0 EmptyString, ds ++ r)
        else (String d0 ds, r) in
      let '(fd, r2) := scan_frac r1 in
      let '(ex, r3) := scan_exp r2 in
      let sgn (z : Z) := if neg then (- z)%Z else z in
      match fd, ex with
      | EmptyString, None => Some (VInt (sgn (digits_to_Z 0 ip)), r3)
      | _, _ =>
          let mant := sgn (digits_to_Z 0 (ip ++ fd)) in
          let e10 := (default 0%Z ex - Z.of_nat (String.length fd))%Z in
          Some (float_value (nearest_float (scale10 mant e10)), r3)
      end
  end.

(** The value of a hexadecimal digit. *)
Definition hex_digit (c : ascii) : option nat :=
  let n := nat_of_ascii c in
  if is_digit c then Some (n - 48)%nat
  else if (65 <=? n)%nat && (n <=? 70)%nat then Some (n - 55)%nat
  else if (97 <=? n)%nat && (n <=? 102)%nat then Some (n - 87)%nat
  else None.

(** The character four hexadecimal digits name. *)
Definition hex4 (a b c d : ascii) : option ascii :=
  match hex_digit a, hex_digit b, hex_digit c, hex_digit d with
  | Some x3, Some x2, Some x1, Some x0 =>
      let n := (((x3 * 16 + x2) * 16 + x1) * 16 + x0)%nat in
      if (n <? 256)%nat then Some (ascii_of_nat n) else None
  | _, _, _, _ => None
  end.

(** The body of a string after its opening quote, up to the closing one. *)
Fixpoint scan_string (s : string) : option (string * string) :=
  match s with
  | EmptyString => None
  | String c s' =>
      if Ascii.eqb c dq then Some (EmptyString, s')
      else if Ascii.eqb c "\" then
        match s' with
        | String e s'' =>
            if Ascii.eqb e "u" then
              match s'' with
              | String h3 (String h2 (String h1 (String h0 s3))) =>
                  match hex4 h3 h2 h1 h0, scan_string s3 with
                  | Some x, Some (body, r) => Some (String x body, r)
                  | _, _ => None
                  end
              | _ => None
              end
            else
            let esc :=
              if Ascii.eqb e dq then Some dq
              else if Ascii.eqb e "\" then Some "\"%char
              else if Ascii.eqb e "/" then Some "/"%char
              else if Ascii.eqb e "b" then Some "008"%char
              else if Ascii.eqb e "f" then Some "012"%char
              else if Ascii.eqb e "n" then Some "010"%char
              else if Ascii.eqb e "r" then Some "013"%char
              else if Ascii.eqb e "t" then Some "009"%char
              else None in
            match esc, scan_string s'' with
            | Some x, Some (body, r) => Some (String x body, r)
            | _, _ => None
            end
        | EmptyString => None
        end
      else if (nat_of_ascii c <? 32)%nat then None
      else
        match scan_string s' with
        | Some (body, r) => Some (String c body, r)
        | None => None
        end
  end.

Definition strip_prefix (p s : string) : option string :=
  if String.prefix p s
  then Some (String.substring (String.length p)
                              (String.length s - String.length p) s)
  else None.

Fixpoint parse_value (fuel : nat) (s : string) : option (value * string) :=
  match fuel with
  | O => None
  | S n =>
      match s with
      | EmptyString => None
      | String c rest =>
          if Ascii.eqb c dq then
            match scan_string rest with
            | Some (str, r) => Some (VStr str, r)
            | None => None
            end
          else if Ascii.eqb c "{" then
            match skip_ws rest with
            | String c' r =>
                if Ascii.eqb c' "}" then Some (VDict ∅, r)
                else parse_members n ∅ (String c' r)
            | EmptyString => None
            end
          else if Ascii.eqb c "[" then
            match skip_ws rest with
            | String c' r =>
                if Ascii.eqb c' "]" then Some (VList [], r)
                else parse_elements n [] (String c' r)
            | EmptyString => None
            end
          else
            match strip_prefix "null" s, strip_prefix "true" s,
                  strip_prefix "false" s with
            | Some r, _, _ => Some (VNone, r)
            | _, Some r, _ => Some (VBool true, r)
            | _, _, Some r => Some (VBool false, r)
            | _, _, _ =>
                match strip_prefix "NaN" s, strip_prefix "Infinity" s,
                      strip_prefix "-Infinity" s with
                | Some r, _, _ => Some (VNonFinite NaN, r)
                | _, Some r, _ => Some (VNonFinite PosInf, r)
                | _, _, Some r => Some (VNonFinite NegInf, r)
                | _, _, _ => scan_number s
                end
            end
      end
  end
with parse_members (fuel : nat) (acc : dict) (s : string)
  : option (value * string) :=
  match fuel with
  | O => None
  | S n =>
      match s with
      | String c rest =>
          if Ascii.eqb c dq then
            match scan_string rest with
            | Some (k, r) =>
                match skip_ws r with
                | String colon r1 =>
                    if Ascii.eqb colon ":" then
                      match parse_value n (skip_ws r1) with
                      | Some (v, r2) =>
                          match skip_ws r2 with
                          | String sep r3 =>
                              if Ascii.eqb sep "}"
                              then Some (VDict (<[k:=v]> acc), r3)
                              else if Ascii.eqb sep ","
                              then parse_members n (<[k:=v]> acc) (skip_ws r3)
                              else None
                          | EmptyString => None
                          end
                      | None => None
                      end
                    else None
                | EmptyString => None
                end
            | None => None
            end
          else None
      | EmptyString => None
      end
  end
with parse_elements (fuel : nat) (acc : list value) (s : string)
  : option (value * string) :=
  match fuel with
  | O => None
  | S n =>
      match parse_value n s with
      | Some (v, r) =>
          match skip_ws r with
          | String sep r1 =>
              if Ascii.eqb sep "]" then Some (VList (acc ++ [v]), r1)
              else if Ascii.eqb sep ","
              then parse_elements n (acc ++ [v]) (skip_ws r1)
              else None
          | EmptyString => None
          end
      | None => None
      end
  end.

Definition json_loads_ref (s : string) : option value :=
  match parse_value (2 * String.length s + 2) (skip_ws s) with
  | Some (v, r) =>
      match skip_ws r with
      | EmptyString => Some v
      | _ => None
      end
  | None => None
  end.

(** A reference [float(str)]: surrounding blanks are dropped; then come an
    optional sign and either one of [inf], [infinity] and [nan] in any
    letter case, or a decimal number: digits with an optional fraction, or
    a dot followed by digits, then an optional exponent; single
    underscores may separate digits.  The result is the nearest float. *)
Definition is_py_space (c : ascii) : bool :=
  let n := nat_of_ascii c in
  ((9 <=? n)%nat && (n <=? 13)%nat) || (n =? 32)%nat
  || (n =? 133)%nat || (n =? 160)%nat.

Fixpoint skip_py_space (s : string) : string :=
  match s with
  | String c s' => if is_py_space c then skip_py_space s' else s
  | EmptyString => s
  end.

Definition lower (c : ascii) : ascii :=
  let n := nat_of_ascii c in
  if (65 <=? n)%nat && (n <=? 90)%nat then ascii_of_nat (n + 32) else c.

Fixpoint lower_string (s : string) : string :=
  match s with
  | String c s' => String (lower c) (lower_string s')
  | EmptyString => EmptyString
  end.

(** Digits with single underscores between them: the digits, and the rest
    of the text. *)
Fixpoint span_grouped_from (after_digit : bool) (s : string)
  : string * string :=
  match s with
  | String c s' =>
      if is_digit c then
        let '(d, r) := span_grouped_from true s' in (String c d, r)
      else if after_digit && Ascii.eqb c "_" then
        match s' with
        | String c2 _ =>
            if is_digit c2 then span_grouped_from false s'
            else (EmptyString, s)
        | EmptyString => (EmptyString, s)
        end
      else (EmptyString, s)
  | EmptyString => (EmptyString, s)
  end.
Definition span_grouped (s : string) : string * string :=
  span_grouped_from false s.

Definition scan_py_exp (s : string) : option Z * string :=
  match s with
  | String c s' =>
      if Ascii.eqb c "e" || Ascii.eqb c "E" then
        let '(neg, s1) :=
          match s' with
          | String sg s2 =>
              if Ascii.eqb sg "-" then (true, s2)
              else if Ascii.eqb sg "+" then (false, s2)
              else (false, s')
          | EmptyString => (false, s')
          end in
        match span_grouped s1 with
        | (EmptyString, _) => (None, s)
        | (d, r) =>
            let e := digits_to_Z 0 d in
            (Some (if neg then (- e)%Z else e), r)
        end
      else (None, s)
  | EmptyString => (None, s)
  end.

Definition float_of_str_ref (s : string) : option pyfloat :=
  let s0 := skip_py_space s in
  let '(neg, s1) :=
    match s0 with
    | String c s' =>
        if Ascii.eqb c "-" then (true, s')
        else if Ascii.eqb c "+" then (false, s')
        else (false, s0)
    | EmptyString => (false, s0)
    end in
  let word := lower_string s1 in
  let special (name : string) (x : nonfinite) : option pyfloat :=
    match strip_prefix name word with
    | Some r =>
        match skip_py_space r with
        | EmptyString => Some (NonFin x)
        | _ => None
        end
    | None => None
    end in
  let inf := if neg then NegInf else PosInf in
  match special "infinity" inf, special "inf" inf, special "nan" NaN with
  | Some x, _, _ | _, Some x, _ | _, _, Some x => Some x
  | None, None, None =>
      let '(ip, r1) := span_grouped s1 in
      let '(fd, r2) :=
        match r1 with
        | String c r' =>
            if Ascii.eqb c "." then span_grouped r' else (EmptyString, r1)
        | EmptyString => (EmptyString, r1)
        end in
      match ip, fd with
      | EmptyString, EmptyString => None
      | _, _ =>
          let '(ex, r3) := scan_py_exp r2 in
          match skip_py_space r3 with
          | EmptyString =>
              let mant := digits_to_Z 0 (ip ++ fd) in
              let e10 := (default 0%Z ex - Z.of_nat (String.length fd))%Z in
              Some (nearest_float
                      (scale10 (if neg then (- mant)%Z else mant) e10))
          | _ => None
          end
      end
  end.

(** The reference choice near the limits of [time.sleep]: the delay is
    refused when its nanoseconds reach 2^63 in magnitude. *)
Definition sleep_near_limit_ref (q : Q) : option exn :=
  if Qle_bool (Qpower 2 63) (Qabs (round_to_double (q * 1000000000)))
  then Some (Exn OverflowError "timestamp too large to convert to C _PyTime_t")
  else if Qltb q 0
       then Some (Exn ValueError "sleep length must be non-negative")
       else None.

Definition ref_lib : PyLib := {|
  json_loads := json_loads_ref;
  float_of_str := float_of_str_ref;
  sleep_near_limit := sleep_near_limit_ref;
  PROMPT_TEMPLATE := "Now analyze the chunk below. {CHUNK} --- CHUNK END ---"
|}.

(** ** Numeric builtins on values *)

(** The number a value is in a comparison: an [int] compares with a float
    by its exact value. *)
Definition num_of (v : value) : option pyfloat :=
  match v with
  | VBool b => Some (Fin (if b then 1 else 0))
  | VInt n => Some (Fin (inject_Z n))
  | VFloat q => Some (Fin q)
  | VNonFinite x => Some (NonFin x)
  | _ => None
  end.

(** The operands of an ordering comparison.  Every comparison of the code
    has a float on one side, so only numbers compare. *)
Definition num_operands (op : string) (l r : value)
  : outcome (pyfloat * pyfloat) :=
  match num_of l, num_of r with
  | Some a, Some b => Ok (a, b)
  | _, _ => Raise (unsupported_operand op (type_name l) (type_name r))
  end.

Definition py_lt (l r : value) : outcome bool :=
  '(a, b) ← num_operands "<" l r; mret (fl_ltb a b).
Definition py_le (l r : value) : outcome bool :=
  '(a, b) ← num_operands "<=" l r; mret (fl_leb a b).
Definition py_ge (l r : value) : outcome bool :=
  '(a, b) ← num_operands ">=" l r; mret (fl_leb b a).

(** [min(a, b)] on values: [b] when [b < a], else [a]. *)
Definition py_min_v (a b : value) : outcome value :=
  c ← py_lt b a; mret (if c : bool then b else a).

(** [a + lit] for a string literal [lit]. *)
Definition py_add_str (a : value) (lit : string) : outcome value :=
  match a with
  | VStr s => Ok (VStr (s ++ lit))
  | VList _ =>
      Raise (Exn TypeError
        ("can only concatenate list (not " ++ quoted "str" ++ ") to list"))
  | _ =>
      Raise (Exn TypeError
        ("unsupported operand type(s) for +: '" ++ type_name a
         ++ "' and 'str'"))
  end.

Section WithLib.
Context {lib : PyLib}.

(** [float(v)]: an [int] goes to the nearest float.  The text of the
    [ValueError] is exact for strings whose [repr] needs no escaping. *)
Definition py_float (v : value) : outcome pyfloat :=
  match v with
  | VBool b => Ok (Fin (if b then 1 else 0))
  | VInt n =>
      if (Z.abs n <? float_int_limit)%Z
      then Ok (Fin (round_to_double (inject_Z n)))
      else Raise (Exn OverflowError "int too large to convert to float")
  | VFloat q => Ok (Fin q)
  | VNonFinite x => Ok (NonFin x)
  | VStr s =>
      match float_of_str s with
      | Some q => Ok q
      | None =>
          Raise (Exn ValueError
            ("could not convert string to float: '" ++ s ++ "'"))
      end
  | _ =>
      Raise (Exn TypeError
        ("float() argument must be a string or a real number, not '"
         ++ type_name v ++ "'"))
  end.

End WithLib.

(** ** Hashable values and sets *)

Inductive hashable : Type :=
| HNone
| HBool (b : bool)
| HInt (n : Z)
| HFloat (q : Q)
| HNonFinite (x : nonfinite)
| HStr (s : string).

(** [hash(v)] succeeds on everything but lists and dicts. *)
Definition to_hashable (v : value) : outcome hashable :=
  match v with
  | VNone => Ok HNone
  | VBool b => Ok (HBool b)
  | VInt n => Ok (HInt n)
  | VFloat q => Ok (HFloat q)
  | VNonFinite x => Ok (HNonFinite x)
  | VStr s => Ok (HStr s)
  | _ => Raise (Exn TypeError ("unhashable type: '" ++ type_name v ++ "'"))
  end.

Definition of_hashable (h : hashable) : value :=
  match h with
  | HNone => VNone
  | HBool b => VBool b
  | HInt n => VInt n
  | HFloat q => VFloat q
  | HNonFinite x => VNonFinite x
  | HStr s => VStr s
  end.

(** [a == b] on floats: [nan] equals nothing. *)
Definition fl_eqb (a b : pyfloat) : bool :=
  match a, b with
  | Fin x, Fin y => Qeq_bool x y
  | NonFin PosInf, NonFin PosInf => true
  | NonFin NegInf, NonFin NegInf => true
  | _, _ => false
  end.

(** [a == b] on hashable values: numbers compare by value across [bool],
    [int] and [float]. *)
Definition h_eqb (a b : hashable) : bool :=
  match a, b with
  | HNone, HNone => true
  | HStr s, HStr t => String.eqb s t
  | _, _ =>
      match num_of (of_hashable a), num_of (of_hashable b) with
      | Some x, Some y => fl_eqb x y
      | _, _ => false
      end
  end.

(** A [set] as the list of its members in the order they were added; a
    member equal to a new one keeps its place.  Values have no identity
    here: that a set holds one [nan] object once, though it equals
    nothing, is not modelled. *)
Definition pyset := list hashable.

Definition set_add (s : pyset) (x : hashable) : pyset :=
  if existsb (h_eqb x) s then s else (s ++ [x])%list.

(** [a < b] between set members: numbers by value, strings by code point,
    anything else raises. *)
Definition h_lt (a b : hashable) : outcome bool :=
  match a, b with
  | HStr s, HStr t => Ok (String.ltb s t)
  | _, _ =>
      match num_of (of_hashable a), num_of (of_hashable b) with
      | Some x, Some y => Ok (fl_ltb x y)
      | _, _ =>
          Raise (unsupported_operand "<" (type_name (of_hashable a))
                                         (type_name (of_hashable b)))
      end
  end.

(** [sorted(l)] as a stable insertion sort on [<].  On the members of a set
    without [nan] neither the result nor whether a comparison raises
    depends on the sorting algorithm; with a [nan] among numbers the order
    the library's algorithm gives is not modelled. *)
Fixpoint sorted_insert (x : hashable) (l : list hashable)
  : outcome (list hashable) :=
  match l with
  | [] => Ok [x]
  | y :: l' =>
      c ← h_lt y x;
      if c : bool then (r ← sorted_insert x l'; mret (y :: r))
      else mret (x :: y :: l')
  end.

Fixpoint py_sorted (l : list hashable) : outcome (list hashable) :=
  match l with
  | [] => Ok []
  | x :: l' => s ← py_sorted l'; sorted_insert x s
  end.

(** [max(xs, default=d)] and [max(x, *xs)]: the running maximum is
    replaced by an element that is greater, so the first maximal element
    wins, and a [nan] met first stays. *)
Definition py_max_from (x : pyfloat) (xs : list pyfloat) : pyfloat :=
  fold_left fl_max xs x.
Definition py_max_default (xs : list pyfloat) (d : pyfloat) : pyfloat :=
  match xs with
  | [] => d
  | x :: xs' => py_max_from x xs'
  end.

(** ** classifier.py: [safe_parse_model_output] *)

(** A dict literal with the seven keys of a classification record. *)
Definition record7 (mnpi categories confidence evidence_summary risk_level
                    recommended_action notes : value) : dict :=
  <["mnpi" := mnpi]> (
  <["categories" := categories]> (
  <["confidence" := confidence]> (
  <["evidence_summary" := evidence_summary]> (
  <["risk_level" := risk_level]> (
  <["recommended_action" := recommended_action]> (
  <["notes" := notes]> ∅)))))).

(** The literal records of the error paths. *)
Definition unclear_record (evidence_summary notes : string) : dict :=
  record7 (VStr "unclear") (VList [VStr "None"]) (VFloat 0.0)
          (VStr evidence_summary) (VStr "low") (VStr "human_review")
          (VStr notes).

Definition no_json_record : dict :=
  unclear_record "No valid JSON returned" "Model did not return JSON".
Definition malformed_record : dict :=
  unclear_record "Malformed JSON" "JSON parse error".
Definition llm_error_record (e : exn) : dict :=
  unclear_record "LLM error" ("LLM error after retries: " ++ exn_msg e).

Definition allowed : list string :=
  [ "Unreleased Earnings/Guidance"; "M&A/Transactions"; "Executive Changes";
    "Product Launch/Strategic Plans"; "Legal/Regulatory Investigations";
    "Insider Trading Risk"; "Confidential Financial Projections"; "None" ].

(** [c in allowed]: membership in a set hashes [c] first. *)
Definition in_allowed (c : value) : outcome bool :=
  h ← to_hashable c;
  mret (existsb (fun a => h_eqb h (HStr a)) allowed).

(** [[c for c in cats if c in allowed]] *)
Fixpoint filter_allowed (cats : list value) : outcome (list value) :=
  match cats with
  | [] => Ok []
  | c :: cats' =>
      keep ← in_allowed c;
      rest ← filter_allowed cats';
      mret (if keep : bool then c :: rest else rest)
  end.

(** [round(max(0.0, min(0.95, x)), 2)], on a finite float and on any
    float. *)
Definition clamp_round (x : Q) : Q := round2 (py_max 0.0 (py_min 0.95 x)).
Definition fl_clamp_round (x : pyfloat) : pyfloat :=
  fl_round2 (fl_max (Fin 0.0) (fl_min (Fin 0.95) x)).

(** Iterating over the categories needs a list. *)
Definition as_list (v : value) : outcome (list value) :=
  match v with
  | VList l => Ok l
  | _ => Raise (Exn TypeError ("'" ++ type_name v ++ "' object is not iterable"))
  end.

Section Classifier.
Context {lib : PyLib}.

(** Lines 76-125: the field normalization on the decoded dict, one
    definition per commented step of the source. *)

(** Lines 77-78. *)
Definition coerce_mnpi (data : dict) : dict :=
  if in_strs (py_get data "mnpi") ["yes"; "no"; "unclear"] then data
  else <["mnpi" := VStr "unclear"]> data.

(** Lines 80-81. *)
Definition coerce_categories (data : dict) : dict :=
  if is_list (py_get data "categories") then data
  else <["categories" := VList [VStr "None"]]> data.

(** Lines 83-88: a confidence that is not a number goes through [float],
    and becomes 0.0 when that raises. *)
Definition coerce_confidence (data : dict) : dict :=
  if is_int_or_float (py_get data "confidence") then data
  else
    match py_float (py_get_or data "confidence" (VFloat 0.0)) with
    | Ok x => <["confidence" := float_value x]> data
    | Raise _ => <["confidence" := VFloat 0.0]> data
    end.

(** Line 91. *)
Definition clamp_confidence (data : dict) : outcome dict :=
  c ← py_getitem data "confidence";
  x ← py_float c;
  mret (<["confidence" := float_value (fl_clamp_round x)]> data).

(** Lines 94-96, and again lines 203-205 on the merged record. *)
Definition low_confidence_override (data : dict) : outcome dict :=
  m ← py_getitem data "mnpi";
  low_yes ←
    (if eq_str m "yes"
     then c ← py_getitem data "confidence"; py_lt c (VFloat 0.5)
     else mret false);
  mret (if low_yes : bool
        then <["recommended_action" := VStr "human_review"]>
               (<["mnpi" := VStr "unclear"]> data)
        else data).

(** Lines 99-104. *)
Definition validate_categories (data : dict) : outcome dict :=
  cats ← py_getitem data "categories";
  cats ← as_list cats;
  kept ← filter_allowed cats;
  let data := <["categories" := VList kept]> data in
  cats ← py_getitem data "categories";
  mret (if truthy cats then data
        else <["categories" := VList [VStr "None"]]> data).

(** Lines 107-114. *)
Definition risk_level_sanity (data : dict) : outcome dict :=
  if in_strs (py_get data "risk_level") ["low"; "medium"; "high"]
  then mret data
  else
    c ← py_getitem data "confidence";
    hi ← py_ge c (VFloat 0.75);
    if hi : bool then mret (<["risk_level" := VStr "high"]> data)
    else
      mid ← py_ge c (VFloat 0.5);
      if mid : bool then mret (<["risk_level" := VStr "medium"]> data)
      else mret (<["risk_level" := VStr "low"]> data).

(** Lines 117-123. *)
Definition recommended_action_sanity (data : dict) : outcome dict :=
  if in_strs (py_get data "recommended_action")
             ["escalate"; "human_review"; "no_action"]
  then mret data
  else
    r ← py_getitem data "risk_level";
    if eq_str r "high"
    then mret (<["recommended_action" := VStr "escalate"]> data)
    else
      m ← py_getitem data "mnpi";
      review ←
        (if eq_str m "unclear" then mret true
         else r ← py_getitem data "risk_level"; mret (eq_str r "medium"));
      if review : bool
      then mret (<["recommended_action" := VStr "human_review"]> data)
      else mret (<["recommended_action" := VStr "no_action"]> data).

Definition normalize_fields (data : dict) : outcome dict :=
  let data := coerce_mnpi data in
  let data := coerce_categories data in
  let data := coerce_confidence data in
  data ← clamp_confidence data;
  data ← low_confidence_override data;
  data ← validate_categories data;
  data ← risk_level_sanity data;
  recommended_action_sanity data.

(** [data.get] on what the decoder returned: a dict has it, anything else
    raises. *)
Definition as_dict (v : value) : outcome dict :=
  match v with
  | VDict d => Ok d
  | _ =>
      Raise (Exn AttributeError
        ("'" ++ type_name v ++ "' object has no attribute 'get'"))
  end.

Definition safe_parse_model_output (response_text : string) : outcome dict :=
  match re_search_braces response_text with
  | None => Ok no_json_record
  | Some m =>
      match json_loads m with
      | None => Ok malformed_record
      | Some data => d ← as_dict data; normalize_fields d
      end
  end.

End Classifier.

(** ** The model client and the clock

    A computation that may call [llm.invoke] and [time.sleep].  The model
    answers an invocation with a text or by raising. *)

Inductive response : Type :=
| Returned (text : string)
| Failed (e : exn).

Inductive prog (A : Type) : Type :=
| Ret (a : A)
| Invoke (prompt : string) (k : response -> prog A)
| Sleep (secs : pyfloat) (k : prog A).
Arguments Ret {A} a.
Arguments Invoke {A} prompt k.
Arguments Sleep {A} secs k.

Fixpoint pbind {A B} (m : prog A) (f : A -> prog B) : prog B :=
  match m with
  | Ret a => f a
  | Invoke p k => Invoke p (fun r => pbind (k r) f)
  | Sleep d k => Sleep d (pbind k f)
  end.

#[export] Instance prog_ret : MRet prog := fun A a => Ret a.
#[export] Instance prog_bind : MBind prog := fun A B f m => pbind m f.

(** [llm.invoke(prompt)] *)
Definition llm_invoke (prompt : string) : prog (outcome string) :=
  Invoke prompt (fun r =>
    match r with
    | Returned text => Ret (Ok text)
    | Failed e => Ret (Raise e)
    end).

(** [time.sleep(secs)] turns the delay into whole nanoseconds before it
    sleeps.  It refuses [nan] with a [ValueError], a delay whose nanoseconds
    do not fit 64 bits with an [OverflowError] (so every delay of 1e10
    seconds or more in magnitude, and the infinities), and a negative delay
    with a [ValueError].  A delay from 0 to 4e9 seconds is slept.  Between
    these ranges the library decides. *)
Definition sleep_overflow : exn :=
  Exn OverflowError "timestamp too large to convert to C _PyTime_t".

Definition sleep_refusal {lib : PyLib} (secs : pyfloat) : option exn :=
  match secs with
  | NonFin NaN => Some (Exn ValueError "Invalid value NaN (not a number)")
  | NonFin _ => Some sleep_overflow
  | Fin q =>
      if Qle_bool 10000000000 (Qabs q) then Some sleep_overflow
      else if Qltb q 0 then
        if Qltb (-9000000000) q
        then Some (Exn ValueError "sleep length must be non-negative")
        else sleep_near_limit q
      else if Qle_bool q 4000000000 then None
      else sleep_near_limit q
  end.

Definition time_sleep {lib : PyLib} (secs : pyfloat) : prog (outcome unit) :=
  match sleep_refusal secs with
  | Some e => Ret (Raise e)
  | None => Sleep secs (Ret (Ok tt))
  end.

(** Running a computation against a model with state [St]. *)
Fixpoint run {St A} (model : St -> string -> response * St)
    (p : prog A) (st : St) : A * St :=
  match p with
  | Ret a => (a, st)
  | Invoke prompt k =>
      let '(r, st') := model st prompt in run model (k r) st'
  | Sleep _ k => run model k st
  end.

(** The number of model invocations of a run. *)
Fixpoint invocations {St A} (model : St -> string -> response * St)
    (p : prog A) (st : St) : nat :=
  match p with
  | Ret _ => 0
  | Invoke prompt k =>
      let '(r, st') := model st prompt in S (invocations model (k r) st')
  | Sleep _ k => invocations model k st
  end.

(** A test double: the model replays a script, and fails once it is
    used up. *)
Definition scripted (st : list response) (prompt : string)
  : response * list response :=
  match st with
  | r :: st' => (r, st')
  | [] => (Failed (Exn RuntimeError "script exhausted"), [])
  end.

(** [s.replace(old, new)] for a non-empty [old]; [skip] counts the
    characters of a replaced occurrence still to be dropped. *)
Fixpoint replace_from (old new : string) (skip : nat) (s : string) : string :=
  match s with
  | EmptyString => EmptyString
  | String c s' =>
      match skip with
      | S k => replace_from old new k s'
      | O =>
          if String.prefix old s
          then new ++ replace_from old new (String.length old - 1) s'
          else String c (replace_from old new 0 s')
      end
  end.
Definition str_replace (s old new : string) : string :=
  replace_from old new 0 s.

(** [range(lo, hi)] *)
Definition py_range (lo hi : Z) : list Z := seqZ lo (hi - lo).

(** ** classifier.py: [classify_chunk] *)

Inductive loop_ctrl : Type :=
| CtrlReturn (record : dict)
| CtrlContinue
| CtrlBreak.

Definition verifier_prompt (chunk : string) : string :=
  "RE-CHECK: Based on the previous analysis, do you CONFIRM the MNPI judgement and "
  ++ "confidence? Provide JSON with same schema (mnpi, categories, confidence, evidence_summary, "
  ++ "risk_level, recommended_action, notes). Respond JSON only. If unsure, return mnpi:'unclear'."
  ++ String "010" (String "010" EmptyString)
  ++ "--- ORIGINAL CHUNK ---" ++ String "010" EmptyString ++ chunk.

Section Controller.
Context {lib : PyLib}.

(** Line 143: the early accept test. *)
Definition accept_now (parsed : dict) : outcome bool :=
  c ← py_getitem parsed "confidence";
  hi ← py_ge c (VFloat 0.75);
  if hi : bool then mret true
  else m ← py_getitem parsed "mnpi"; mret (eq_str m "no").

(** Lines 138-151: the body of [try] in one iteration.  It yields the new
    [last_response_text] and how the iteration leaves the loop, or the
    exception for the handler. *)
Definition attempt_try (prompt : string) (attempt max_retries : Z)
    (retry_delay : pyfloat) : prog (outcome (string * loop_ctrl)) :=
  r ← llm_invoke prompt;
  match r with
  | Raise e => Ret (Raise e)
  | Ok response_text =>
      match parsed ← safe_parse_model_output response_text;
            acc ← accept_now parsed;
            mret (parsed, acc) with
      | Raise e => Ret (Raise e)
      | Ok (parsed, true) => Ret (Ok (response_text, CtrlReturn parsed))
      | Ok (parsed, false) =>
          if (attempt <? max_retries)%Z then
            s ← time_sleep retry_delay;
            match s with
            | Raise e => Ret (Raise e)
            | Ok _ => Ret (Ok (response_text, CtrlContinue))
            end
          else Ret (Ok (response_text, CtrlBreak))
      end
  end.

(** Lines 136-167: the loop over the attempts still to make.  [inl] is a
    [return] from inside the loop, [inr] carries [last_response_text] to the
    code after the loop. *)
Fixpoint attempt_loop (prompt : string) (max_retries : Z)
    (retry_delay : pyfloat)
    (attempts : list Z) (last_response_text : string)
  : prog (outcome (dict + string)) :=
  match attempts with
  | [] => Ret (Ok (inr last_response_text))
  | attempt :: rest =>
      r ← attempt_try prompt attempt max_retries retry_delay;
      match r with
      | Ok (_, CtrlReturn parsed) => Ret (Ok (inl parsed))
      | Ok (text, CtrlContinue) =>
          attempt_loop prompt max_retries retry_delay rest text
      | Ok (text, CtrlBreak) => Ret (Ok (inr text))
      | Raise e =>
          let text := "ERROR: " ++ exn_msg e in
          if (attempt <? max_retries)%Z then
            s ← time_sleep retry_delay;
            match s with
            | Raise e' => Ret (Raise e')
            | Ok _ => attempt_loop prompt max_retries retry_delay rest text
            end
          else Ret (Ok (inl (llm_error_record e)))
      end
  end.

(** Line 172: the borderline band, a chained comparison. *)
Definition borderline (parsed : dict) : outcome bool :=
  c ← py_getitem parsed "confidence";
  lo ← py_le (VFloat 0.4) c;
  if lo : bool then py_lt c (VFloat 0.75) else mret false.

(** Lines 183-201: the merged record, before the override. *)
Definition merged_record (parsed verifier_parsed : dict) : outcome dict :=
  pc ← py_getitem parsed "confidence";
  final_conf ← py_min_v pc (py_get_or verifier_parsed "confidence" (VFloat 0.0));
  final_mnpi ← py_getitem parsed "mnpi";
  vm ← py_getitem verifier_parsed "mnpi";
  final_mnpi ←
    (if eq_str vm "unclear" then mret (VStr "unclear")
     else
       pm ← py_getitem parsed "mnpi";
       if eq_str pm "unclear" then mret (VStr "unclear")
       else
         vm ← py_getitem verifier_parsed "mnpi";
         if eq_str vm "no"
         then pm ← py_getitem parsed "mnpi";
              mret (if eq_str pm "yes" then VStr "unclear" else final_mnpi)
         else mret final_mnpi);
  final_categories ←
    (if truthy (py_get verifier_parsed "categories")
     then py_getitem verifier_parsed "categories"
     else py_getitem parsed "categories");
  x ← py_float final_conf;
  mret (record7 final_mnpi final_categories (float_value (fl_clamp_round x))
          (py_or (py_get verifier_parsed "evidence_summary")
                 (py_get parsed "evidence_summary"))
          (py_or (py_get verifier_parsed "risk_level")
                 (py_get parsed "risk_level"))
          (py_or (py_get verifier_parsed "recommended_action")
                 (py_get parsed "recommended_action"))
          (py_or (py_get verifier_parsed "notes") (py_get parsed "notes"))).

(** Lines 183-206: the merge of the two passes. *)
Definition merge_passes (parsed verifier_parsed : dict) : outcome dict :=
  final ← merged_record parsed verifier_parsed;
  low_confidence_override final.

(** Lines 207-211: the handler of a failed verifier pass. *)
Definition verifier_failed (parsed : dict) : outcome dict :=
  let parsed := <["recommended_action" := VStr "human_review"]> parsed in
  notes ← py_add_str (py_or (py_get parsed "notes") (VStr EmptyString))
                     " | verifier failed";
  mret (<["notes" := notes]> parsed).

(** Lines 169-214: the code after the loop. *)
Definition verifier_stage (chunk last_response_text : string)
  : prog (outcome dict) :=
  match parsed ← safe_parse_model_output last_response_text;
        b ← borderline parsed;
        mret (parsed, b) with
  | Raise e => Ret (Raise e)
  | Ok (parsed, false) => Ret (Ok parsed)
  | Ok (parsed, true) =>
      r ← llm_invoke (verifier_prompt chunk);
      match verifier_text ← r;
            verifier_parsed ← safe_parse_model_output verifier_text;
            merge_passes parsed verifier_parsed with
      | Ok final => Ret (Ok final)
      | Raise _ => Ret (verifier_failed parsed)
      end
  end.

Definition classify_chunk (chunk : string) (max_retries : Z)
    (retry_delay : pyfloat)
  : prog (outcome dict) :=
  let prompt := str_replace PROMPT_TEMPLATE "{CHUNK}" chunk in
  r ← attempt_loop prompt max_retries retry_delay
        (py_range 1 (max_retries + 1)) EmptyString;
  match r with
  | Raise e => Ret (Raise e)
  | Ok (inl record) => Ret (Ok record)
  | Ok (inr last_response_text) => verifier_stage chunk last_response_text
  end.

End Controller.

(** ** analyzer.py: [_normalize_classify_output]

    On the values of the model: a dict is returned as it is, a string goes
    through the decoder, anything else gets the fallback dict.  (Byte
    strings and wrapper objects with a [content] attribute are not values
    of the model.)  The direct decode returns whatever the text denotes,
    not only dicts. *)

Definition normalization_fallback : dict :=
  record7 (VStr "unclear") (VList [VStr "None"]) (VFloat 0.0)
          (VStr "Could not parse model output") (VStr "low")
          (VStr "human_review") (VStr "Normalization fallback used").

Definition _normalize_classify_output {lib : PyLib} (result : value) : value :=
  match result with
  | VDict _ => result
  | VStr raw =>
      match json_loads raw with
      | Some v => v
      | None =>
          match re_search_braces raw with
          | Some m =>
              match json_loads m with
              | Some v => v
              | None => VDict normalization_fallback
              end
          | None => VDict normalization_fallback
          end
      end
  | _ => VDict normalization_fallback
  end.

(** ** aggregator.py: [aggregate_results] *)

(** The dict literal of lines 18-24. *)
Record normalized_entry : Type := {
  n_mnpi : value;
  n_categories : list value;
  n_confidence : pyfloat;
  n_evidence_summary : value;
  n_recommended_action : value
}.

(** The dict literals of lines 32-38 and 55-61. *)
Record DocumentSummary : Type := {
  overall_mnpi : string;
  categories : list value;
  overall_confidence : pyfloat;
  reason : string;
  recommended_action : string
}.

Section Aggregator.
Context {lib : PyLib}.

Definition normalize_entry (r : dict) : outcome normalized_entry :=
  let cats :=
    match py_get_or r "categories" VNone with
    | VList _ =>
        match py_get_or r "categories" (VList [VStr "None"]) with
        | VList l => l
        | _ => [VStr "None"]
        end
    | _ => [VStr "None"]
    end in
  conf ←
    (match py_get r "confidence" with
     | VNone => mret (Fin 0.0)
     | _ => py_float (py_get_or r "confidence" (VFloat 0.0))
     end);
  mret {| n_mnpi := py_get_or r "mnpi" (VStr "unclear");
          n_categories := cats;
          n_confidence := conf;
          n_evidence_summary := py_get_or r "evidence_summary" (VStr EmptyString);
          n_recommended_action :=
            py_get_or r "recommended_action" (VStr "human_review") |}.

(** Lines 14-24: entries that are not dicts are skipped. *)
Fixpoint normalize_results (results : list value)
  : outcome (list normalized_entry) :=
  match results with
  | [] => Ok []
  | VDict r :: results' =>
      e ← normalize_entry r;
      rest ← normalize_results results';
      mret (e :: rest)
  | _ :: results' => normalize_results results'
  end.

(** Lines 41-44: the categories of the flagged entries, added one by one. *)
Fixpoint add_all (s : pyset) (cs : list value) : outcome pyset :=
  match cs with
  | [] => Ok s
  | c :: cs' => h ← to_hashable c; add_all (set_add s h) cs'
  end.

Fixpoint collect_categories (s : pyset) (flags : list normalized_entry)
  : outcome pyset :=
  match flags with
  | [] => Ok s
  | r :: flags' => s' ← add_all s (n_categories r); collect_categories s' flags'
  end.

Definition is_flagged (r : normalized_entry) : bool := eq_str (n_mnpi r) "yes".
Definition is_unclear (r : normalized_entry) : bool :=
  eq_str (n_mnpi r) "unclear".
Definition is_none_tag (h : hashable) : bool := h_eqb h (HStr "None").

(** Lines 46-50: the set without the sentinel, sorted; empty when the set
    is exactly the sentinel. *)
Definition sanitize_categories (categories_set : pyset)
  : outcome (list hashable) :=
  match categories_set with
  | [h] =>
      if is_none_tag h then mret []
      else py_sorted (List.filter (fun c => negb (is_none_tag c)) categories_set)
  | _ => py_sorted (List.filter (fun c => negb (is_none_tag c)) categories_set)
  end.

(** Lines 26-61: the summary of the normalized entries. *)
Definition summarize (normalized : list normalized_entry)
  : outcome DocumentSummary :=
  let mnpi_flags := List.filter is_flagged normalized in
  match mnpi_flags with
  | [] =>
      let any_unclear := existsb is_unclear normalized in
      mret {| overall_mnpi := "no";
              categories := [];
              overall_confidence :=
                fl_round2
                  (py_max_default (n_confidence <$> normalized) (Fin 0.0));
              reason :=
                if negb any_unclear then "No MNPI detected."
                else "No MNPI detected; some chunks marked unclear - human review recommended.";
              recommended_action :=
                if any_unclear then "human_review" else "no_action" |}
  | first :: others =>
      categories_set ← collect_categories [] mnpi_flags;
      cats ← sanitize_categories categories_set;
      let overall :=
        fl_round2
          (py_max_from (n_confidence first) (n_confidence <$> others)) in
      mret {| overall_mnpi := "yes";
              categories := of_hashable <$> cats;
              overall_confidence := overall;
              reason :=
                "Detected MNPI in " ++ pretty (length mnpi_flags)
                ++ " chunk(s).";
              recommended_action :=
                if fl_leb (Fin 0.75) overall
                then "escalate" else "human_review" |}
  end.

Definition aggregate_results (results : list value) : outcome DocumentSummary :=
  normalized ← normalize_results results;
  summarize normalized.

End Aggregator.

(** ** What the claims speak about *)

Definition verdicts : list string := ["yes"; "no"; "unclear"].
Definition risk_levels : list string := ["low"; "medium"; "high"].
Definition actions : list string := ["escalate"; "human_review"; "no_action"].

(** Key [k] holds a string drawn from [dom]. *)
Definition str_field (d : dict) (k : string) (dom : list string) : Prop :=
  exists s, d !! k = Some (VStr s) /\ s ∈ dom.

(** A whole number of hundredths in [0, 0.95]. *)
Definition hundredths (q : Q) : Prop :=
  exists k : Z, (q == k # 100)%Q /\ (0 <= k <= 95)%Z.

(** The confidence is a float, a whole number of hundredths in [0, 0.95]. *)
Definition conf_field (d : dict) : Prop :=
  exists q, d !! "confidence" = Some (VFloat q) /\ hundredths q.

(** The categories are a non-empty list of tags of the vocabulary. *)
Definition cats_field (d : dict) : Prop :=
  exists l, d !! "categories" = Some (VList l) /\ l <> [] /\
            Forall (fun c => exists s, c = VStr s /\ s ∈ allowed) l.

(** The five fields the normalizer validates, and the override. *)
Record validated (d : dict) : Prop := {
  v_mnpi : str_field d "mnpi" verdicts;
  v_categories : cats_field d;
  v_confidence : conf_field d;
  v_risk_level : str_field d "risk_level" risk_levels;
  v_recommended_action : str_field d "recommended_action" actions;
  v_no_low_yes : forall q,
    d !! "mnpi" = Some (VStr "yes") -> d !! "confidence" = Some (VFloat q) ->
    (0.5 <= q)%Q
}.

(** The merge rules in the words of the specification: the verdict is
    unclear when either pass says unclear or the two disagree, else the
    first pass's verdict; a field takes the verifier's value when present
    and non-empty, else the first pass's value. *)
Definition spec_merged_verdict (first verifier : string) : string :=
  if String.eqb first "unclear" || String.eqb verifier "unclear"
  then "unclear"
  else if negb (String.eqb first verifier) then "unclear" else first.

Definition prefer_verifier (verifier first : dict) (k : string) : value :=
  match verifier !! k with
  | Some v => if truthy v then v else py_get first k
  | None => py_get first k
  end.

Definition merged_keys : list string :=
  ["categories"; "evidence_summary"; "risk_level"; "recommended_action";
   "notes"].

(** [d'] differs from [d] at most on the keys [ks]. *)
Definition changes_only (ks : list string) (d d' : dict) : Prop :=
  forall k, k ∉ ks -> d' !! k = d !! k.

(** Character [c] occurs in [s]. *)
Fixpoint char_in (c : ascii) (s : string) : bool :=
  match s with
  | EmptyString => false
  | String c' s' => Ascii.eqb c' c || char_in c s'
  end.

(** ** Well-typed aggregator input

    An entry the aggregator can digest: not a dict (it is skipped), or a
    dict whose confidence is absent, [None] or a value [float()] converts
    (a [bool], a float, an [int] within the float range, a string it
    reads), and whose categories, when a list, hold strings only. *)

Definition is_str (v : value) : bool :=
  match v with VStr _ => true | _ => false end.

Definition confidence_ok {lib : PyLib} (v : value) : bool :=
  match v with
  | VNone | VBool _ | VFloat _ | VNonFinite _ => true
  | VInt n => (Z.abs n <? float_int_limit)%Z
  | VStr s => match float_of_str s with Some _ => true | None => false end
  | _ => false
  end.

Definition entry_ok {lib : PyLib} (v : value) : bool :=
  match v with
  | VDict r =>
      confidence_ok (py_get r "confidence")
      && match r !! "categories" with
         | Some (VList l) => forallb is_str l
         | _ => true
         end
  | _ => true
  end.

(** The entry is a dict whose mnpi is yes. *)
Definition says_yes (v : value) : bool :=
  match v with
  | VDict r => eq_str (py_get r "mnpi") "yes"
  | _ => false
  end.

(** The categories of a normalized entry are strings. *)
Definition strings_only (e : normalized_entry) : Prop :=
  forallb is_str (n_categories e) = true.

(** ** What the aggregator reads in a record, in the words of its
    docstring and of the specification *)

(** The dict entries of the input, in their order. *)
Definition dicts_of (results : list value) : list dict :=
  omap (fun v => match v with VDict r => Some r | _ => None end) results.

(** The verdict: mnpi, read as unclear when the key is missing. *)
Definition record_verdict (r : dict) : value :=
  match r !! "mnpi" with Some v => v | None => VStr "unclear" end.

(** The tags: the categories when they are a list, else the sentinel. *)
Definition record_tags (r : dict) : list value :=
  match r !! "categories" with
  | Some (VList l) => l
  | _ => [VStr "None"]
  end.

(** The confidence: 0.0 when the key is missing or holds [None], else the
    float the value converts to (0.0 stands in for a value that does not
    convert). *)
Definition record_confidence {lib : PyLib} (r : dict) : pyfloat :=
  match r !! "confidence" with
  | Some (VBool b) => Fin (if b then 1 else 0)
  | Some (VInt n) => Fin (round_to_double (inject_Z n))
  | Some (VFloat q) => Fin q
  | Some (VNonFinite x) => NonFin x
  | Some (VStr s) => default (Fin 0.0) (float_of_str s)
  | _ => Fin 0.0
  end.

(** The record as the aggregator keeps it. *)
Definition read_entry {lib : PyLib} (r : dict) : normalized_entry :=
  {| n_mnpi := record_verdict r;
     n_categories := record_tags r;
     n_confidence := record_confidence r;
     n_evidence_summary :=
       match r !! "evidence_summary" with
       | Some v => v
       | None => VStr EmptyString
       end;
     n_recommended_action :=
       match r !! "recommended_action" with
       | Some v => v
       | None => VStr "human_review"
       end |}.

(** The flagged records: the dict entries whose mnpi is yes. *)
Definition flagged_records (results : list value) : list dict :=
  List.filter (fun r => says_yes (VDict r)) (dicts_of results).

(** The confidence of the entry, when it is a dict, is not [nan]. *)
Definition is_nan (x : pyfloat) : bool :=
  match x with NonFin NaN => true | _ => false end.
Definition nan_free {lib : PyLib} (v : value) : bool :=
  match v with
  | VDict r => negb (is_nan (record_confidence r))
  | _ => true
  end.

(** The entry is a dict that the aggregator reads as unclear: its mnpi is
    unclear or missing. *)
Definition says_unclear (v : value) : bool :=
  match v with
  | VDict r => eq_str (py_get_or r "mnpi" (VStr "unclear")) "unclear"
  | _ => false
  end.

(** The confidence of a dict entry converts to a float. *)
Definition entry_confidence_ok {lib : PyLib} (v : value) : bool :=
  match v with
  | VDict r => confidence_ok (py_get r "confidence")
  | _ => true
  end.

(** The categories of the entry, when it is a dict and they are a list,
    hold only strings. *)
Definition entry_tags_ok (v : value) : bool :=
  match v with
  | VDict r => forallb is_str (record_tags r)
  | _ => true
  end.

(** No flagged record has [nan] as its confidence, and the tags of the
    flagged records are strings. *)
Definition flagged_nan_free {lib : PyLib} (results : list value) : bool :=
  forallb (fun r => negb (is_nan (record_confidence r)))
          (flagged_records results).
Definition flagged_tags_ok (results : list value) : bool :=
  forallb (fun r => forallb is_str (record_tags r)) (flagged_records results).

(** Equal floats: finite ones that denote the same number, or the same
    infinity. *)
Definition fl_eq (a b : pyfloat) : Prop :=
  match a, b with
  | Fin x, Fin y => (x == y)%Q
  | NonFin PosInf, NonFin PosInf => True
  | NonFin NegInf, NonFin NegInf => True
  | _, _ => False
  end.

(** [m] is the greatest element of [xs]. *)
Definition is_max_of (m : pyfloat) (xs : list pyfloat) : Prop :=
  (exists x, x ∈ xs /\ fl_eq x m) /\ forall x, x ∈ xs -> fl_leb x m = true.

(** The confidence of the record is a float within 0 and 0.95. *)
Definition in_unit_range {lib : PyLib} (v : value) : bool :=
  match v with
  | VDict r =>
      match record_confidence r with
      | Fin q => Qle_bool 0 q && Qle_bool q 0.95
      | NonFin _ => false
      end
  | _ => true
  end.

(** Ascending in code-point order without repetition. *)
Definition str_lt (s t : string) : Prop := String.ltb s t = true.
Definition str_le (s t : string) : Prop := String.leb s t = true.

(** The shape every summary of well-typed entries has: a verdict yes or
    no, categories that are strings in ascending order without
    repetition, a confidence that is a float rounded to two decimals, an
    action of the enumeration. *)
Record summary_shape (s : DocumentSummary) : Prop := {
  sh_overall_mnpi : overall_mnpi s ∈ ["yes"; "no"];
  sh_categories :
    exists cs, categories s = VStr <$> cs /\ StronglySorted str_lt cs;
  sh_overall_confidence :
    exists x, overall_confidence s = fl_round2 x;
  sh_recommended_action : recommended_action s ∈ actions
}.

(** A summary in its declared domains: its confidence is moreover a whole
    number of hundredths within 0 and 0.95. *)
Record well_formed (s : DocumentSummary) : Prop := {
  wf_shape : summary_shape s;
  wf_overall_confidence :
    exists q, overall_confidence s = Fin q /\ hundredths q
}.

(** ** Concrete model responses *)

(** A JSON member: the quoted key, a colon, the value text. *)
Definition member (k v : string) : string := quoted k ++ ": " ++ v.

(** A confident negative answer that names neither evidence nor notes. *)
Definition terse_no_text : string :=
  "{" ++ member "mnpi" (quoted "no") ++ ", " ++ member "confidence" "0.9" ++ "}".

(** A borderline positive answer whose notes are a number. *)
Definition numeric_notes_text : string :=
  "{" ++ member "mnpi" (quoted "yes") ++ ", " ++ member "confidence" "0.6"
  ++ ", " ++ member "notes" "5" ++ "}".

(** The two passes of the merge example: yes at 0.6, then unclear at 0.5. *)
Definition first_pass_text : string :=
  "{" ++ member "mnpi" (quoted "yes") ++ ", " ++ member "confidence" "0.6"
  ++ ", " ++ member "notes" (quoted "first") ++ "}".
Definition verifier_pass_text : string :=
  "{" ++ member "mnpi" (quoted "unclear") ++ ", " ++ member "confidence" "0.5"
  ++ "}".

(** A positive answer at 0.3. *)
Definition low_yes_text : string :=
  "{" ++ member "mnpi" (quoted "yes") ++ ", " ++ member "confidence" "0.3" ++ "}".

Definition connection_error : exn := Exn RuntimeError "connection refused".

(** The record of an outcome, the empty dict when it is an exception. *)
Definition record_of (o : outcome dict) : dict :=
  match o with
  | Ok d => d
  | Raise _ => ∅
  end.

(** What the decoder makes of [low_yes_text]. *)
Definition low_yes_decoded : dict :=
  <["mnpi" := VStr "yes"]> (<["confidence" := VFloat (round_to_double 0.3)]> ∅).

(** The normalized records of the concrete responses. *)
Definition terse_no_record : dict :=
  record_of (@safe_parse_model_output ref_lib terse_no_text).
Definition low_yes_record : dict :=
  record_of (@safe_parse_model_output ref_lib low_yes_text).
Definition first_pass_record : dict :=
  record_of (@safe_parse_model_output ref_lib first_pass_text).
Definition verifier_pass_record : dict :=
  record_of (@safe_parse_model_output ref_lib verifier_pass_text).

(** A record that did not go through the normalizer: yes at 0.45. *)
Definition raw_low_yes : dict :=
  record7 (VStr "yes") (VList [VStr "None"]) (VFloat 0.45) (VStr "guess")
          (VStr "low") (VStr "no_action") (VStr "unchecked").
Definition raw_merged : dict :=
  record_of (@merged_record ref_lib raw_low_yes raw_low_yes).
Definition raw_merged_final : dict :=
  record_of (@merge_passes ref_lib raw_low_yes raw_low_yes).

(** ** Concrete aggregator inputs *)

Definition entry (mnpi : string) (confidence : Q) (tags : list string) : value :=
  VDict (<["mnpi" := VStr mnpi]> (<["confidence" := VFloat confidence]>
        (<["categories" := VList (VStr <$> tags)]> ∅))).

(** What the normalization makes of an empty dict. *)
Definition default_entry : normalized_entry :=
  {| n_mnpi := VStr "unclear";
     n_categories := [VStr "None"];
     n_confidence := Fin 0.0;
     n_evidence_summary := VStr EmptyString;
     n_recommended_action := VStr "human_review" |}.

(** A flagged entry with a list among its categories, and an unflagged
    entry whose confidence is 7. *)
Definition list_tag_entry : value :=
  VDict (<["mnpi" := VStr "yes"]>
           (<["categories" := VList [VStr "M&A/Transactions"; VList []]]> ∅)).
Definition overconfident_entry : value := entry "no" 7 [].
Definition overconfident_summary : DocumentSummary :=
  {| overall_mnpi := "no";
     categories := [];
     overall_confidence := Fin (700 # 100);
     reason := "No MNPI detected.";
     recommended_action := "no_action" |}.


(** An entry whose confidence is [nan], and entries at the floats nearest
    0.9 and 0.8. *)
Definition nan_entry (mnpi : string) : value :=
  VDict (<["mnpi" := VStr mnpi]> (<["confidence" := VNonFinite NaN]> ∅)).
Definition confident_entry (mnpi : string) : value :=
  entry mnpi (round_to_double 0.9) [].
Definition tagged_entry : value :=
  entry "yes" (round_to_double 0.8) ["M&A/Transactions"].


(** A flagged [nan] ahead of a flagged entry at 0.8. *)
Definition nan_flag_results : list value := [nan_entry "yes"; tagged_entry].
Definition nan_flag_summary : DocumentSummary :=
  {| overall_mnpi := "yes";
     categories := [VStr "M&A/Transactions"];
     overall_confidence := NonFin NaN;
     reason := "Detected MNPI in 2 chunk(s).";
     recommended_action := "human_review" |}.

(** Flagged entries with a dict among the categories and with a dict as
    the confidence. *)
Definition dict_tag_entry : value :=
  VDict (<["mnpi" := VStr "yes"]> (<["categories" := VList [VDict ∅]]> ∅)).
Definition dict_confidence_entry : value :=
  VDict (<["mnpi" := VStr "yes"]> (<["confidence" := VDict ∅]> ∅)).

(** Unflagged entries: a confidence given as a word, and a [nan] ahead of
    an entry at 0.9. *)
Definition worded_confidence_entry : value :=
  VDict (<["mnpi" := VStr "no"]> (<["confidence" := VStr "high"]> ∅)).
Definition nan_unflagged_results : list value :=
  [nan_entry "no"; confident_entry "no"].
Definition nan_unflagged_summary : DocumentSummary :=
  {| overall_mnpi := "no";
     categories := [];
     overall_confidence := NonFin NaN;
     reason := "No MNPI detected.";
     recommended_action := "no_action" |}.

(** An entry whose confidence is a list. *)
Definition list_confidence_entry : value :=
  VDict (<["confidence" := VList []]> ∅).

(** ** Further notions for the properties of the normalizer *)

Definition is_hashable (v : value) : bool :=
  match v with
  | VList _ | VDict _ => false
  | _ => true
  end.

(** A decoded dict the normalizer can digest: its categories, when a list,
    hold no list and no dict, and its confidence is not an [int] beyond the
    float range. *)
Definition normalizable (d : dict) : bool :=
  match d !! "categories" with
  | Some (VList l) => forallb is_hashable l
  | _ => true
  end
  && match d !! "confidence" with
     | Some (VInt n) => (Z.abs n <? float_int_limit)%Z
     | _ => true
     end.

(** The tag is a string of the vocabulary. *)
Definition in_vocabulary (v : value) : bool :=
  match v with
  | VStr s => existsb (String.eqb s) allowed
  | _ => false
  end.

(** The float the normalizer reads as the raw confidence: the number
    itself (an [int] as the nearest float), what [float] makes of a
    string, and 0.0 for anything else. *)
Definition raw_confidence {lib : PyLib} (d : dict) : pyfloat :=
  match d !! "confidence" with
  | Some (VBool b) => Fin (if b then 1 else 0)
  | Some (VInt n) => Fin (round_to_double (inject_Z n))
  | Some (VFloat q) => Fin q
  | Some (VNonFinite x) => NonFin x
  | Some (VStr s) => default (Fin 0.0) (float_of_str s)
  | _ => Fin 0.0
  end.

(** The number the clamp leaves: [nan] and [inf] end at 0.95, [-inf] at
    0.0. *)
Definition clamped (x : pyfloat) : Q :=
  match x with
  | Fin q => clamp_round q
  | NonFin NegInf => round2 0.0
  | NonFin _ => round2 0.95
  end.

(** The risk level and the action the normalizer derives. *)
Definition derived_risk (c : Q) : string :=
  if Qle_bool 0.75 c then "high"
  else if Qle_bool 0.5 c then "medium" else "low".

Definition derived_action (mnpi risk : string) : string :=
  if String.eqb risk "high" then "escalate"
  else if String.eqb mnpi "unclear" || String.eqb risk "medium"
       then "human_review" else "no_action".

(** The fields of the normalized record as functions of the decoded
    dict. *)
Definition valid_str (v : option value) (dom : list string) : option string :=
  match v with
  | Some (VStr s) => if existsb (String.eqb s) dom then Some s else None
  | _ => None
  end.

Definition raw_categories (d : dict) : list value :=
  match d !! "categories" with
  | Some (VList l) => l
  | _ => [VStr "None"]
  end.

Definition expected_categories (d : dict) : list value :=
  match List.filter in_vocabulary (raw_categories d) with
  | [] => [VStr "None"]
  | kept => kept
  end.

Definition expected_confidence {lib : PyLib} (d : dict) : Q :=
  clamped (raw_confidence d).

Definition coerced_verdict (d : dict) : string :=
  default "unclear" (valid_str (d !! "mnpi") verdicts).

Definition is_low_yes {lib : PyLib} (d : dict) : bool :=
  String.eqb (coerced_verdict d) "yes" && Qltb (expected_confidence d) 0.5.

Definition expected_verdict {lib : PyLib} (d : dict) : string :=
  if is_low_yes d then "unclear" else coerced_verdict d.

Definition expected_risk {lib : PyLib} (d : dict) : string :=
  default (derived_risk (expected_confidence d))
          (valid_str (d !! "risk_level") risk_levels).

Definition expected_action {lib : PyLib} (d : dict) : string :=
  if is_low_yes d then "human_review"
  else default (derived_action (expected_verdict d) (expected_risk d))
               (valid_str (d !! "recommended_action") actions).

(** ** More concrete responses *)

Definition first_pass_decoded : dict :=
  <["mnpi" := VStr "yes"]> (<["confidence" := VFloat (round_to_double 0.6)]>
    (<["notes" := VStr "first"]> ∅)).

(** An answer whose categories hold a list. *)
Definition nested_categories_text : string :=
  "{" ++ member "categories" "[[1]]" ++ "}".
Definition nested_categories_decoded : dict :=
  <["categories" := VList [VList [VInt 1]]]> ∅.

(** An answer with a known tag, an unknown one and a number as categories,
    and a string as confidence. *)
Definition mixed_tags_text : string :=
  "{" ++ member "mnpi" (quoted "no") ++ ", "
  ++ member "categories"
       ("[" ++ quoted "M&A/Transactions" ++ ", " ++ quoted "Gossip" ++ ", 3]")
  ++ ", " ++ member "confidence" (quoted "0.97") ++ "}".
Definition mixed_tags_decoded : dict :=
  <["mnpi" := VStr "no"]>
    (<["categories" := VList [VStr "M&A/Transactions"; VStr "Gossip"; VInt 3]]>
       (<["confidence" := VStr "0.97"]> ∅)).
Definition mixed_tags_record : dict :=
  record_of (@safe_parse_model_output ref_lib mixed_tags_text).

(** What the decoder makes of [terse_no_text]. *)
Definition terse_no_decoded : dict :=
  <["mnpi" := VStr "no"]> (<["confidence" := VFloat (round_to_double 0.9)]> ∅).

(** ** The handler of a failed verifier pass

    The text the handler appends to: the notes of the first pass when they
    are a string, the empty string when they are missing or falsy. *)
Definition notes_text (p : dict) : string :=
  match p !! "notes" with Some (VStr s) => s | _ => EmptyString end.

(** The notes the handler can append to. *)
Definition notes_appendable (p : dict) : bool :=
  match p !! "notes" with
  | Some v => is_str v || negb (truthy v)
  | None => true
  end.

(** The verifier pass fails before the merge: the invocation raises, or the
    normalizer raises on the text it returned. *)
Definition verifier_fails {lib : PyLib} {St : Type}
    (model : St -> string -> response * St) (chunk : string) (st1 st2 : St)
  : Prop :=
  (exists e, model st1 (verifier_prompt chunk) = (Failed e, st2)) \/
  (exists vt e, model st1 (verifier_prompt chunk) = (Returned vt, st2) /\
                safe_parse_model_output vt = Raise e).

(** An attempt that settles nothing: the invocation raises, the normalizer
    raises, or the record is not accepted. *)
Definition unsettled {lib : PyLib} (r : response) : Prop :=
  match r with
  | Failed _ => True
  | Returned text =>
      match safe_parse_model_output text with
      | Raise _ => True
      | Ok parsed => accept_now parsed <> Ok true
      end
  end.

(** A model that is never reachable. *)
Definition unreachable_model (st : unit) (prompt : string) : response * unit :=
  (Failed connection_error, tt).

(** The record of a run of the merge example. *)
Definition merged_example : dict :=
  record_of (fst (run scripted (@classify_chunk ref_lib "chunk" 1 0.6)
                    [Returned first_pass_text; Returned verifier_pass_text])).

(** ** The aggregator on raw entries *)

(** The text of the reason field. *)
Definition reason_text (results : list value) : string :=
  if existsb says_yes results
  then "Detected MNPI in " ++ pretty (length (List.filter says_yes results))
       ++ " chunk(s)."
  else if existsb says_unclear results
       then "No MNPI detected; some chunks marked unclear - human review recommended."
       else "No MNPI detected.".

(** ** analyzer.py: the loop of [analyze_document]

    Lines 63-66, from the chunks on: [load_document] and [chunk_text] call
    the file readers and the text splitter and are not part of the model,
    and the progress lines written to the console are left out.  Each chunk
    is classified with the default budget and delay and the record goes
    through [_normalize_classify_output] before it is appended. *)
Definition default_max_retries : Z := 2.
Definition default_retry_delay : pyfloat := Fin 0.6.

Fixpoint analyze_loop {lib : PyLib} (chunks : list string)
    (results : list value) : prog (outcome (list value)) :=
  match chunks with
  | [] => Ret (Ok results)
  | chunk :: rest =>
      r ← classify_chunk chunk default_max_retries default_retry_delay;
      match r with
      | Raise e => Ret (Raise e)
      | Ok raw_result =>
          let normalized := _normalize_classify_output (VDict raw_result) in
          analyze_loop rest (results ++ [normalized])%list
      end
  end.

Definition analyze_chunks {lib : PyLib} (chunks : list string)
  : prog (outcome (list value)) :=
  analyze_loop chunks [].

(** The records [classify_chunk] returns on the chunks, one after the
    other in their order, the model going from state [st] to [st']. *)
Inductive classified {lib : PyLib} {St : Type}
    (model : St -> string -> response * St)
  : St -> list string -> list dict -> St -> Prop :=
| classified_nil (st : St) : classified model st [] [] st
| classified_cons (st st1 st' : St) (chunk : string) (rest : list string)
    (d : dict) (ds : list dict) :
    run model (classify_chunk chunk default_max_retries default_retry_delay) st
      = (Ok d, st1) ->
    classified model st1 rest ds st' ->
    classified model st (chunk :: rest) (d :: ds) st'.

(** app.py, lines 6-7: the results of the analysis go to the aggregator. *)
Definition summarize_document {lib : PyLib} (chunks : list string)
  : prog (outcome DocumentSummary) :=
  r ← analyze_chunks chunks;
  Ret (results ← r; aggregate_results results).

(** The summary of a document none of whose chunks could be classified. *)
Definition unreachable_summary : DocumentSummary :=
  {| overall_mnpi := "no";
     categories := [];
     overall_confidence := Fin (round2 0.0);
     reason := "No MNPI detected; some chunks marked unclear - human review recommended.";
     recommended_action := "human_review" |}.

(** A normalized entry as the records of the classifier give it. *)
Definition record_entry (e : normalized_entry) : Prop :=
  (exists q, n_confidence e = Fin q /\ hundredths q) /\
  Forall (fun c => exists s, c = VStr s /\ s ∈ allowed) (n_categories e).

(** What the aggregator keeps of the terminal record of the classifier. *)
Definition terminal_entry : normalized_entry :=
  {| n_mnpi := VStr "unclear";
     n_categories := [VStr "None"];
     n_confidence := Fin 0.0;
     n_evidence_summary := VStr "LLM error";
     n_recommended_action := VStr "human_review" |}.

(** ** More concrete aggregator inputs *)

(** A flagged entry at 0.8, a stray number, an unclear entry and a flagged
    entry that names no category. *)
Definition confident_flag : dict :=
  <["mnpi" := VStr "yes"]> (<["confidence" := VFloat 0.8]>
    (<["categories" := VList [VStr "M&A/Transactions"]]> ∅)).
Definition mixed_results : list value :=
  [VDict confident_flag; VInt 3; entry "unclear" 0.4 [];
   entry "yes" 0.6 ["None"]].
Definition mixed_summary : DocumentSummary :=
  {| overall_mnpi := "yes";
     categories := [VStr "M&A/Transactions"];
     overall_confidence := Fin (80 # 100);
     reason := "Detected MNPI in 2 chunk(s).";
     recommended_action := "escalate" |}.

(** Entries whose categories hold a list. *)
Definition nested_tags (mnpi : string) : dict :=
  <["mnpi" := VStr mnpi]> (<["categories" := VList [VList []]]> ∅).
Definition nested_tags_entry (mnpi : string) : normalized_entry :=
  {| n_mnpi := VStr mnpi;
     n_categories := [VList []];
     n_confidence := Fin 0.0;
     n_evidence_summary := VStr EmptyString;
     n_recommended_action := VStr "human_review" |}.
(** * Properties *)

(** ** Rounding and clamping *)

Lemma Qltb_lt (a b : Q) : Qltb a b = true <-> (a < b)%Q.
Proof.
  unfold Qltb. rewrite negb_true_iff.
  destruct (Qle_bool b a) eqn:E.
  - apply Qle_bool_iff in E. split; [discriminate | intros H; lra].
  - split; [intros _ | reflexivity].
    apply Qnot_le_lt. intros H. apply Qle_bool_iff in H. congruence.
Qed.

Lemma Qltb_ge (a b : Q) : Qltb a b = false <-> (b <= a)%Q.
Proof.
  unfold Qltb. rewrite negb_false_iff. apply Qle_bool_iff.
Qed.

#[export] Instance round_half_even_proper : Proper (Qeq ==> eq) round_half_even.
Proof.
  intros x y E. unfold round_half_even.
  rewrite (Qfloor_comp _ _ E).
  assert (H : (x - inject_Z (Qfloor y) == y - inject_Z (Qfloor y))%Q)
    by (rewrite E; reflexivity).
  rewrite (Qcompare_comp _ _ H _ _ (Qeq_refl (1 # 2))). reflexivity.
Qed.

#[export] Instance round2_proper : Proper (Qeq ==> eq) round2.
Proof.
  intros x y E. unfold round2. f_equal.
  apply round_half_even_proper. rewrite E. reflexivity.
Qed.

Lemma round_half_even_Z (k : Z) : round_half_even (inject_Z k) = k.
Proof.
  unfold round_half_even. rewrite Qfloor_Z.
  destruct (Qcompare_spec (inject_Z k - inject_Z k) (1 # 2)) as [H|H|H];
    try reflexivity; exfalso; lra.
Qed.

Lemma round_half_even_bounds (lo hi : Z) (q : Q) :
  (inject_Z lo <= q)%Q -> (q <= inject_Z hi)%Q ->
  (lo <= round_half_even q <= hi)%Z.
Proof.
  intros Hlo Hhi. unfold round_half_even.
  pose proof (Qfloor_le q) as Hf. pose proof (Qlt_floor q) as Hc.
  assert (Hlo' : (lo <= Qfloor q)%Z).
  { rewrite <- (Qfloor_Z lo). apply Qfloor_resp_le, Hlo. }
  assert (Hhi' : (Qfloor q <= hi)%Z).
  { rewrite <- (Qfloor_Z hi). apply Qfloor_resp_le, Hhi. }
  assert (Hup : (Qfloor q = hi -> q == inject_Z hi)%Q).
  { intros E. rewrite E in Hf. lra. }
  rewrite inject_Z_plus in Hc.
  destruct (Qcompare_spec (q - inject_Z (Qfloor q)) (1 # 2)) as [H|H|H].
  - destruct (Z.even (Qfloor q)); [lia|].
    destruct (Z.eq_dec (Qfloor q) hi) as [E|E]; [|lia].
    specialize (Hup E). rewrite E in H. exfalso. lra.
  - lia.
  - destruct (Z.eq_dec (Qfloor q) hi) as [E|E]; [|lia].
    specialize (Hup E). rewrite E in H. exfalso. lra.
Qed.

Lemma round2_hundredth (k : Z) : round2 (k # 100) = k # 100.
Proof.
  unfold round2. f_equal.
  rewrite <- (round_half_even_Z k) at 2.
  apply round_half_even_proper.
  unfold Qeq, Qmult, inject_Z. simpl. lia.
Qed.

Lemma clamp_round_range (x : Q) :
  exists k : Z, clamp_round x = k # 100 /\ (0 <= k <= 95)%Z.
Proof.
  unfold clamp_round, round2. eexists. split; [reflexivity|].
  apply round_half_even_bounds.
  - unfold py_max. destruct (Qltb 0.0 (py_min 0.95 x)) eqn:E.
    + apply Qltb_lt in E. change (inject_Z 0) with 0%Q. lra.
    + change (inject_Z 0) with 0%Q. unfold Qle. simpl. lia.
  - assert (H : (py_max 0.0 (py_min 0.95 x) <= 0.95)%Q).
    { unfold py_max, py_min.
      destruct (Qltb x 0.95) eqn:E1.
      - apply Qltb_lt in E1. destruct (Qltb 0.0 x); [lra|]. unfold Qle; simpl; lia.
      - destruct (Qltb 0.0 0.95); [lra|]. unfold Qle; simpl; lia. }
    change (inject_Z 95) with 95%Q. lra.
Qed.

Lemma clamp_round_hundredth (k : Z) :
  (0 <= k <= 95)%Z -> clamp_round (k # 100) = k # 100.
Proof.
  intros Hk. unfold clamp_round.
  rewrite <- (round2_hundredth k) at 2. apply round2_proper.
  unfold py_max, py_min.
  destruct (Qltb (k # 100) 0.95) eqn:E1.
  - destruct (Qltb 0.0 (k # 100)) eqn:E2; [reflexivity|].
    apply Qltb_ge in E2. unfold Qle in E2. simpl in E2.
    unfold Qeq. simpl. lia.
  - apply Qltb_ge in E1. unfold Qle in E1. simpl in E1.
    destruct (Qltb 0.0 0.95) eqn:E2.
    + unfold Qeq. simpl. lia.
    + apply Qltb_ge in E2. unfold Qle in E2. simpl in E2. lia.
Qed.

(** The clamp on any float: a finite float is clamped as a number, and
    the others end at one of the bounds. *)
Lemma fl_clamp_round_fin (q : Q) : fl_clamp_round (Fin q) = Fin (clamp_round q).
Proof.
  unfold fl_clamp_round, clamp_round, fl_min, fl_max, py_min, py_max. simpl.
  destruct (Qltb q 0.95); simpl;
    [by destruct (Qltb 0.0 q) | by destruct (Qltb 0.0 0.95)].
Qed.

Lemma fl_clamp_round_range (x : pyfloat) :
  exists k : Z, fl_clamp_round x = Fin (k # 100) /\ (0 <= k <= 95)%Z.
Proof.
  destruct x as [q|[]].
  - destruct (clamp_round_range q) as (k & E & Hk). exists k.
    by rewrite fl_clamp_round_fin, E.
  - exists 95%Z. split; [vm_compute; reflexivity | lia].
  - exists 95%Z. split; [vm_compute; reflexivity | lia].
  - exists 0%Z. split; [vm_compute; reflexivity | lia].
Qed.

Lemma float_value_is_float (x : pyfloat) :
  is_int_or_float (float_value x) = true.
Proof. by destruct x. Qed.

Lemma float_value_fin (q : Q) : float_value (Fin q) = VFloat q.
Proof. reflexivity. Qed.

(** ** Dict and string-literal tests *)

Lemma eq_str_true (v : value) (lit : string) :
  eq_str v lit = true <-> v = VStr lit.
Proof.
  destruct v; simpl; try (split; [discriminate | intros; discriminate]).
  rewrite String.eqb_eq. split; [intros ->; reflexivity | intros [= ->]; reflexivity].
Qed.

Lemma in_strs_true (v : value) (lits : list string) :
  in_strs v lits = true <-> exists s, v = VStr s /\ s ∈ lits.
Proof.
  unfold in_strs. rewrite existsb_exists. split.
  - intros (s & Hin & He). apply eq_str_true in He. exists s.
    split; [assumption | by apply list_elem_of_In].
  - intros (s & -> & Hin). exists s. split; [by apply list_elem_of_In|].
    by apply eq_str_true.
Qed.

Lemma py_get_str (d : dict) (k s : string) :
  py_get d k = VStr s -> d !! k = Some (VStr s).
Proof. unfold py_get. destruct (d !! k); simpl; [congruence | discriminate]. Qed.

Lemma py_getitem_some (d : dict) (k : string) (v : value) :
  d !! k = Some v -> py_getitem d k = Ok v.
Proof. unfold py_getitem. intros ->. reflexivity. Qed.

Lemma in_strs_field (d : dict) (k : string) (dom : list string) :
  in_strs (py_get d k) dom = true <-> str_field d k dom.
Proof.
  rewrite in_strs_true. unfold str_field. split.
  - intros (s & E & Hin). exists s. split; [by apply py_get_str | done].
  - intros (s & E & Hin). exists s. unfold py_get. rewrite E. done.
Qed.

Lemma changes_only_refl ks (d : dict) : changes_only ks d d.
Proof. intros k _. reflexivity. Qed.

Lemma changes_only_insert (k : string) (v : value) (d : dict) :
  changes_only [k] d (<[k:=v]> d).
Proof.
  intros k' Hk. apply lookup_insert_ne. intros ->. apply Hk. by left.
Qed.

Lemma changes_only_trans ks1 ks2 (d1 d2 d3 : dict) :
  changes_only ks1 d1 d2 -> changes_only ks2 d2 d3 ->
  changes_only (ks1 ++ ks2) d1 d3.
Proof.
  intros H1 H2 k Hk. rewrite elem_of_app in Hk.
  rewrite H2, H1; [reflexivity | |]; intros ?; apply Hk; auto.
Qed.

(** ** The normalizer, step by step *)

Section NormalizerSteps.
Context {lib : PyLib}.

Lemma coerce_mnpi_field (d : dict) : str_field (coerce_mnpi d) "mnpi" verdicts.
Proof.
  unfold coerce_mnpi.
  destruct (in_strs (py_get d "mnpi") ["yes"; "no"; "unclear"]) eqn:E.
  - by apply in_strs_field.
  - exists "unclear". split; [apply lookup_insert_eq | by repeat constructor].
Qed.

Lemma coerce_mnpi_frame (d : dict) : changes_only ["mnpi"] d (coerce_mnpi d).
Proof.
  unfold coerce_mnpi. destruct (in_strs _ _).
  - apply changes_only_refl.
  - apply changes_only_insert.
Qed.

Lemma coerce_mnpi_valid (d : dict) :
  str_field d "mnpi" verdicts -> coerce_mnpi d = d.
Proof.
  intros H. apply (proj2 (in_strs_field _ _ _)) in H. unfold coerce_mnpi.
  unfold verdicts in H. by rewrite H.
Qed.

Lemma coerce_categories_field (d : dict) :
  exists l, coerce_categories d !! "categories" = Some (VList l).
Proof.
  unfold coerce_categories. destruct (is_list (py_get d "categories")) eqn:E.
  - unfold py_get in E. destruct (d !! "categories") as [[]|]; try discriminate.
    eauto.
  - eexists. apply lookup_insert_eq.
Qed.

Lemma coerce_categories_frame (d : dict) :
  changes_only ["categories"] d (coerce_categories d).
Proof.
  unfold coerce_categories. destruct (is_list _).
  - apply changes_only_refl.
  - apply changes_only_insert.
Qed.

Lemma coerce_confidence_field (d : dict) :
  exists v, coerce_confidence d !! "confidence" = Some v /\
            is_int_or_float v = true.
Proof.
  unfold coerce_confidence.
  destruct (is_int_or_float (py_get d "confidence")) eqn:E.
  - unfold py_get in E. destruct (d !! "confidence") as [v|]; [|discriminate].
    eauto.
  - destruct (py_float _) as [x|]; eexists;
      (split; [apply lookup_insert_eq | by try apply float_value_is_float]).
Qed.

Lemma coerce_confidence_frame (d : dict) :
  changes_only ["confidence"] d (coerce_confidence d).
Proof.
  unfold coerce_confidence. destruct (is_int_or_float _).
  - apply changes_only_refl.
  - destruct (py_float _); apply changes_only_insert.
Qed.

Lemma clamp_confidence_ok (d d' : dict) :
  clamp_confidence d = Ok d' ->
  conf_field d' /\ changes_only ["confidence"] d d'.
Proof.
  unfold clamp_confidence, py_getitem.
  destruct (d !! "confidence") as [c|]; [|discriminate]. simpl.
  destruct (py_float c) as [x|]; [|discriminate]. simpl.
  intros [= <-]. split; [|apply changes_only_insert].
  destruct (fl_clamp_round_range x) as (k & E & Hk).
  rewrite E. simpl.
  eexists. split; [apply lookup_insert_eq|]. exists k. done.
Qed.

(** The clamp can only fail on an [int] too large for a float. *)
Lemma clamp_confidence_raises (d : dict) (v : value) (e : exn) :
  d !! "confidence" = Some v -> is_int_or_float v = true ->
  clamp_confidence d = Raise e ->
  exists n, v = VInt n /\ (float_int_limit <= Z.abs n)%Z.
Proof.
  unfold clamp_confidence, py_getitem. intros -> Hv. simpl.
  destruct v; try discriminate; simpl; try discriminate.
  destruct (Z.ltb_spec (Z.abs n) float_int_limit); [discriminate|].
  intros _. eauto.
Qed.

Lemma py_lt_floats (a b : Q) : py_lt (VFloat a) (VFloat b) = Ok (Qltb a b).
Proof. reflexivity. Qed.
Lemma py_ge_floats (a b : Q) : py_ge (VFloat a) (VFloat b) = Ok (Qle_bool b a).
Proof. reflexivity. Qed.
Lemma py_le_floats (a b : Q) : py_le (VFloat a) (VFloat b) = Ok (Qle_bool a b).
Proof. reflexivity. Qed.

(** What the override does to a record with a string verdict and a float
    confidence. *)
Lemma low_confidence_override_spec (d : dict) (m : string) (c : Q) :
  d !! "mnpi" = Some (VStr m) -> d !! "confidence" = Some (VFloat c) ->
  low_confidence_override d =
    Ok (if String.eqb m "yes" && Qltb c 0.5
        then <["recommended_action" := VStr "human_review"]>
               (<["mnpi" := VStr "unclear"]> d)
        else d).
Proof.
  intros Hm Hc. unfold low_confidence_override, py_getitem.
  rewrite Hm. simpl. destruct (String.eqb m "yes"); simpl; [|reflexivity].
  rewrite Hc. simpl. reflexivity.
Qed.

Lemma low_confidence_override_frame (d d' : dict) :
  low_confidence_override d = Ok d' ->
  changes_only ["mnpi"; "recommended_action"] d d'.
Proof.
  unfold low_confidence_override. intros H.
  destruct (py_getitem d "mnpi") as [m|]; [|discriminate]. simpl in H.
  destruct (if eq_str m "yes" then _ else _) as [[]|]; simpl in H;
    try discriminate; injection H as <-.
  - intros k Hk. rewrite !lookup_insert_ne; [done | |];
      intros <-; apply Hk; set_solver.
  - apply changes_only_refl.
Qed.

Lemma in_allowed_kept (c : value) :
  in_allowed c = Ok true -> exists s, c = VStr s /\ s ∈ allowed.
Proof.
  unfold in_allowed. destruct c; simpl; try discriminate;
    try (intros [= H]; vm_compute in H; discriminate).
  intros [= H]. exists s. split; [reflexivity|].
  change (existsb (fun a => String.eqb s a) allowed = true) in H.
  apply existsb_exists in H as (a & Hin & He).
  apply String.eqb_eq in He as ->. by apply list_elem_of_In.
Qed.

Lemma filter_allowed_ok (cats kept : list value) :
  filter_allowed cats = Ok kept ->
  Forall (fun c => exists s, c = VStr s /\ s ∈ allowed) kept.
Proof.
  revert kept. induction cats as [|c cats IH]; simpl; intros kept H.
  - injection H as <-. constructor.
  - destruct (in_allowed c) as [keep|] eqn:Ek; [|discriminate]. simpl in H.
    destruct (filter_allowed cats) as [rest|]; [|discriminate]. simpl in H.
    injection H as <-. specialize (IH rest eq_refl).
    destruct keep; [|assumption].
    constructor; [by apply in_allowed_kept | assumption].
Qed.

Lemma validate_categories_ok (d d' : dict) :
  validate_categories d = Ok d' ->
  cats_field d' /\ changes_only ["categories"] d d'.
Proof.
  unfold validate_categories, py_getitem.
  destruct (d !! "categories") as [cats|]; [|discriminate]. simpl.
  destruct (as_list cats) as [l|]; [|discriminate]. simpl.
  destruct (filter_allowed l) as [kept|] eqn:Ef; [|discriminate]. simpl.
  rewrite lookup_insert_eq. simpl. apply filter_allowed_ok in Ef.
  destruct kept as [|c kept]; simpl; intros [= <-].
  - split.
    + exists [VStr "None"]. split; [apply lookup_insert_eq|]. split; [done|].
      constructor; [|constructor]. exists "None". split; [done|].
      by repeat constructor.
    + intros k Hk. rewrite !lookup_insert_ne; [done | |];
        intros <-; apply Hk; set_solver.
  - split; [|apply changes_only_insert].
    exists (c :: kept). split; [apply lookup_insert_eq|]. split; done.
Qed.

Lemma risk_level_sanity_ok (d : dict) (c : Q) :
  d !! "confidence" = Some (VFloat c) ->
  exists d', risk_level_sanity d = Ok d' /\
             str_field d' "risk_level" risk_levels /\
             changes_only ["risk_level"] d d'.
Proof.
  intros Hc. unfold risk_level_sanity.
  destruct (in_strs (py_get d "risk_level") _) eqn:E.
  - exists d. split; [done|]. split; [by apply in_strs_field|].
    apply changes_only_refl.
  - unfold py_getitem. rewrite Hc. simpl.
    destruct (Qle_bool 0.75 c); simpl;
      [|destruct (Qle_bool 0.5 c); simpl];
      eexists; (split; [reflexivity|]);
      (split; [|apply changes_only_insert]);
      eexists; (split; [apply lookup_insert_eq|]);
      by repeat constructor.
Qed.

Lemma recommended_action_sanity_ok (d : dict) (r m : value) :
  d !! "risk_level" = Some r -> d !! "mnpi" = Some m ->
  exists d', recommended_action_sanity d = Ok d' /\
             str_field d' "recommended_action" actions /\
             changes_only ["recommended_action"] d d'.
Proof.
  intros Hr Hm. unfold recommended_action_sanity.
  destruct (in_strs (py_get d "recommended_action") _) eqn:E.
  - exists d. split; [done|]. split; [by apply in_strs_field|].
    apply changes_only_refl.
  - unfold py_getitem. rewrite Hr. simpl.
    destruct (eq_str r "high"); simpl;
      [|rewrite Hm; simpl; destruct (eq_str m "unclear"); simpl;
        [|destruct (eq_str r "medium"); simpl]];
      eexists; (split; [reflexivity|]);
      (split; [|apply changes_only_insert]);
      eexists; (split; [apply lookup_insert_eq|]);
      by repeat constructor.
Qed.

Lemma recommended_action_sanity_valid (d : dict) :
  str_field d "recommended_action" actions ->
  recommended_action_sanity d = Ok d.
Proof.
  intros H. apply (proj2 (in_strs_field _ _ _)) in H.
  unfold recommended_action_sanity. unfold actions in H. by rewrite H.
Qed.

End NormalizerSteps.

(** ** The normalizer as a whole *)

(** Closes [k ∉ ks] for literal keys. *)
Ltac not_in_keys :=
  let Hin := fresh "Hin" in
  intros Hin;
  repeat (apply elem_of_cons in Hin as [Hin|Hin]; [discriminate Hin|]);
  by apply elem_of_nil in Hin.

(** Reads key [k] of the result of a step through its frame [H]. *)
Ltac through H :=
  match type of H with
  | changes_only _ _ ?d' =>
      match goal with
      | |- context [d' !! ?k] => rewrite (H k ltac:(not_in_keys))
      end
  end.

Definition validated_keys : list string :=
  ["mnpi"; "categories"; "confidence"; "recommended_action"; "risk_level"].

Section Normalizer.
Context {lib : PyLib}.

Lemma str_field_frame ks (d d' : dict) (k : string) dom :
  changes_only ks d d' -> k ∉ ks -> str_field d k dom -> str_field d' k dom.
Proof. intros H Hk (s & E & Hs). exists s. by rewrite (H _ Hk). Qed.

Lemma normalize_fields_ok (d out : dict) :
  normalize_fields d = Ok out ->
  validated out /\ changes_only validated_keys d out.
Proof.
  unfold normalize_fields.
  pose proof (coerce_mnpi_field d) as (m & Hm1 & Hmv).
  pose proof (coerce_mnpi_frame d) as F1.
  set (d1 := coerce_mnpi d) in *.
  pose proof (coerce_categories_frame d1) as F2.
  set (d2 := coerce_categories d1) in *.
  pose proof (coerce_confidence_frame d2) as F3.
  set (d3 := coerce_confidence d2) in *.
  destruct (clamp_confidence d3) as [d4|] eqn:E4; [|discriminate].
  apply clamp_confidence_ok in E4 as [(q4 & Hc4 & Hk) F4]. simpl.
  assert (Hm4 : d4 !! "mnpi" = Some (VStr m)).
  { through F4. through F3. through F2. exact Hm1. }
  rewrite (low_confidence_override_spec d4 m q4 Hm4 Hc4). simpl.
  set (d5 := if (m =? "yes")%string && Qltb q4 0.5 then _ else d4).
  assert (F5 : changes_only ["mnpi"; "recommended_action"] d4 d5).
  { apply low_confidence_override_frame.
    rewrite (low_confidence_override_spec d4 m q4 Hm4 Hc4).
    reflexivity. }
  assert (Hc5 : d5 !! "confidence" = Some (VFloat q4)).
  { through F5. exact Hc4. }
  assert (Hm5 : exists m', d5 !! "mnpi" = Some (VStr m') /\ m' ∈ verdicts /\
            (m' = "yes" -> (0.5 <= q4)%Q)).
  { subst d5. destruct (String.eqb_spec m "yes") as [->|Hne]; simpl.
    - destruct (Qltb q4 0.5) eqn:El.
      + exists "unclear". rewrite lookup_insert_ne by discriminate.
        rewrite lookup_insert_eq. split; [done|].
        split; [by repeat constructor | discriminate].
      + exists "yes". split; [done|]. split; [done|].
        intros _. by apply Qltb_ge.
    - exists m. split; [done|]. split; [done|]. intros ->. done. }
  destruct Hm5 as (m' & Hm5 & Hmv' & Hlow).
  destruct (validate_categories d5) as [d6|] eqn:E6; [|discriminate].
  apply validate_categories_ok in E6 as [Hcat6 F6]. simpl.
  assert (Hc6 : d6 !! "confidence" = Some (VFloat q4)).
  { through F6. exact Hc5. }
  destruct (risk_level_sanity_ok d6 _ Hc6) as (d7 & E7 & Hr7 & F7).
  rewrite E7. simpl.
  assert (Hm7 : d7 !! "mnpi" = Some (VStr m')).
  { through F7. through F6. exact Hm5. }
  destruct Hr7 as (r & Hr7 & Hrv).
  destruct (recommended_action_sanity_ok d7 _ _ Hr7 Hm7) as (d8 & E8 & Ha8 & F8).
  rewrite E8. intros [= <-]. split.
  - constructor.
    + exists m'. split; [|done]. through F8. exact Hm7.
    + destruct Hcat6 as (l & Hl & Hne & Hall). exists l. split; [|done].
      through F8. through F7. exact Hl.
    + exists q4. split; [|done]. through F8. through F7. exact Hc6.
    + exists r. split; [|done]. through F8. exact Hr7.
    + exact Ha8.
    + intros q Hy Hq. rewrite (F8 "mnpi" ltac:(not_in_keys)), Hm7 in Hy.
      rewrite (F8 "confidence" ltac:(not_in_keys)),
              (F7 "confidence" ltac:(not_in_keys)), Hc6 in Hq.
      injection Hy as ->. injection Hq as <-. by apply Hlow.
  - intros key Hkey. unfold validated_keys in Hkey.
    rewrite F8, F7, F6, F5, F4, F3, F2, F1; [done|..];
      intros Hin; apply Hkey; clear - Hin;
      rewrite ?elem_of_cons, ?elem_of_nil in *; tauto.
Qed.

(** The records of the error paths are validated, and carry all seven
    keys. *)
Lemma unclear_record_validated (ev notes : string) :
  validated (unclear_record ev notes).
Proof.
  constructor.
  - exists "unclear". split; [reflexivity | by repeat constructor].
  - exists [VStr "None"]. split; [reflexivity|]. split; [done|].
    constructor; [|constructor]. exists "None". split; [done|].
    by repeat constructor.
  - exists 0.0%Q. split; [reflexivity|]. exists 0%Z. split; [reflexivity | lia].
  - exists "low". split; [reflexivity | by repeat constructor].
  - exists "human_review". split; [reflexivity | by repeat constructor].
  - intros q H. vm_compute in H. discriminate.
Qed.

Lemma safe_parse_validated (text : string) (out : dict) :
  safe_parse_model_output text = Ok out -> validated out.
Proof.
  unfold safe_parse_model_output.
  destruct (re_search_braces text) as [m|].
  - destruct (json_loads m) as [v|].
    + destruct v; simpl; try discriminate.
      intros H. by apply normalize_fields_ok in H as [H _].
    + intros [= <-]. apply unclear_record_validated.
  - intros [= <-]. apply unclear_record_validated.
Qed.

End Normalizer.

(** ** The brace search *)

Lemma append_cons (c : ascii) (a b : string) :
  String c a ++ b = String c (a ++ b).
Proof. reflexivity. Qed.

Lemma append_nil_l (b : string) : EmptyString ++ b = b.
Proof. reflexivity. Qed.

(** Unfolds appends to a literal or a cons on the left. *)
Ltac sapp := rewrite ?append_cons, ?append_nil_l.

Lemma append_assoc (a b c : string) : (a ++ b) ++ c = a ++ (b ++ c).
Proof. induction a as [|x a IH]; sapp; [reflexivity | by f_equal]. Qed.

Lemma from_first_open_spec (pre rest : string) :
  char_in "{" pre = false ->
  from_first_open (pre ++ String "{" rest) = Some rest.
Proof.
  induction pre as [|c pre IH]; sapp; simpl; [reflexivity|].
  intros H. apply orb_false_iff in H as [Hc Hpre].
  rewrite Hc. by apply IH.
Qed.

Lemma from_first_open_none (s : string) :
  char_in "{" s = false -> from_first_open s = None.
Proof.
  induction s as [|c s IH]; simpl; [reflexivity|].
  intros H. apply orb_false_iff in H as [Hc Hs]. rewrite Hc. by apply IH.
Qed.

Lemma upto_last_close_none (s : string) :
  char_in "}" s = false -> upto_last_close s = None.
Proof.
  induction s as [|c s IH]; simpl; [reflexivity|].
  intros H. apply orb_false_iff in H as [Hc Hs].
  rewrite (IH Hs), Hc. reflexivity.
Qed.

Lemma upto_last_close_spec (mid post : string) :
  char_in "}" post = false ->
  upto_last_close (mid ++ String "}" post) = Some (mid ++ String "}" EmptyString).
Proof.
  intros Hpost. induction mid as [|c mid IH]; sapp; simpl.
  - by rewrite (upto_last_close_none post Hpost).
  - by rewrite IH.
Qed.

Lemma re_search_braces_spec (pre mid post : string) :
  char_in "{" pre = false -> char_in "}" post = false ->
  re_search_braces (pre ++ "{" ++ mid ++ "}" ++ post) = Some ("{" ++ mid ++ "}").
Proof.
  intros Hpre Hpost. unfold re_search_braces. sapp.
  rewrite (from_first_open_spec _ _ Hpre).
  rewrite (upto_last_close_spec _ _ Hpost). by sapp.
Qed.

Lemma re_search_braces_no_open (text : string) :
  char_in "{" text = false -> re_search_braces text = None.
Proof.
  intros H. unfold re_search_braces. by rewrite from_first_open_none.
Qed.

Lemma re_search_braces_no_close (pre rest : string) :
  char_in "{" pre = false -> char_in "}" rest = false ->
  re_search_braces (pre ++ "{" ++ rest) = None.
Proof.
  intros Hpre Hrest. unfold re_search_braces. sapp.
  rewrite (from_first_open_spec _ _ Hpre).
  by rewrite (upto_last_close_none _ Hrest).
Qed.

(** Every text is in one of the three cases. *)
Lemma from_first_open_some (s rest : string) :
  from_first_open s = Some rest ->
  exists pre, s = pre ++ String "{" rest /\ char_in "{" pre = false.
Proof.
  induction s as [|c s IH]; simpl; [discriminate|].
  destruct (Ascii.eqb_spec c "{") as [->|Hne].
  - intros [= ->]. by exists EmptyString.
  - intros H. destruct (IH H) as (pre & -> & Hpre).
    exists (String c pre). split; [reflexivity|]. simpl.
    rewrite Hpre. by destruct (Ascii.eqb_spec c "{").
Qed.

Lemma upto_last_close_some (s p : string) :
  upto_last_close s = Some p ->
  exists mid post, p = mid ++ String "}" EmptyString /\ s = p ++ post /\
                   char_in "}" post = false.
Proof.
  revert p. induction s as [|c s IH]; simpl; [discriminate|]. intros p.
  destruct (upto_last_close s) as [p'|] eqn:E.
  - intros [= <-]. destruct (IH _ eq_refl) as (mid & post & -> & -> & Hpost).
    exists (String c mid), post. done.
  - destruct (Ascii.eqb_spec c "}") as [->|Hne]; [|discriminate].
    intros [= <-]. exists EmptyString, s. split; [done|]. split; [done|].
    clear IH. induction s as [|c' s IH]; [reflexivity|]. simpl in *.
    destruct (upto_last_close s); [discriminate|].
    destruct (Ascii.eqb_spec c' "}"); [discriminate|]. by apply IH.
Qed.

Lemma upto_last_close_absent (s : string) :
  upto_last_close s = None -> char_in "}" s = false.
Proof.
  induction s as [|c s IH]; simpl; [reflexivity|].
  destruct (upto_last_close s); [discriminate|].
  destruct (Ascii.eqb_spec c "}"); [discriminate|]. intros _. by apply IH.
Qed.

Lemma from_first_open_absent (s : string) :
  from_first_open s = None -> char_in "{" s = false.
Proof.
  induction s as [|c s IH]; simpl; [reflexivity|].
  destruct (Ascii.eqb_spec c "{"); [discriminate|]. intros H. by apply IH.
Qed.

Lemma re_search_braces_some (text m : string) :
  re_search_braces text = Some m ->
  exists pre mid post,
    text = pre ++ "{" ++ mid ++ "}" ++ post /\ m = "{" ++ mid ++ "}" /\
    char_in "{" pre = false /\ char_in "}" post = false.
Proof.
  unfold re_search_braces.
  destruct (from_first_open text) as [rest|] eqn:E1; [|discriminate].
  destruct (upto_last_close rest) as [p|] eqn:E2; [|discriminate].
  intros [= <-].
  apply from_first_open_some in E1 as (pre & -> & Hpre).
  apply upto_last_close_some in E2 as (mid & post & -> & -> & Hpost).
  exists pre, mid, post. sapp. rewrite append_assoc. by sapp.
Qed.

Lemma re_search_braces_none (text : string) :
  re_search_braces text = None ->
  char_in "{" text = false \/
  exists pre rest, text = pre ++ "{" ++ rest /\ char_in "{" pre = false /\
                   char_in "}" rest = false.
Proof.
  unfold re_search_braces.
  destruct (from_first_open text) as [rest|] eqn:E1.
  - destruct (upto_last_close rest) eqn:E2; [discriminate|]. intros _. right.
    apply from_first_open_some in E1 as (pre & -> & Hpre).
    exists pre, rest. split; [done|]. split; [done|].
    by apply upto_last_close_absent.
  - intros _. left. by apply from_first_open_absent.
Qed.

(** ** Claims about the normalizer *)

Section NormalizerClaims.
Context {lib : PyLib}.

Lemma normalize_fields_chain (d out : dict) :
  normalize_fields d = Ok out ->
  exists d4 d5 d6 d7,
    clamp_confidence (coerce_confidence (coerce_categories (coerce_mnpi d)))
      = Ok d4 /\
    low_confidence_override d4 = Ok d5 /\
    validate_categories d5 = Ok d6 /\
    risk_level_sanity d6 = Ok d7 /\
    recommended_action_sanity d7 = Ok out.
Proof.
  unfold normalize_fields.
  destruct (clamp_confidence _) as [d4|] eqn:E4; [|discriminate]. simpl.
  destruct (low_confidence_override d4) as [d5|] eqn:E5; [|discriminate]. simpl.
  destruct (validate_categories d5) as [d6|] eqn:E6; [|discriminate]. simpl.
  destruct (risk_level_sanity d6) as [d7|] eqn:E7; [|discriminate]. simpl.
  intros H. by exists d4, d5, d6, d7.
Qed.

(** Splits the outcome of the first bind or test in hypothesis [H]. *)
Ltac step_outcome H :=
  match type of H with
  | context [mbind _ ?m] =>
      let E := fresh "E" in destruct m eqn:E; simpl in H
  | context [if ?b then _ else _] =>
      let E := fresh "E" in destruct b eqn:E; simpl in H
  end.

Lemma risk_level_sanity_frame (d d' : dict) :
  risk_level_sanity d = Ok d' -> changes_only ["risk_level"] d d'.
Proof.
  unfold risk_level_sanity. intros H.
  repeat step_outcome H; try discriminate; injection H as <-;
    auto using changes_only_refl, changes_only_insert.
Qed.

Lemma recommended_action_sanity_frame (d d' : dict) :
  recommended_action_sanity d = Ok d' ->
  changes_only ["recommended_action"] d d'.
Proof.
  unfold recommended_action_sanity. intros H.
  repeat step_outcome H; try discriminate; injection H as <-;
    auto using changes_only_refl, changes_only_insert.
Qed.

(** A raw yes whose clamped confidence is below 0.5 leaves the normalizer as
    unclear, marked for human review. *)
Lemma normalize_fields_low_yes (d out : dict) (q : Q) :
  normalize_fields d = Ok out ->
  d !! "mnpi" = Some (VStr "yes") ->
  out !! "confidence" = Some (VFloat q) -> (q < 0.5)%Q ->
  out !! "mnpi" = Some (VStr "unclear") /\
  out !! "recommended_action" = Some (VStr "human_review").
Proof.
  intros H Hyes Hq Hlt.
  apply normalize_fields_chain in H as (d4 & d5 & d6 & d7 & E4 & E5 & E6 & E7 & E8).
  assert (Hv : str_field d "mnpi" verdicts).
  { exists "yes". split; [done | by repeat constructor]. }
  rewrite (coerce_mnpi_valid d Hv) in E4.
  pose proof (coerce_categories_frame d) as F2.
  pose proof (coerce_confidence_frame (coerce_categories d)) as F3.
  apply clamp_confidence_ok in E4 as [(q4 & Hc4 & _) F4].
  assert (Hm4 : d4 !! "mnpi" = Some (VStr "yes")).
  { through F4. through F3. through F2. exact Hyes. }
  pose proof (low_confidence_override_frame _ _ E5) as F5.
  apply validate_categories_ok in E6 as [_ F6].
  pose proof (risk_level_sanity_frame _ _ E7) as F7.
  pose proof (recommended_action_sanity_frame _ _ E8) as F8.
  assert (q4 = q) as ->.
  { rewrite (F8 "confidence" ltac:(not_in_keys)),
            (F7 "confidence" ltac:(not_in_keys)),
            (F6 "confidence" ltac:(not_in_keys)),
            (F5 "confidence" ltac:(not_in_keys)), Hc4 in Hq. congruence. }
  rewrite (low_confidence_override_spec d4 _ _ Hm4 Hc4) in E5.
  assert (Hlow : Qltb q 0.5 = true) by by apply Qltb_lt.
  rewrite Hlow in E5. simpl in E5. injection E5 as <-.
  assert (Ha7 : d7 !! "recommended_action" = Some (VStr "human_review")).
  { through F7. through F6. apply lookup_insert_eq. }
  assert (Hm7 : d7 !! "mnpi" = Some (VStr "unclear")).
  { through F7. through F6.
    rewrite lookup_insert_ne by discriminate. apply lookup_insert_eq. }
  rewrite recommended_action_sanity_valid in E8.
  - injection E8 as <-. done.
  - exists "human_review". split; [done | by repeat constructor].
Qed.

(** The override on any record with a string verdict and a float
    confidence. *)
Lemma low_confidence_override_low_yes (d out : dict) (q : Q) :
  low_confidence_override d = Ok out ->
  d !! "mnpi" = Some (VStr "yes") ->
  d !! "confidence" = Some (VFloat q) -> (q < 0.5)%Q ->
  out !! "mnpi" = Some (VStr "unclear") /\
  out !! "recommended_action" = Some (VStr "human_review").
Proof.
  intros H Hm Hc Hlt. rewrite (low_confidence_override_spec d _ _ Hm Hc) in H.
  assert (Hlow : Qltb q 0.5 = true) by by apply Qltb_lt.
  rewrite Hlow in H. simpl in H. injection H as <-. split.
  - rewrite lookup_insert_ne by discriminate. apply lookup_insert_eq.
  - apply lookup_insert_eq.
Qed.

(** C4. For every candidate record whose raw mnpi is yes and whose clamped
    confidence is below 0.5, the normalized output has mnpi unclear and
    recommended_action human_review; and the merge of the verifier pass
    applies the same override to the merged record: a merged record with
    mnpi yes and confidence below 0.5 is returned as unclear, marked for
    human review. *)
Theorem low_confidence_yes_is_unclear (text m : string) (d out : dict) (q : Q)
    (parsed verifier_parsed final merged : dict) (fq : Q) :
  (re_search_braces text = Some m -> json_loads m = Some (VDict d) ->
   d !! "mnpi" = Some (VStr "yes") ->
   safe_parse_model_output text = Ok out ->
   out !! "confidence" = Some (VFloat q) -> (q < 0.5)%Q ->
   out !! "mnpi" = Some (VStr "unclear") /\
   out !! "recommended_action" = Some (VStr "human_review"))
  /\
  (merged_record parsed verifier_parsed = Ok final ->
   final !! "mnpi" = Some (VStr "yes") ->
   final !! "confidence" = Some (VFloat fq) -> (fq < 0.5)%Q ->
   merge_passes parsed verifier_parsed = Ok merged ->
   merged !! "mnpi" = Some (VStr "unclear") /\
   merged !! "recommended_action" = Some (VStr "human_review")).
Proof.
  split.
  - intros Hs Hj Hyes Hout Hq Hlt. unfold safe_parse_model_output in Hout.
    rewrite Hs, Hj in Hout. simpl in Hout.
    by apply (normalize_fields_low_yes d out q).
  - intros Hf Hm Hc Hlt Hmerge. unfold merge_passes in Hmerge.
    rewrite Hf in Hmerge. simpl in Hmerge.
    by apply (low_confidence_override_low_yes final merged fq).
Qed.

End NormalizerClaims.

Section ExtractionClaim.
Context {lib : PyLib}.

(** C8. The normalizer takes the text from the first opening brace to the
    last closing brace and decodes it; when there is no such span (no
    opening brace, or no closing brace after the first opening one) or the
    decoding fails, it returns the fallback record: mnpi unclear, categories
    [None], confidence 0.0, risk_level low, recommended_action human_review,
    with notes that tell the two failures apart. *)
Theorem safe_parse_extracts_outer_braces (text : string) :
  (forall pre mid post,
     text = pre ++ "{" ++ mid ++ "}" ++ post ->
     char_in "{" pre = false -> char_in "}" post = false ->
     re_search_braces text = Some ("{" ++ mid ++ "}") /\
     (forall d, json_loads ("{" ++ mid ++ "}") = Some (VDict d) ->
        safe_parse_model_output text = normalize_fields d) /\
     (json_loads ("{" ++ mid ++ "}") = None ->
        safe_parse_model_output text = Ok malformed_record)) /\
  (char_in "{" text = false \/
   (exists pre rest, text = pre ++ "{" ++ rest /\
      char_in "{" pre = false /\ char_in "}" rest = false) ->
   safe_parse_model_output text = Ok no_json_record) /\
  (forall r, r = no_json_record \/ r = malformed_record ->
     r !! "mnpi" = Some (VStr "unclear") /\
     r !! "categories" = Some (VList [VStr "None"]) /\
     r !! "confidence" = Some (VFloat 0.0) /\
     r !! "risk_level" = Some (VStr "low") /\
     r !! "recommended_action" = Some (VStr "human_review")) /\
  no_json_record !! "notes" = Some (VStr "Model did not return JSON") /\
  malformed_record !! "notes" = Some (VStr "JSON parse error").
Proof.
  split; [|split; [|split; [|split]]].
  - intros pre mid post -> Hpre Hpost.
    pose proof (re_search_braces_spec pre mid post Hpre Hpost) as Hs.
    split; [exact Hs|]. unfold safe_parse_model_output. rewrite Hs.
    split.
    + intros d ->. reflexivity.
    + intros ->. reflexivity.
  - intros H. unfold safe_parse_model_output.
    destruct H as [H | (pre & rest & -> & Hpre & Hrest)].
    + by rewrite re_search_braces_no_open.
    + by rewrite re_search_braces_no_close.
  - intros r [-> | ->]; repeat split; reflexivity.
  - reflexivity.
  - reflexivity.
Qed.

(** C10. With max_retries at or below zero the attempt loop has no
    iteration: the computation makes no model invocation at all and returns
    the record the normalizer gives for the empty text, whose notes are
    those of the missing-JSON fallback and carry no error text. *)
Theorem classify_chunk_no_budget (chunk : string) (max_retries : Z)
    (retry_delay : pyfloat) :
  (max_retries <= 0)%Z ->
  classify_chunk chunk max_retries retry_delay = Ret (Ok no_json_record) /\
  safe_parse_model_output EmptyString = Ok no_json_record /\
  no_json_record !! "mnpi" = Some (VStr "unclear") /\
  no_json_record !! "categories" = Some (VList [VStr "None"]) /\
  no_json_record !! "confidence" = Some (VFloat 0.0) /\
  no_json_record !! "recommended_action" = Some (VStr "human_review") /\
  no_json_record !! "notes" = Some (VStr "Model did not return JSON").
Proof.
  intros Hle. split; [|repeat split; reflexivity].
  unfold classify_chunk, py_range, seqZ.
  replace (Z.to_nat (max_retries + 1 - 1)) with 0%nat by lia.
  reflexivity.
Qed.

End ExtractionClaim.

(** C1. The normalizer does not always return all seven fields: for the
    response text of a confident negative answer that names neither evidence
    nor notes, the record it returns, which [classify_chunk] hands to its
    caller at once, has five validated fields and neither evidence_summary
    nor notes. *)
Theorem normalizer_leaves_fields_missing :
  exists out,
    @safe_parse_model_output ref_lib terse_no_text = Ok out /\
    run scripted (@classify_chunk ref_lib "chunk" 2 0.6) [Returned terse_no_text]
      = (Ok out, []) /\
    validated out /\
    out !! "evidence_summary" = None /\
    out !! "notes" = None.
Proof.
  assert (E : @safe_parse_model_output ref_lib terse_no_text
              = Ok terse_no_record) by reflexivity.
  exists terse_no_record. split; [exact E|].
  split; [reflexivity|].
  split; [exact (safe_parse_validated _ _ E)|].
  split; vm_compute; reflexivity.
Qed.

(** ** The controller *)

Lemma run_pbind {St A B} (model : St -> string -> response * St)
    (m : prog A) (f : A -> prog B) (st : St) :
  run model (pbind m f) st =
  let '(a, st') := run model m st in run model (f a) st'.
Proof.
  revert st. induction m as [a | p k IH | d k IH]; intros st; simpl.
  - reflexivity.
  - destruct (model st p) as [r st']. apply IH.
  - apply IH.
Qed.

Section Controller.
Context {lib : PyLib} {St : Type} (model : St -> string -> response * St).

(** When the loop over [a, a+1, ..., max_retries] leaves by its end or by
    [break], the text it hands on is the initial one (no attempt was due) or
    a response whose normalized record was not accepted. *)
Lemma attempt_loop_falls_through (prompt : string) (max_retries : Z)
    (retry_delay : pyfloat) (k : nat) :
  forall (a : Z) (last0 : string) (st st' : St) (last : string),
    (k = 0%nat \/ a + Z.of_nat k - 1 = max_retries)%Z ->
    run model (attempt_loop prompt max_retries retry_delay
                 (seqZ a (Z.of_nat k)) last0) st = (Ok (inr last), st') ->
    (k = 0%nat /\ last = last0) \/
    (exists parsed, safe_parse_model_output last = Ok parsed /\
                    accept_now parsed = Ok false).
Proof.
  induction k as [|k IH]; intros a last0 st st' last Hinv Hrun.
  - left. split; [reflexivity|]. rewrite seqZ_nil in Hrun by lia.
    simpl in Hrun. congruence.
  - right. rewrite seqZ_cons in Hrun by lia.
    replace (Z.pred (Z.of_nat (S k))) with (Z.of_nat k) in Hrun by lia.
    destruct Hinv as [Hinv|Hinv]; [discriminate|].
    cbn [attempt_loop] in Hrun.
    unfold mbind, prog_bind in Hrun. rewrite run_pbind in Hrun.
    unfold attempt_try in Hrun.
    unfold mbind at 1, prog_bind in Hrun. rewrite run_pbind in Hrun.
    simpl in Hrun. unfold time_sleep in Hrun.
    assert (Hnext : forall txt st1,
      run model (attempt_loop prompt max_retries retry_delay
                   (seqZ (Z.succ a) (Z.of_nat k)) txt) st1
        = (Ok (inr last), st') ->
      (a < max_retries)%Z ->
      exists parsed, safe_parse_model_output last = Ok parsed /\
                     accept_now parsed = Ok false).
    { intros txt st1 H Hlt. apply IH in H as [[-> _]|H]; [lia | exact H | lia]. }
    destruct (model st prompt) as [r st1].
    destruct (Z.ltb_spec a max_retries) as [Hlt|Hge];
      destruct (sleep_refusal retry_delay) as [se|];
      destruct r as [text|e]; simpl in Hrun;
      try (destruct (safe_parse_model_output text) as [parsed|e] eqn:Esp;
           simpl in Hrun;
           [destruct (accept_now parsed) as [[]|e] eqn:Eacc; simpl in Hrun|]);
      try discriminate; eauto.
    all: try (injection Hrun as <- <-; eauto).
Qed.

End Controller.

#[export] Instance clamp_round_proper : Proper (Qeq ==> eq) clamp_round.
Proof.
  intros x y E. unfold clamp_round. apply round2_proper.
  assert (H1 : Qle_bool 0.95 x = Qle_bool 0.95 y) by by rewrite E.
  assert (H2 : Qle_bool x 0.0 = Qle_bool y 0.0) by by rewrite E.
  unfold py_max, py_min, Qltb. rewrite H1.
  destruct (Qle_bool 0.95 y); simpl; [reflexivity|].
  rewrite H2. destruct (Qle_bool y 0.0); simpl; [reflexivity | exact E].
Qed.

Lemma clamp_round_fixed (q : Q) :
  hundredths q -> (clamp_round q == q)%Q.
Proof.
  intros (k & E & Hk). rewrite (clamp_round_proper _ _ E).
  rewrite clamp_round_hundredth by done. by rewrite E.
Qed.

Lemma py_min_hundredths (a b : Q) :
  hundredths a -> hundredths b -> hundredths (py_min a b).
Proof. intros Ha Hb. unfold py_min. by destruct (Qltb b a). Qed.

Lemma py_min_lower (a b c : Q) :
  (c <= a)%Q -> (c <= b)%Q -> (c <= py_min a b)%Q.
Proof. intros Ha Hb. unfold py_min. by destruct (Qltb b a). Qed.

Lemma prefer_verifier_or (vp p : dict) (k : string) :
  py_or (py_get vp k) (py_get p k) = prefer_verifier vp p k.
Proof.
  unfold prefer_verifier, py_or, py_get. by destruct (vp !! k).
Qed.

Section Merge.
Context {lib : PyLib}.

(** A record the normalizer validated that the early-accept test turned
    down: its verdict is not no and its confidence is below 0.75. *)
Lemma accept_now_false (p : dict) :
  validated p -> accept_now p = Ok false ->
  exists pm pc, p !! "mnpi" = Some (VStr pm) /\ pm ∈ ["yes"; "unclear"] /\
                p !! "confidence" = Some (VFloat pc) /\ (pc < 0.75)%Q.
Proof.
  intros [(pm & Hm & Hpm) _ (pc & Hc & _) _ _ _]. unfold accept_now, py_getitem.
  rewrite Hc. simpl. destruct (Qle_bool 0.75 pc) eqn:E; simpl; [discriminate|].
  rewrite Hm. simpl. intros [= Hno]. exists pm, pc.
  split; [done|]. split; [|split; [done|]].
  - unfold verdicts in Hpm.
    apply elem_of_cons in Hpm as [->|Hpm]; [by repeat constructor|].
    apply elem_of_cons in Hpm as [->|Hpm]; [discriminate|].
    apply elem_of_cons in Hpm as [->|Hpm]; [by repeat constructor|].
    by apply elem_of_nil in Hpm.
  - apply Qnot_le_lt. intros H. apply Qle_bool_iff in H. congruence.
Qed.

(** The merge of two validated passes, the first of which is not a no. *)
Lemma merge_passes_validated (p vp : dict) (pm vm : string) (pc vc : Q) :
  validated p -> validated vp ->
  p !! "mnpi" = Some (VStr pm) -> pm <> "no" ->
  vp !! "mnpi" = Some (VStr vm) ->
  p !! "confidence" = Some (VFloat pc) ->
  vp !! "confidence" = Some (VFloat vc) ->
  merge_passes p vp =
    Ok (record7 (VStr (spec_merged_verdict pm vm))
                (prefer_verifier vp p "categories")
                (VFloat (clamp_round (py_min pc vc)))
                (prefer_verifier vp p "evidence_summary")
                (prefer_verifier vp p "risk_level")
                (prefer_verifier vp p "recommended_action")
                (prefer_verifier vp p "notes")).
Proof.
  intros Vp Vvp Hpm Hno Hvm Hpc Hvc.
  unfold merge_passes, merged_record, py_getitem, py_get_or.
  rewrite Hpc, Hvc, Hpm, Hvm. simpl.
  destruct Vvp as [(vm' & Hvm' & Hvmv) (vl & Hvl & Hvne & _) (vc' & Hvc' & Hvh) _ _ Hvlow].
  destruct Vp as [(pm' & Hpm' & Hpmv) (pl & Hpl & _ & _) (pc' & Hpc' & Hph) _ _ Hplow].
  rewrite Hvm in Hvm'. injection Hvm' as <-.
  rewrite Hpm in Hpm'. injection Hpm' as <-.
  rewrite Hvc in Hvc'. injection Hvc' as <-.
  rewrite Hpc in Hpc'. injection Hpc' as <-.
  rewrite <- !prefer_verifier_or.
  assert (Hcat : truthy (py_get vp "categories") = true).
  { unfold py_get. rewrite Hvl. simpl. by destruct vl. }
  rewrite Hcat. rewrite Hvl. simpl.
  assert (Hmin : (if Qltb vc pc then VFloat vc else VFloat pc)
                 = VFloat (py_min pc vc)).
  { unfold py_min. by destruct (Qltb vc pc). }
  rewrite Hmin.
  assert (Hcats : py_or (py_get vp "categories") (py_get p "categories")
                  = VList vl).
  { unfold py_or. rewrite Hcat. unfold py_get. by rewrite Hvl. }
  rewrite Hcats.
  assert (Hverdict :
    (if eq_str (VStr vm) "unclear" then mret (VStr "unclear")
     else if eq_str (VStr pm) "unclear" then mret (VStr "unclear")
     else if eq_str (VStr vm) "no"
          then mret (if eq_str (VStr pm) "yes" then VStr "unclear" else VStr pm)
          else mret (VStr pm))
    = Ok (VStr (spec_merged_verdict pm vm))).
  { unfold verdicts in Hvmv, Hpmv.
    repeat (apply elem_of_cons in Hvmv as [->|Hvmv]);
      try (by apply elem_of_nil in Hvmv);
      repeat (apply elem_of_cons in Hpmv as [->|Hpmv]);
      try (by apply elem_of_nil in Hpmv); try done. }
  simpl in Hverdict. simpl. rewrite Hverdict. simpl.
  rewrite fl_clamp_round_fin, float_value_fin.
  set (final := record7 _ _ _ _ _ _ _).
  assert (Hfm : final !! "mnpi" = Some (VStr (spec_merged_verdict pm vm)))
    by reflexivity.
  assert (Hfc : final !! "confidence"
                = Some (VFloat (clamp_round (py_min pc vc)))) by reflexivity.
  rewrite (low_confidence_override_spec final _ _ Hfm Hfc).
  destruct (String.eqb_spec (spec_merged_verdict pm vm) "yes") as [Hy|Hn];
    simpl; [|reflexivity].
  assert (pm = "yes" /\ vm = "yes") as [-> ->].
  { unfold verdicts in Hvmv, Hpmv.
    repeat (apply elem_of_cons in Hvmv as [->|Hvmv]);
      try (by apply elem_of_nil in Hvmv);
      repeat (apply elem_of_cons in Hpmv as [->|Hpmv]);
      try (by apply elem_of_nil in Hpmv); try done. }
  assert (Hge : (0.5 <= clamp_round (py_min pc vc))%Q).
  { rewrite clamp_round_fixed by by apply py_min_hundredths.
    apply py_min_lower; [by apply Hplow | by apply Hvlow]. }
  apply Qltb_ge in Hge. by rewrite Hge.
Qed.

End Merge.

Section VerifierClaim.
Context {lib : PyLib} {St : Type} (model : St -> string -> response * St).

(** C5. Whenever the loop hands a borderline record to the verifier pass,
    the verifier invocation answers and its answer normalizes, the record
    returned has as confidence the minimum of the two passes' confidences
    (clamped and rounded again, which leaves it as it is), as verdict
    unclear if either pass said unclear or the two disagree and the first
    pass's verdict otherwise, and for categories, evidence_summary,
    risk_level, recommended_action and notes the verifier's value when it is
    present and non-empty, else the first pass's value. *)
Theorem verifier_merge (chunk : string) (max_retries : Z) (retry_delay : pyfloat)
    (st st1 st2 : St) (last verifier_text : string) (p vp : dict) :
  run model
      (attempt_loop (str_replace PROMPT_TEMPLATE "{CHUNK}" chunk) max_retries
         retry_delay (py_range 1 (max_retries + 1)) EmptyString) st
    = (Ok (inr last), st1) ->
  safe_parse_model_output last = Ok p ->
  borderline p = Ok true ->
  model st1 (verifier_prompt chunk) = (Returned verifier_text, st2) ->
  safe_parse_model_output verifier_text = Ok vp ->
  exists (final : dict) (pm vm : string) (pc vc c : Q),
    run model (classify_chunk chunk max_retries retry_delay) st
      = (Ok final, st2) /\
    p !! "mnpi" = Some (VStr pm) /\ vp !! "mnpi" = Some (VStr vm) /\
    p !! "confidence" = Some (VFloat pc) /\
    vp !! "confidence" = Some (VFloat vc) /\
    final !! "confidence" = Some (VFloat c) /\
    c = round2 (py_max 0.0 (py_min 0.95 (py_min pc vc))) /\
    (c == py_min pc vc)%Q /\
    final !! "mnpi" = Some (VStr (spec_merged_verdict pm vm)) /\
    forall k, k ∈ merged_keys -> final !! k = Some (prefer_verifier vp p k).
Proof.
  intros Hloop Hp Hborder Hmodel Hvp.
  pose proof (safe_parse_validated _ _ Hp) as Vp.
  pose proof (safe_parse_validated _ _ Hvp) as Vvp.
  assert (Hacc : accept_now p = Ok false).
  { unfold py_range in Hloop.
    destruct (Z.le_gt_cases max_retries 0) as [Hle|Hgt].
    - rewrite seqZ_nil in Hloop by lia. simpl in Hloop.
      injection Hloop as <- <-.
      assert (Hs : safe_parse_model_output EmptyString = Ok no_json_record)
        by reflexivity.
      rewrite Hs in Hp. injection Hp as <-.
      assert (Hb : borderline no_json_record = Ok false)
        by (vm_compute; reflexivity).
      rewrite Hb in Hborder. discriminate.
    - replace (max_retries + 1 - 1)%Z with (Z.of_nat (Z.to_nat max_retries))
        in Hloop by lia.
      apply attempt_loop_falls_through in Hloop
        as [[Hz _] | (parsed & Hparsed & Hacc)]; [lia | | lia].
      congruence. }
  destruct (accept_now_false p Vp Hacc) as (pm & pc & Hpm & Hpmv & Hpc & _).
  destruct (v_mnpi _ Vvp) as (vm & Hvm & _).
  destruct (v_confidence _ Vvp) as (vc & Hvc & Hvh).
  destruct (v_confidence _ Vp) as (pc' & Hpc' & Hph).
  rewrite Hpc in Hpc'. injection Hpc' as <-.
  assert (Hno : pm <> "no").
  { intros ->. apply elem_of_cons in Hpmv as [?|Hpmv]; [discriminate|].
    apply elem_of_cons in Hpmv as [?|Hpmv]; [discriminate|].
    by apply elem_of_nil in Hpmv. }
  pose proof (merge_passes_validated p vp pm vm pc vc Vp Vvp Hpm Hno Hvm Hpc Hvc)
    as Hmerge.
  eexists _, pm, vm, pc, vc, _.
  split.
  { unfold classify_chunk. unfold mbind, prog_bind. rewrite run_pbind.
    rewrite Hloop. unfold verifier_stage. rewrite Hp. simpl.
    rewrite Hborder. simpl. rewrite Hmodel. simpl. rewrite Hvp. simpl.
    rewrite Hmerge. simpl. reflexivity. }
  split; [done|]. split; [done|]. split; [done|]. split; [done|].
  split; [reflexivity|]. split; [reflexivity|].
  split.
  { apply (clamp_round_fixed (py_min pc vc)). by apply py_min_hundredths. }
  split; [reflexivity|].
  intros k Hk. unfold merged_keys in Hk.
  repeat (apply elem_of_cons in Hk as [->|Hk]; [reflexivity|]).
  by apply elem_of_nil in Hk.
Qed.

End VerifierClaim.

(** C3. An exception reaches the caller of [classify_chunk]: with a budget
    of one attempt, a borderline first answer whose notes are a number and a
    verifier invocation that fails, the handler of the failed verifier pass
    adds a string to that number and the [TypeError] propagates. *)
Theorem verifier_failure_handler_raises :
  run scripted (@classify_chunk ref_lib "chunk" 1 0.6)
      [Returned numeric_notes_text; Failed connection_error]
  = (Raise (Exn TypeError "unsupported operand type(s) for +: 'int' and 'str'"),
     []).
Proof. vm_compute. reflexivity. Qed.

Section RetryLoop.
Context {lib : PyLib} {St : Type} (model : St -> string -> response * St).

(** A delay from 0 to 4e9 seconds is one the sleep accepts. *)
Lemma sleep_refusal_accepts (q : Q) :
  (0 <= q)%Q -> (q <= 4000000000)%Q -> sleep_refusal (Fin q) = None.
Proof.
  intros H0 H1. unfold sleep_refusal.
  rewrite Qabs_pos by exact H0.
  assert (E1 : Qle_bool 10000000000 q = false).
  { destruct (Qle_bool 10000000000 q) eqn:E; [|reflexivity].
    apply Qle_bool_iff in E. lra. }
  rewrite E1. apply Qltb_ge in H0. rewrite H0.
  apply Qle_bool_iff in H1. by rewrite H1.
Qed.

(** With a delay the sleep accepts no exception leaves the attempt loop: every
    failure of an invocation, of the normalizer or of the accept test is
    caught by the handler. *)
Lemma attempt_loop_catches (prompt : string) (max_retries : Z)
    (retry_delay : pyfloat) (attempts : list Z) :
  sleep_refusal retry_delay = None ->
  forall (last0 : string) (st : St),
    exists r st',
      run model (attempt_loop prompt max_retries retry_delay attempts last0) st
        = (Ok r, st').
Proof.
  intros Hd.
  induction attempts as [|a rest IH]; intros last0 st.
  - simpl. eauto.
  - cbn [attempt_loop]. unfold mbind, prog_bind. rewrite run_pbind.
    unfold attempt_try. unfold mbind at 1, prog_bind. rewrite run_pbind.
    simpl. unfold time_sleep. rewrite Hd.
    destruct (model st prompt) as [r st1].
    destruct (a <? max_retries)%Z; destruct r as [text|e]; simpl;
      try (destruct (safe_parse_model_output text) as [parsed|e]; simpl;
           [destruct (accept_now parsed) as [[]|e]; simpl|]);
      eauto.
Qed.

(** When every invocation fails, the loop over [a, ..., max_retries] ends in
    the terminal record built from the failure of the last attempt. *)
Lemma attempt_loop_all_fail (prompt : string) (max_retries : Z)
    (retry_delay : pyfloat) (k : nat) :
  sleep_refusal retry_delay = None ->
  (forall st p, exists e st', model st p = (Failed e, st')) ->
  forall (a : Z) (last0 : string) (st : St),
    (a + Z.of_nat (S k) - 1)%Z = max_retries ->
    exists e st0 st',
      model st0 prompt = (Failed e, st') /\
      run model (attempt_loop prompt max_retries retry_delay
                   (seqZ a (Z.of_nat (S k))) last0) st
        = (Ok (inl (llm_error_record e)), st').
Proof.
  intros Hd Hfail.
  induction k as [|k IH]; intros a last0 st Hinv;
    rewrite seqZ_cons by lia;
    cbn [attempt_loop]; unfold mbind, prog_bind; rewrite run_pbind;
    unfold attempt_try; unfold mbind at 1, prog_bind; rewrite run_pbind;
    simpl; unfold time_sleep; rewrite Hd;
    destruct (Hfail st prompt) as (e & st1 & Hm); rewrite Hm; simpl.
  - destruct (Z.ltb_spec a max_retries); [lia|]. simpl. eauto.
  - destruct (Z.ltb_spec a max_retries); [|lia]. simpl.
    replace (Z.pred (Z.of_nat (S (S k)))) with (Z.of_nat (S k)) by lia.
    apply IH. lia.
Qed.

(** The part of the claim on the attempt loop that holds: with a budget of
    at least one attempt and a delay the sleep accepts, if every invocation
    fails the caller gets the terminal record, unclear and marked for human
    review, whose notes carry the text of the last failure. *)
Lemma classify_chunk_all_fail (chunk : string) (max_retries : Z)
    (retry_delay : pyfloat) (st : St) :
  (1 <= max_retries)%Z -> sleep_refusal retry_delay = None ->
  (forall st p, exists e st', model st p = (Failed e, st')) ->
  exists e st0 st',
    model st0 (str_replace PROMPT_TEMPLATE "{CHUNK}" chunk) = (Failed e, st') /\
    run model (classify_chunk chunk max_retries retry_delay) st
      = (Ok (llm_error_record e), st') /\
    llm_error_record e !! "mnpi" = Some (VStr "unclear") /\
    llm_error_record e !! "recommended_action" = Some (VStr "human_review") /\
    llm_error_record e !! "notes"
      = Some (VStr ("LLM error after retries: " ++ exn_msg e)).
Proof.
  intros Hmr Hd Hfail.
  destruct (attempt_loop_all_fail (str_replace PROMPT_TEMPLATE "{CHUNK}" chunk)
              max_retries retry_delay (Z.to_nat max_retries - 1) Hd Hfail
              1%Z EmptyString st ltac:(lia)) as (e & st0 & st' & Hm & Hrun).
  exists e, st0, st'. split; [exact Hm|]. split; [|repeat split; reflexivity].
  unfold classify_chunk, py_range. unfold mbind, prog_bind. rewrite run_pbind.
  replace (max_retries + 1 - 1)%Z
    with (Z.of_nat (S (Z.to_nat max_retries - 1))) by lia.
  rewrite Hrun. reflexivity.
Qed.

End RetryLoop.

(** ** Sorting tags *)

Lemma str_lt_trans (a b c : string) : str_lt a b -> str_lt b c -> str_lt a c.
Proof.
  unfold str_lt, String.ltb. intros H1 H2.
  destruct (a ?= b)%string eqn:E1; try discriminate.
  destruct (b ?= c)%string eqn:E2; try discriminate.
  apply OrderedTypeEx.String_as_OT.cmp_lt in E1, E2.
  pose proof (OrderedTypeEx.String_as_OT.lt_trans _ _ _ E1 E2) as H.
  apply OrderedTypeEx.String_as_OT.cmp_lt in H.
  unfold OrderedTypeEx.String_as_OT.cmp in H. by rewrite H.
Qed.

Lemma str_lt_asym (a b : string) : str_lt a b -> str_lt b a -> False.
Proof.
  unfold str_lt, String.ltb. rewrite (String.compare_antisym b a).
  destruct (a ?= b)%string; simpl; discriminate.
Qed.

Lemma str_lt_total (a b : string) :
  String.ltb b a = false -> a <> b -> str_lt a b.
Proof.
  unfold str_lt, String.ltb. rewrite (String.compare_antisym a b).
  destruct (b ?= a)%string eqn:E; simpl; try done.
  apply String.compare_eq_iff in E. intros _ Hne. by destruct Hne.
Qed.

#[export] Instance str_lt_antisym : AntiSymm eq str_lt.
Proof. intros a b H1 H2. destruct (str_lt_asym a b H1 H2). Qed.

(** Restores the [<$>] that [simpl] unfolds. *)
Ltac refold_fmap :=
  repeat match goal with
         | |- context [list_fmap ?A ?B ?f ?l] =>
             change (list_fmap A B f l) with (f <$> l)
         end.

Lemma sorted_insert_strings (x : string) (l : list string) :
  x ∉ l -> StronglySorted str_lt l ->
  exists l', sorted_insert (HStr x) (HStr <$> l) = Ok (HStr <$> l') /\
             l' ≡ₚ x :: l /\ StronglySorted str_lt l'.
Proof.
  intros Hx Hs. induction Hs as [|y l Hs IH Hy]; simpl.
  - exists [x]. split; [done|]. split; [done|]. repeat constructor.
  - apply not_elem_of_cons in Hx as [Hxy Hx].
    destruct (String.ltb y x) eqn:E; simpl.
    + refold_fmap. destruct (IH Hx) as (l' & -> & Hp & Hs'). simpl.
      exists (y :: l'). split; [done|]. split.
      * rewrite Hp. apply perm_swap.
      * constructor; [done|]. rewrite Hp. constructor; [exact E | exact Hy].
    + exists (x :: y :: l). split; [done|]. split; [done|].
      assert (Hlt : str_lt x y) by by apply str_lt_total.
      constructor; [by constructor|]. constructor; [exact Hlt|].
      eapply Forall_impl; [exact Hy|]. intros z Hz.
      by apply (str_lt_trans x y z).
Qed.

Lemma py_sorted_strings (l : list string) :
  NoDup l ->
  exists l', py_sorted (HStr <$> l) = Ok (HStr <$> l') /\
             l' ≡ₚ l /\ StronglySorted str_lt l'.
Proof.
  induction 1 as [|x l Hx Hnd IH]; simpl.
  - exists []. split; [done|]. split; [done|]. constructor.
  - refold_fmap. destruct IH as (l1 & -> & Hp & Hs). simpl.
    assert (Hx1 : x ∉ l1) by by rewrite Hp.
    destruct (sorted_insert_strings x l1 Hx1 Hs) as (l2 & -> & Hp2 & Hs2).
    exists l2. split; [done|]. split; [|done]. by rewrite Hp2, Hp.
Qed.

(** ** Sets of tags *)

Lemma set_add_string (ss : list string) (c : string) :
  set_add (HStr <$> ss) (HStr c)
  = HStr <$> (if bool_decide (c ∈ ss) then ss else (ss ++ [c])%list).
Proof.
  unfold set_add.
  assert (H : existsb (h_eqb (HStr c)) (HStr <$> ss) = bool_decide (c ∈ ss)).
  { induction ss as [|s ss IH]; simpl; [done|]. refold_fmap. rewrite IH.
    destruct (String.eqb_spec c s) as [->|Hne]; simpl.
    - symmetry. apply bool_decide_eq_true. by left.
    - destruct (bool_decide (c ∈ ss)) eqn:E.
      + symmetry. apply bool_decide_eq_true. right.
        by apply bool_decide_eq_true in E.
      + symmetry. apply bool_decide_eq_false. apply bool_decide_eq_false in E.
        by apply not_elem_of_cons. }
  rewrite H. destruct (bool_decide (c ∈ ss)); [done|].
  by rewrite fmap_app.
Qed.

Lemma add_all_strings (ss : list string) (cs : list value) :
  forallb is_str cs = true -> NoDup ss ->
  exists ss', add_all (HStr <$> ss) cs = Ok (HStr <$> ss') /\ NoDup ss' /\
              forall c, c ∈ ss' <-> c ∈ ss \/ VStr c ∈ cs.
Proof.
  revert ss. induction cs as [|v cs IH]; intros ss Hstr Hnd; simpl.
  - exists ss. split; [done|]. split; [done|]. intros c. split; [auto|].
    intros [H|H]; [done | by apply elem_of_nil in H].
  - simpl in Hstr. apply andb_true_iff in Hstr as [Hv Hcs].
    destruct v; try discriminate. simpl.
    change (HStr s :: nil) with (HStr <$> [s]).
    pose proof (set_add_string ss s) as Hadd. unfold set_add in Hadd.
    unfold set_add. refold_fmap. rewrite Hadd. clear Hadd.
    destruct (IH (if bool_decide (s ∈ ss) then ss else (ss ++ [s])%list) Hcs)
      as (ss' & -> & Hnd' & Hin).
    { destruct (bool_decide (s ∈ ss)) eqn:E; [done|].
      apply bool_decide_eq_false in E. apply NoDup_app. split; [done|].
      split; [|apply NoDup_singleton].
      intros x Hx Hx'. apply list_elem_of_singleton in Hx' as ->. done. }
    exists ss'. split; [done|]. split; [done|]. intros c. rewrite Hin.
    rewrite elem_of_cons. destruct (bool_decide (s ∈ ss)) eqn:E.
    + apply bool_decide_eq_true in E. split; [tauto|].
      intros [H|[Heq|H]]; auto. injection Heq as ->. auto.
    + rewrite elem_of_app, list_elem_of_singleton. split.
      * intros [[H| ->]|H]; auto.
      * intros [H|[Heq|H]]; auto. injection Heq as ->. auto.
Qed.

(** ** The order on floats *)

Lemma fl_leb_refl (x : pyfloat) : is_nan x = false -> fl_leb x x = true.
Proof.
  destruct x as [q|[]]; simpl; try done.
  intros _. apply Qle_bool_iff, Qle_refl.
Qed.

Lemma fl_eq_refl (x : pyfloat) : is_nan x = false -> fl_eq x x.
Proof. destruct x as [q|[]]; simpl; done. Qed.

Lemma fl_ltb_leb (a b : pyfloat) : fl_ltb a b = true -> fl_leb a b = true.
Proof.
  destruct a as [x|[]], b as [y|[]]; simpl; try done.
  intros H. apply Qltb_lt in H. apply Qle_bool_iff. by apply Qlt_le_weak.
Qed.

Lemma fl_ltb_false (a b : pyfloat) :
  is_nan a = false -> is_nan b = false ->
  fl_ltb a b = false -> fl_leb b a = true.
Proof.
  destruct a as [x|[]], b as [y|[]]; simpl; try done.
  intros _ _ H. apply Qltb_ge in H. by apply Qle_bool_iff.
Qed.

Lemma fl_leb_trans (a b c : pyfloat) :
  fl_leb a b = true -> fl_leb b c = true -> fl_leb a c = true.
Proof.
  destruct a as [x|[]], b as [y|[]], c as [z|[]]; simpl; try done.
  rewrite !Qle_bool_iff. apply Qle_trans.
Qed.




Lemma fl_max_cases (a b : pyfloat) : fl_max a b = a \/ fl_max a b = b.
Proof. unfold fl_max. destruct (fl_ltb a b); auto. Qed.

(** ** Maxima *)

(** The running maximum is one of the elements. *)
Lemma py_max_from_elem (xs : list pyfloat) (x : pyfloat) :
  py_max_from x xs ∈ x :: xs.
Proof.
  unfold py_max_from. revert x.
  induction xs as [|z xs IH]; intros x; simpl; [by left|].
  specialize (IH (fl_max x z)). apply elem_of_cons in IH as [E|IH].
  - rewrite E. destruct (fl_max_cases x z) as [-> | ->]; [by left|].
    right. by left.
  - by do 2 right.
Qed.

(** Without a [nan] it is an upper bound. *)
Lemma py_max_from_spec (xs : list pyfloat) (x : pyfloat) :
  Forall (fun y => is_nan y = false) (x :: xs) ->
  py_max_from x xs ∈ x :: xs /\
  forall y, y ∈ x :: xs -> fl_leb y (py_max_from x xs) = true.
Proof.
  intros Hn. split; [apply py_max_from_elem|].
  unfold py_max_from. revert x Hn.
  induction xs as [|z xs IH]; intros x Hn; simpl.
  - intros y Hy. apply list_elem_of_singleton in Hy as ->.
    apply fl_leb_refl. by inversion Hn.
  - inversion Hn as [|? ? Hx Hn']; subst.
    inversion Hn' as [|? ? Hz Hxs]; subst.
    assert (Hm : is_nan (fl_max x z) = false)
      by (unfold fl_max; by destruct (fl_ltb x z)).
    assert (Hub := IH (fl_max x z) (Forall_cons_2 _ _ _ Hm Hxs)).
    assert (Hxm : fl_leb x (fl_max x z) = true).
    { unfold fl_max. destruct (fl_ltb x z) eqn:E;
        [by apply fl_ltb_leb | by apply fl_leb_refl]. }
    assert (Hzm : fl_leb z (fl_max x z) = true).
    { unfold fl_max. destruct (fl_ltb x z) eqn:E;
        [by apply fl_leb_refl | by apply fl_ltb_false]. }
    assert (Hmm : fl_leb (fl_max x z) (fold_left fl_max xs (fl_max x z)) = true)
      by (apply Hub; by left).
    intros y Hy. apply elem_of_cons in Hy as [->|Hy].
    + by apply fl_leb_trans with (fl_max x z).
    + apply elem_of_cons in Hy as [->|Hy].
      * by apply fl_leb_trans with (fl_max x z).
      * apply Hub. by right.
Qed.

Lemma py_max_from_is_max (xs : list pyfloat) (x : pyfloat) :
  Forall (fun y => is_nan y = false) (x :: xs) ->
  is_max_of (py_max_from x xs) (x :: xs).
Proof.
  intros Hn. destruct (py_max_from_spec xs x Hn) as [Hin Hub].
  split; [|exact Hub].
  exists (py_max_from x xs). split; [exact Hin|]. apply fl_eq_refl.
  rewrite Forall_forall in Hn. by apply Hn.
Qed.



(** ** Permutations under the list functions of the aggregator *)



Lemma elem_of_filter_bool {A} (f : A -> bool) (l : list A) (x : A) :
  x ∈ List.filter f l <-> x ∈ l /\ f x = true.
Proof. rewrite !list_elem_of_In. apply filter_In. Qed.

Lemma NoDup_filter_bool {A} (f : A -> bool) (l : list A) :
  NoDup l -> NoDup (List.filter f l).
Proof.
  induction 1 as [|x l Hx Hnd IH]; simpl; [constructor|].
  destruct (f x); [|done]. constructor; [|done].
  rewrite elem_of_filter_bool. tauto.
Qed.

Lemma filter_nil_existsb {A} (f : A -> bool) (l : list A) :
  List.filter f l = [] <-> existsb f l = false.
Proof.
  induction l as [|x l IH]; simpl; [done|].
  destruct (f x); simpl; [split; discriminate | exact IH].
Qed.

Lemma filter_fmap {A B} (f : B -> bool) (g : A -> B) (l : list A) :
  List.filter f (g <$> l) = g <$> List.filter (fun a => f (g a)) l.
Proof.
  induction l as [|a l IH]; simpl; [done|]. refold_fmap.
  destruct (f (g a)); simpl; by rewrite IH.
Qed.

Lemma existsb_fmap {A B} (f : B -> bool) (g : A -> B) (l : list A) :
  existsb f (g <$> l) = existsb (fun a => f (g a)) l.
Proof. induction l as [|a l IH]; simpl; [done|]. refold_fmap. by rewrite IH. Qed.

(** ** What the aggregator reads *)

Lemma dicts_of_cons (v : value) (results : list value) :
  dicts_of (v :: results)
  = match v with
    | VDict r => r :: dicts_of results
    | _ => dicts_of results
    end.
Proof. by destruct v. Qed.

Lemma elem_of_dicts_of (r : dict) (results : list value) :
  r ∈ dicts_of results <-> VDict r ∈ results.
Proof.
  induction results as [|v results IH]; [by rewrite !elem_of_nil|].
  rewrite dicts_of_cons. split.
  - destruct v; intros H; try (right; by apply IH).
    apply elem_of_cons in H as [->|H]; [by left | right; by apply IH].
  - intros H. apply elem_of_cons in H as [E|H].
    + subst v. by left.
    + destruct v; try by apply IH. right. by apply IH.
Qed.

Lemma dicts_of_perm (l l' : list value) :
  l ≡ₚ l' -> dicts_of l ≡ₚ dicts_of l'.
Proof.
  induction 1 as [|x l l' _ IH|x y l|l l' l'' _ IH1 _ IH2].
  - done.
  - rewrite !dicts_of_cons. destruct x; by try constructor.
  - rewrite !dicts_of_cons. destruct x, y; try done. apply perm_swap.
  - by etrans.
Qed.

Lemma dicts_of_filter (results : list value) :
  dicts_of (List.filter is_dict results) = dicts_of results.
Proof.
  induction results as [|v results IH]; [done|].
  rewrite dicts_of_cons. destruct v; cbn [List.filter is_dict]; try exact IH.
  by rewrite dicts_of_cons, IH.
Qed.

Lemma existsb_says_yes (results : list value) :
  existsb says_yes results
  = existsb (fun r => says_yes (VDict r)) (dicts_of results).
Proof.
  induction results as [|v results IH]; [done|].
  rewrite dicts_of_cons. cbn [existsb]. rewrite IH. by destruct v.
Qed.

Lemma flagged_records_nil (results : list value) :
  flagged_records results = [] <-> existsb says_yes results = false.
Proof. unfold flagged_records. by rewrite filter_nil_existsb, existsb_says_yes. Qed.

Section AggregatorSteps.
Context {lib : PyLib}.

Lemma is_flagged_read (r : dict) :
  is_flagged (read_entry r) = says_yes (VDict r).
Proof.
  unfold is_flagged, read_entry, record_verdict, says_yes, py_get. simpl.
  by destruct (r !! "mnpi").
Qed.

Lemma is_unclear_read (r : dict) :
  is_unclear (read_entry r) = says_unclear (VDict r).
Proof.
  unfold is_unclear, read_entry, record_verdict, says_unclear, py_get_or. simpl.
  by destruct (r !! "mnpi").
Qed.

Lemma existsb_says_unclear (results : list value) :
  existsb is_unclear (read_entry <$> dicts_of results)
  = existsb says_unclear results.
Proof.
  induction results as [|v results IH]; [done|].
  rewrite dicts_of_cons. cbn [existsb]. rewrite <- IH.
  by destruct v.
Qed.

Lemma filter_flagged_read (ds : list dict) :
  List.filter is_flagged (read_entry <$> ds)
  = read_entry <$> List.filter (fun r => says_yes (VDict r)) ds.
Proof.
  rewrite filter_fmap. f_equal.
  induction ds as [|d ds IH]; simpl; [done|].
  by rewrite is_flagged_read, IH.
Qed.

Lemma confidence_read (ds : list dict) :
  n_confidence <$> (read_entry <$> ds) = record_confidence <$> ds.
Proof. rewrite <- list_fmap_compose. by apply list_fmap_ext. Qed.

(** A confidence that [float()] converts: the entry is read field by
    field. *)
Lemma normalize_entry_reads (r : dict) :
  confidence_ok (py_get r "confidence") = true ->
  normalize_entry r = Ok (read_entry r).
Proof.
  unfold normalize_entry, read_entry, record_confidence, record_tags,
    record_verdict, py_get, py_get_or.
  intros Hc.
  assert (Hcats :
    match default VNone (r !! "categories") with
    | VList _ =>
        match default (VList [VStr "None"]) (r !! "categories") with
        | VList l => l
        | _ => [VStr "None"]
        end
    | _ => [VStr "None"]
    end
    = match r !! "categories" with
      | Some (VList l) => l
      | _ => [VStr "None"]
      end).
  { by destruct (r !! "categories") as [[]|]. }
  rewrite Hcats. clear Hcats.
  destruct (r !! "confidence") as [v|]; simpl in *; [|reflexivity].
  destruct v; simpl in *; try discriminate; try reflexivity.
  - by rewrite Hc.
  - by destruct (float_of_str s).
Qed.

(** Any other confidence: the conversion raises. *)
Lemma normalize_entry_raises (r : dict) :
  confidence_ok (py_get r "confidence") = false ->
  exists e, normalize_entry r = Raise e /\
            exn_kind_of e ∈ [TypeError; ValueError; OverflowError].
Proof.
  unfold normalize_entry, py_get, py_get_or. intros Hc.
  destruct (r !! "confidence") as [v|]; simpl in *; [|discriminate].
  destruct v; simpl in *; try discriminate;
    try (eexists; split; [reflexivity|]; simpl; by repeat constructor).
  - rewrite Hc. eexists. split; [reflexivity|]. simpl. by repeat constructor.
  - destruct (float_of_str s); [discriminate|].
    eexists. split; [reflexivity|]. simpl. by repeat constructor.
Qed.

Lemma normalize_entry_cases (r : dict) :
  normalize_entry r = Ok (read_entry r) \/
  exists e, normalize_entry r = Raise e /\
            exn_kind_of e ∈ [TypeError; ValueError; OverflowError].
Proof.
  destruct (confidence_ok (py_get r "confidence")) eqn:E.
  - left. by apply normalize_entry_reads.
  - right. by apply normalize_entry_raises.
Qed.

Lemma normalize_results_reads (results : list value) :
  forallb entry_confidence_ok results = true ->
  normalize_results results = Ok (read_entry <$> dicts_of results).
Proof.
  induction results as [|v results IH]; intros H; [done|].
  cbn [forallb] in H. apply andb_true_iff in H as [Hv Hrest].
  specialize (IH Hrest). rewrite dicts_of_cons.
  destruct v; cbn [normalize_results]; try exact IH.
  rewrite (normalize_entry_reads d Hv). simpl. rewrite IH. done.
Qed.

Lemma normalize_results_raises (results : list value) (r : dict) :
  VDict r ∈ results ->
  confidence_ok (py_get r "confidence") = false ->
  exists e, normalize_results results = Raise e /\
            exn_kind_of e ∈ [TypeError; ValueError; OverflowError].
Proof.
  induction results as [|v results IH]; intros Hin Hc.
  - by apply elem_of_nil in Hin.
  - apply elem_of_cons in Hin as [<-|Hin].
    + cbn [normalize_results].
      destruct (normalize_entry_raises r Hc) as (e & -> & Hk). simpl. eauto.
    + destruct (IH Hin Hc) as (e & He & Hk).
      destruct v; cbn [normalize_results]; eauto.
      destruct (normalize_entry_cases d) as [-> | (e' & -> & Hk')]; simpl.
      * rewrite He. simpl. eauto.
      * eauto.
Qed.

(** Whatever the normalization returns is the entries read field by
    field. *)
Lemma normalize_results_inv (results : list value)
    (n : list normalized_entry) :
  normalize_results results = Ok n -> n = read_entry <$> dicts_of results.
Proof.
  revert n. induction results as [|v results IH]; intros n H.
  - by injection H as <-.
  - rewrite dicts_of_cons. destruct v; cbn [normalize_results] in H; auto.
    destruct (normalize_entry_cases d) as [E | (e & E & _)];
      rewrite E in H; [|discriminate].
    simpl in H. destruct (normalize_results results) as [m|]; [|discriminate].
    simpl in H. injection H as <-. by rewrite (IH m eq_refl).
Qed.

Lemma entry_ok_confidence (results : list value) :
  forallb entry_ok results = true ->
  forallb entry_confidence_ok results = true.
Proof.
  induction results as [|v results IH]; [done|]. cbn [forallb].
  rewrite !andb_true_iff. intros [Hv Hrest]. split; [|by apply IH].
  destruct v; try done. simpl in *. by apply andb_true_iff in Hv as [? _].
Qed.

Lemma entry_ok_strings (results : list value) :
  forallb entry_ok results = true ->
  Forall strings_only (read_entry <$> dicts_of results).
Proof.
  induction results as [|v results IH]; [constructor|]. cbn [forallb].
  rewrite andb_true_iff. intros [Hv Hrest]. rewrite dicts_of_cons.
  destruct v; try by apply IH.
  rewrite fmap_cons. constructor; [|by apply IH].
  simpl in Hv. apply andb_true_iff in Hv as [_ Hv].
  unfold strings_only, read_entry, record_tags. simpl.
  by destruct (d !! "categories") as [[]|].
Qed.


Lemma entry_ok_tags (results : list value) :
  forallb entry_ok results = true -> forallb entry_tags_ok results = true.
Proof.
  induction results as [|v results IH]; [done|]. cbn [forallb].
  rewrite !andb_true_iff. intros [Hv Hrest]. split; [|by apply IH].
  destruct v; try done. simpl in *. apply andb_true_iff in Hv as [_ Hv].
  unfold record_tags. by destruct (d !! "categories") as [[]|].
Qed.


Lemma nan_free_entries (results : list value) :
  forallb nan_free results = true ->
  Forall (fun y => is_nan y = false) (record_confidence <$> dicts_of results).
Proof.
  induction results as [|v results IH]; [constructor|]. cbn [forallb].
  rewrite andb_true_iff. intros [Hv Hrest]. rewrite dicts_of_cons.
  destruct v; try by apply IH.
  rewrite fmap_cons. constructor; [|by apply IH].
  simpl in Hv. by apply negb_true_iff in Hv.
Qed.

Lemma normalize_entry_ok (r : dict) :
  entry_ok (VDict r) = true ->
  exists e, normalize_entry r = Ok e /\ strings_only e.
Proof.
  intros H. exists (read_entry r).
  pose proof (entry_ok_strings [VDict r]) as Hs. simpl in Hs, H.
  rewrite H in Hs. specialize (Hs eq_refl). inversion Hs; subst.
  split; [|done]. apply normalize_entry_reads.
  by apply andb_true_iff in H as [? _].
Qed.

Lemma normalize_results_ok (results : list value) :
  forallb entry_ok results = true ->
  exists n, normalize_results results = Ok n /\ Forall strings_only n.
Proof.
  intros H. exists (read_entry <$> dicts_of results).
  split; [by apply normalize_results_reads, entry_ok_confidence|].
  by apply entry_ok_strings.
Qed.


Lemma collect_categories_strings (flags : list normalized_entry) :
  Forall strings_only flags ->
  forall ss, NoDup ss ->
  exists ss', collect_categories (HStr <$> ss) flags = Ok (HStr <$> ss') /\
              NoDup ss' /\
              forall c, c ∈ ss' <->
                c ∈ ss \/ exists r, r ∈ flags /\ VStr c ∈ n_categories r.
Proof.
  induction 1 as [|r flags Hr _ IH]; intros ss Hnd; simpl.
  - exists ss. split; [done|]. split; [done|]. intros c. split; [auto|].
    intros [H|(r & Hr & _)]; [done | by apply elem_of_nil in Hr].
  - destruct (add_all_strings ss (n_categories r) Hr Hnd) as (s1 & -> & Hnd1 & H1).
    simpl. destruct (IH s1 Hnd1) as (s2 & -> & Hnd2 & H2).
    exists s2. split; [done|]. split; [done|]. intros c.
    rewrite H2, H1. split.
    + intros [[H|H]|(r' & Hr' & Hc)]; [by left | right | right].
      * exists r. split; [by left | done].
      * exists r'. split; [by right | done].
    + intros [H|(r' & Hr' & Hc)]; [by do 2 left|].
      apply elem_of_cons in Hr' as [->|Hr']; [left; by right|].
      right. by exists r'.
Qed.

Lemma sanitize_categories_eq (s : pyset) :
  sanitize_categories s
  = py_sorted (List.filter (fun c => negb (is_none_tag c)) s).
Proof.
  unfold sanitize_categories. destruct s as [|h [|h' s]]; try reflexivity.
  destruct (is_none_tag h) eqn:E; [|reflexivity]. simpl. by rewrite E.
Qed.

Lemma sanitize_categories_strings (ss : list string) :
  NoDup ss ->
  exists cs, sanitize_categories (HStr <$> ss) = Ok (HStr <$> cs) /\
             StronglySorted str_lt cs /\
             forall c, c ∈ cs <-> c ∈ ss /\ c <> "None".
Proof.
  intros Hnd. rewrite sanitize_categories_eq.
  set (keep := fun c : string => negb (String.eqb c "None")).
  assert (Hf : List.filter (fun c => negb (is_none_tag c)) (HStr <$> ss)
               = HStr <$> List.filter keep ss).
  { induction ss as [|s ss IH]; simpl; [done|]. refold_fmap.
    inversion Hnd; subst. rewrite IH by done. unfold keep.
    destruct (String.eqb s "None"); reflexivity. }
  rewrite Hf.
  destruct (py_sorted_strings (List.filter keep ss)) as (cs & -> & Hp & Hs).
  { by apply NoDup_filter_bool. }
  exists cs. split; [done|]. split; [done|]. intros c.
  rewrite Hp, elem_of_filter_bool. unfold keep. rewrite negb_true_iff.
  by rewrite String.eqb_neq.
Qed.

End AggregatorSteps.

(** ** The summary *)




Section Summary.
Context {lib : PyLib}.

Lemma summarize_unflagged (n : list normalized_entry) :
  List.filter is_flagged n = [] ->
  summarize n =
    Ok {| overall_mnpi := "no";
          categories := [];
          overall_confidence :=
            fl_round2 (py_max_default (n_confidence <$> n) (Fin 0.0));
          reason :=
            if negb (existsb is_unclear n) then "No MNPI detected."
            else "No MNPI detected; some chunks marked unclear - human review recommended.";
          recommended_action :=
            if existsb is_unclear n then "human_review" else "no_action" |}.
Proof. intros H. unfold summarize. by rewrite H. Qed.

Lemma summarize_flagged (n : list normalized_entry)
    (first : normalized_entry) (others : list normalized_entry) :
  Forall strings_only (first :: others) ->
  List.filter is_flagged n = first :: others ->
  exists cs,
    summarize n =
      Ok {| overall_mnpi := "yes";
            categories := VStr <$> cs;
            overall_confidence :=
              fl_round2
                (py_max_from (n_confidence first) (n_confidence <$> others));
            reason :=
              "Detected MNPI in " ++ pretty (length (first :: others))
              ++ " chunk(s).";
            recommended_action :=
              if fl_leb (Fin 0.75)
                   (fl_round2 (py_max_from (n_confidence first)
                                           (n_confidence <$> others)))
              then "escalate" else "human_review" |} /\
    StronglySorted str_lt cs /\
    forall c, c ∈ cs <->
      c <> "None" /\
      exists e, e ∈ first :: others /\ VStr c ∈ n_categories e.
Proof.
  intros Hsf Hf. unfold summarize. rewrite Hf.
  destruct (collect_categories_strings _ Hsf [] (NoDup_nil_2))
    as (ss & Hcol & Hnd & Hin).
  change (@nil hashable) with (HStr <$> @nil string). rewrite Hcol. simpl.
  destruct (sanitize_categories_strings ss Hnd) as (cs & -> & Hsorted & Hcs).
  simpl. exists cs. split.
  - f_equal. f_equal. rewrite <- list_fmap_compose.
    by apply list_fmap_ext.
  - split; [done|]. intros c. rewrite Hcs, Hin. split.
    + intros [[H|H] Hne]; [by apply elem_of_nil in H | by split].
    + intros [Hne H]. split; [by right | done].
Qed.

Lemma strings_only_flagged (n : list normalized_entry) :
  Forall strings_only n -> Forall strings_only (List.filter is_flagged n).
Proof.
  rewrite !Forall_forall. intros Hs e He.
  apply elem_of_filter_bool in He as [He _]. by apply Hs.
Qed.


Lemma normalize_results_flags (results : list value) (n : list normalized_entry) :
  normalize_results results = Ok n ->
  existsb is_flagged n = existsb says_yes results.
Proof.
  intros H. rewrite (normalize_results_inv results n H).
  rewrite existsb_says_yes, existsb_fmap.
  induction (dicts_of results) as [|d ds IH]; simpl; [done|].
  by rewrite is_flagged_read, IH.
Qed.

Lemma normalize_results_skips (results : list value) :
  normalize_results (List.filter is_dict results) = normalize_results results.
Proof.
  induction results as [|v results IH]; simpl; [done|].
  destruct v; simpl; try exact IH. by rewrite IH.
Qed.

End Summary.

Section SummaryWellFormed.
Context {lib : PyLib}.

Lemma summarize_shape (n : list normalized_entry) :
  Forall strings_only (List.filter is_flagged n) ->
  exists s, summarize n = Ok s /\ summary_shape s.
Proof.
  intros Hs. destruct (List.filter is_flagged n) as [|first others] eqn:Hf.
  - rewrite (summarize_unflagged n Hf). eexists. split; [reflexivity|].
    constructor; simpl.
    + by repeat constructor.
    + exists []. split; [done | constructor].
    + eexists. reflexivity.
    + destruct (existsb is_unclear n); by repeat constructor.
  - destruct (summarize_flagged n first others Hs Hf) as (cs & -> & Hsc & _).
    eexists. split; [reflexivity|]. constructor; simpl.
    + by repeat constructor.
    + by exists cs.
    + eexists. reflexivity.
    + match goal with
      | |- context [if ?b then _ else _] => destruct b
      end; by repeat constructor.
Qed.

(** The summary has the confidence of one of the entries, or 0.0 when
    there is none, rounded. *)
Lemma summarize_confidence (n : list normalized_entry) (s : DocumentSummary) :
  summarize n = Ok s ->
  exists x, (x ∈ n_confidence <$> n \/ n = [] /\ x = Fin 0.0) /\
            overall_confidence s = fl_round2 x.
Proof.
  unfold summarize.
  destruct (List.filter is_flagged n) as [|first others] eqn:Hf.
  - intros [= <-]. simpl. destruct n as [|e n]; simpl.
    + exists (Fin 0.0). split; [by right | done].
    + eexists. split; [left; apply py_max_from_elem | done].
  - destruct (collect_categories [] (first :: others)); [|discriminate]. simpl.
    destruct (sanitize_categories _); [|discriminate]. simpl.
    intros [= <-]. simpl. eexists. split; [left | reflexivity].
    pose proof (py_max_from_elem (n_confidence <$> others) (n_confidence first))
      as Hin.
    change (n_confidence first :: (n_confidence <$> others))
      with (n_confidence <$> first :: others) in Hin.
    rewrite <- Hf in Hin.
    apply list_elem_of_fmap in Hin as (e & -> & He).
    apply elem_of_filter_bool in He as [He _]. by apply list_elem_of_fmap_2.
Qed.

Lemma round2_unit_range (q : Q) :
  (0 <= q)%Q -> (q <= 0.95)%Q -> hundredths (round2 q).
Proof.
  intros H0 H1. exists (round_half_even (q * 100)). split; [reflexivity|].
  apply round_half_even_bounds.
  - change (inject_Z 0) with 0%Q. lra.
  - change (inject_Z 95) with 95%Q. lra.
Qed.

End SummaryWellFormed.

(** ** Claims about the aggregator *)

Section AggregatorClaims.
Context {lib : PyLib}.

Lemma unit_range_entries (results : list value) :
  forallb in_unit_range results = true ->
  Forall (fun x => exists q, x = Fin q /\ (0 <= q)%Q /\ (q <= 0.95)%Q)
         (record_confidence <$> dicts_of results).
Proof.
  induction results as [|v results IH]; [constructor|]. cbn [forallb].
  rewrite andb_true_iff. intros [Hv Hrest]. rewrite dicts_of_cons.
  destruct v; try by apply IH.
  rewrite fmap_cons. constructor; [|by apply IH].
  simpl in Hv. destruct (record_confidence d) as [q|]; [|discriminate].
  apply andb_true_iff in Hv as [H0 H1]. apply Qle_bool_iff in H0, H1.
  by exists q.
Qed.

Lemma flagged_strings (results : list value) :
  flagged_tags_ok results = true ->
  Forall strings_only (read_entry <$> flagged_records results).
Proof.
  unfold flagged_tags_ok. induction (flagged_records results) as [|r rs IH];
    [constructor|].
  cbn [forallb]. rewrite andb_true_iff. intros [Hr Hrs].
  rewrite fmap_cons. constructor; [exact Hr | by apply IH].
Qed.

Lemma flagged_no_nan (results : list value) :
  flagged_nan_free results = true ->
  Forall (fun y => is_nan y = false)
         (record_confidence <$> flagged_records results).
Proof.
  unfold flagged_nan_free. induction (flagged_records results) as [|r rs IH];
    [constructor|].
  cbn [forallb]. rewrite andb_true_iff. intros [Hr Hrs].
  rewrite fmap_cons. constructor; [by apply negb_true_iff in Hr | by apply IH].
Qed.

(** C6, amended. When every dict entry has a confidence that float()
    converts, at least one entry has mnpi yes, the tags of the flagged
    records are strings and none of their confidences is nan, the summary
    says yes; its categories are the tags of the flagged records without
    the None sentinel, ascending and without repetition (so empty when None
    was the only tag); its confidence is the greatest confidence among the
    flagged records rounded to two decimals; and it recommends escalate
    when that confidence is at least 0.75 and human_review otherwise. *)
Theorem aggregate_flagged (results : list value) :
  forallb entry_confidence_ok results = true ->
  flagged_tags_ok results = true ->
  flagged_nan_free results = true ->
  existsb says_yes results = true ->
  exists (s : DocumentSummary) (cs : list string) (m : pyfloat),
    aggregate_results results = Ok s /\
    overall_mnpi s = "yes" /\
    categories s = VStr <$> cs /\
    StronglySorted str_lt cs /\
    (forall c, c ∈ cs <->
       c <> "None" /\
       exists r, r ∈ flagged_records results /\ VStr c ∈ record_tags r) /\
    is_max_of m (record_confidence <$> flagged_records results) /\
    overall_confidence s = fl_round2 m /\
    recommended_action s =
      (if fl_leb (Fin 0.75) (fl_round2 m)
       then "escalate" else "human_review").
Proof.
  intros Hok Htags Hnan Hyes.
  pose proof (normalize_results_reads results Hok) as Hn.
  pose proof (flagged_strings results Htags) as Hs.
  pose proof (flagged_no_nan results Hnan) as Hnn.
  pose proof (filter_flagged_read (dicts_of results)) as Hf.
  fold (flagged_records results) in Hf.
  destruct (flagged_records results) as [|r0 rs] eqn:Hfl.
  { apply flagged_records_nil in Hfl. congruence. }
  rewrite fmap_cons in Hf, Hs.
  destruct (summarize_flagged _ _ _ Hs Hf) as (cs & Hsum & Hsc & Hin).
  eexists _, cs, _.
  split; [unfold aggregate_results; rewrite Hn; exact Hsum|].
  split; [done|]. split; [done|]. split; [done|]. split.
  { intros c. rewrite Hin. split; intros [Hne H]; (split; [done|]).
    - destruct H as (e & He & Hc). rewrite <- fmap_cons in He.
      apply list_elem_of_fmap in He as (r & -> & Hr). by exists r.
    - destruct H as (r & Hr & Hc). exists (read_entry r).
      split; [|done]. rewrite <- fmap_cons. by apply list_elem_of_fmap_2. }
  split; [|split; reflexivity].
  simpl. rewrite confidence_read.
  change (n_confidence (read_entry r0)) with (record_confidence r0).
  by apply py_max_from_is_max.
Qed.

(** C7, amended. When every dict entry has a confidence that float()
    converts and that is not nan, and no entry has mnpi yes, the summary
    says no, has no categories, has as confidence the greatest confidence
    of the dict entries (0.0 when there are none) rounded to two decimals,
    and recommends human_review when some entry is read as unclear and
    no_action otherwise; and no summary at all has unclear as its
    verdict. *)
Theorem aggregate_unflagged (results : list value) :
  forallb entry_confidence_ok results = true ->
  forallb nan_free results = true ->
  existsb says_yes results = false ->
  exists (s : DocumentSummary) (m : pyfloat),
    aggregate_results results = Ok s /\
    overall_mnpi s = "no" /\
    categories s = [] /\
    (dicts_of results = [] /\ m = Fin 0.0 \/
     is_max_of m (record_confidence <$> dicts_of results)) /\
    overall_confidence s = fl_round2 m /\
    recommended_action s =
      (if existsb says_unclear results then "human_review" else "no_action") /\
    (forall results' s', aggregate_results results' = Ok s' ->
       overall_mnpi s' = "yes" \/ overall_mnpi s' = "no").
Proof.
  intros Hok Hnan Hno.
  pose proof (normalize_results_reads results Hok) as Hn.
  pose proof (nan_free_entries results Hnan) as Hnn.
  assert (Hf : List.filter is_flagged (read_entry <$> dicts_of results) = []).
  { rewrite filter_flagged_read. fold (flagged_records results).
    apply flagged_records_nil in Hno. by rewrite Hno. }
  eexists. exists (py_max_default (record_confidence <$> dicts_of results)
                                  (Fin 0.0)).
  split; [unfold aggregate_results; rewrite Hn;
          exact (summarize_unflagged _ Hf)|].
  split; [done|]. split; [done|]. split.
  { destruct (dicts_of results) as [|d ds]; [left; by split|]. right.
    rewrite fmap_cons in *. by apply py_max_from_is_max. }
  split; [simpl; by rewrite confidence_read|].
  split; [simpl; by rewrite existsb_says_unclear|].
  intros results' s'. unfold aggregate_results, summarize.
  destruct (normalize_results results') as [n'|]; [|discriminate]. simpl.
  destruct (List.filter is_flagged n') as [|first others].
  - intros [= <-]. by right.
  - destruct (collect_categories [] (first :: others)); [|discriminate]. simpl.
    destruct (sanitize_categories _); [|discriminate]. simpl.
    intros [= <-]. by left.
Qed.

(** C2, amended. On every input sequence whose dict entries carry a
    confidence that is absent, None, a bool, a float, an int within the
    float range or a string float() reads, and categories that, when a
    list, hold only strings, aggregate_results returns a summary without
    raising: a verdict yes or no, categories that are strings in ascending
    order, a confidence that is a float rounded to two decimals, an action
    of the enumeration; the confidence is a whole number of hundredths
    within 0 and 0.95 when the confidence of every dict entry lies within 0
    and 0.95.  Entries that are not dicts are skipped, and every dict entry
    is read with unclear for a missing mnpi, the None sentinel for
    categories that are missing or not a list, and 0.0 for a confidence
    that is missing or None.  On every input sequence a dict entry whose
    confidence is anything else makes aggregate_results raise a TypeError,
    a ValueError or an OverflowError. *)
Theorem aggregate_total_on_typed_entries (results : list value) :
  (forallb entry_ok results = true ->
   exists s,
     aggregate_results results = Ok s /\
     summary_shape s /\
     (forallb in_unit_range results = true -> well_formed s) /\
     aggregate_results (List.filter is_dict results) = Ok s /\
     normalize_results results = Ok (read_entry <$> dicts_of results)) /\
  (forall r,
     VDict r ∈ results -> confidence_ok (py_get r "confidence") = false ->
     exists e, aggregate_results results = Raise e /\
               exn_kind_of e ∈ [TypeError; ValueError; OverflowError]).
Proof.
  split.
  - intros Hok.
    pose proof (normalize_results_reads results (entry_ok_confidence _ Hok))
      as Hn.
    pose proof (entry_ok_strings results Hok) as Hs.
    destruct (summarize_shape _ (strings_only_flagged _ Hs))
      as (s & Hsum & Hshape).
    exists s. unfold aggregate_results.
    rewrite normalize_results_skips, Hn. simpl.
    split; [exact Hsum|]. split; [exact Hshape|].
    split; [|by split].
    intros Hrange. split; [exact Hshape|].
    destruct (summarize_confidence _ _ Hsum) as (x & Hx & ->).
    pose proof (unit_range_entries results Hrange) as Hr.
    destruct Hx as [Hx|[_ ->]].
    + rewrite confidence_read in Hx. rewrite Forall_forall in Hr.
      destruct (Hr x Hx) as (q & -> & H0 & H1).
      exists (round2 q). split; [done|]. by apply round2_unit_range.
    + exists (round2 0.0). split; [done|]. by apply round2_unit_range.
  - intros r Hin Hc.
    destruct (normalize_results_raises results r Hin Hc) as (e & He & Hk).
    exists e. unfold aggregate_results. rewrite He. by split.
Qed.



End AggregatorClaims.

(** C2. An entry whose confidence is a list makes aggregate_results
    raise, and so does a flagged entry with a list among its categories; an
    entry whose confidence is 7 gives a summary whose confidence is 7.0,
    beyond 0.95. *)
Lemma aggregate_ill_formed_inputs :
  @aggregate_results ref_lib [list_confidence_entry]
  = Raise (Exn TypeError
      "float() argument must be a string or a real number, not 'list'") /\
  @aggregate_results ref_lib [list_tag_entry]
  = Raise (Exn TypeError "unhashable type: 'list'") /\
  @aggregate_results ref_lib [overconfident_entry] = Ok overconfident_summary /\
  ~ well_formed overconfident_summary.
Proof.
  split; [vm_compute; reflexivity|].
  split; [vm_compute; reflexivity|].
  split; [vm_compute; reflexivity|].
  intros [_ (q & Hq & k & Hk & Hr)]. simpl in Hq. injection Hq as <-.
  unfold Qeq in Hk. simpl in Hk. lia.
Qed.

(** C6. A flagged entry whose confidence is nan, met ahead of a flagged
    entry at 0.8, gives a summary whose confidence is nan and whose action
    is human_review; a dict among the categories of a flagged entry, or a
    dict as its confidence, makes aggregate_results raise. *)
Lemma aggregate_flagged_nan_first :
  @aggregate_results ref_lib nan_flag_results = Ok nan_flag_summary /\
  @aggregate_results ref_lib [dict_tag_entry]
  = Raise (Exn TypeError "unhashable type: 'dict'") /\
  @aggregate_results ref_lib [dict_confidence_entry]
  = Raise (Exn TypeError
      "float() argument must be a string or a real number, not 'dict'").
Proof. repeat split; vm_compute; reflexivity. Qed.

(** C7. Among unflagged entries a confidence given as a word makes
    aggregate_results raise, and a confidence that is nan, met ahead of an
    entry at 0.9, gives a summary whose confidence is nan. *)
Lemma aggregate_unflagged_nan_first :
  @aggregate_results ref_lib [worded_confidence_entry]
  = Raise (Exn ValueError "could not convert string to float: 'high'") /\
  @aggregate_results ref_lib nan_unflagged_results = Ok nan_unflagged_summary.
Proof. split; vm_compute; reflexivity. Qed.


(** ** The claims at concrete inputs *)

Lemma low_confidence_yes_is_unclear_witness :
  (@safe_parse_model_output ref_lib low_yes_text = Ok low_yes_record /\
   low_yes_record !! "mnpi" = Some (VStr "unclear") /\
   low_yes_record !! "recommended_action" = Some (VStr "human_review")) /\
  (@merge_passes ref_lib raw_low_yes raw_low_yes = Ok raw_merged_final /\
   raw_merged_final !! "mnpi" = Some (VStr "unclear") /\
   raw_merged_final !! "recommended_action" = Some (VStr "human_review")).
Proof.
  assert (H1 : re_search_braces low_yes_text = Some low_yes_text)
    by (vm_compute; reflexivity).
  assert (H2 : @json_loads ref_lib low_yes_text = Some (VDict low_yes_decoded))
    by (vm_compute; reflexivity).
  assert (H3 : low_yes_decoded !! "mnpi" = Some (VStr "yes"))
    by (vm_compute; reflexivity).
  assert (H4 : @safe_parse_model_output ref_lib low_yes_text = Ok low_yes_record)
    by reflexivity.
  assert (H5 : low_yes_record !! "confidence" = Some (VFloat (30 # 100)))
    by (vm_compute; reflexivity).
  assert (H6 : (30 # 100 < 0.5)%Q) by reflexivity.
  assert (G1 : @merged_record ref_lib raw_low_yes raw_low_yes = Ok raw_merged)
    by reflexivity.
  assert (G2 : raw_merged !! "mnpi" = Some (VStr "yes"))
    by (vm_compute; reflexivity).
  assert (G3 : raw_merged !! "confidence" = Some (VFloat (45 # 100)))
    by (vm_compute; reflexivity).
  assert (G4 : (45 # 100 < 0.5)%Q) by reflexivity.
  assert (G5 : @merge_passes ref_lib raw_low_yes raw_low_yes
               = Ok raw_merged_final) by reflexivity.
  pose proof (@low_confidence_yes_is_unclear ref_lib low_yes_text low_yes_text
                low_yes_decoded low_yes_record (30 # 100) raw_low_yes raw_low_yes
                raw_merged raw_merged_final (45 # 100)) as [Ha Hb].
  split.
  - split; [exact H4|]. exact (Ha H1 H2 H3 H4 H5 H6).
  - split; [exact G5|]. exact (Hb G1 G2 G3 G4 G5).
Defined.

Lemma safe_parse_extracts_outer_braces_witness :
  @safe_parse_model_output ref_lib "Answer: {oops} done" = Ok malformed_record /\
  @safe_parse_model_output ref_lib "no answer" = Ok no_json_record /\
  @safe_parse_model_output ref_lib "an { opened" = Ok no_json_record.
Proof.
  split; [|split].
  - destruct (@safe_parse_extracts_outer_braces ref_lib "Answer: {oops} done")
      as [H _].
    destruct (H "Answer: " "oops" " done" eq_refl eq_refl eq_refl)
      as (_ & _ & Hbad).
    apply Hbad. vm_compute. reflexivity.
  - destruct (@safe_parse_extracts_outer_braces ref_lib "no answer")
      as (_ & H & _).
    apply H. left. reflexivity.
  - destruct (@safe_parse_extracts_outer_braces ref_lib "an { opened")
      as (_ & H & _).
    apply H. right. exists "an ", " opened". repeat split; reflexivity.
Defined.

Lemma classify_chunk_no_budget_witness :
  (0 <= 0)%Z /\
  @classify_chunk ref_lib "chunk" 0 0.6 = Ret (Ok no_json_record).
Proof.
  split; [lia|].
  apply (proj1 (@classify_chunk_no_budget ref_lib "chunk" 0 0.6 ltac:(lia))).
Defined.

Lemma verifier_merge_witness :
  exists final c,
    run scripted (@classify_chunk ref_lib "chunk" 1 0.6)
        [Returned first_pass_text; Returned verifier_pass_text]
      = (Ok final, []) /\
    final !! "mnpi" = Some (VStr "unclear") /\
    final !! "confidence" = Some (VFloat c) /\ (c == 0.5)%Q /\
    final !! "notes" = Some (VStr "first").
Proof.
  assert (H1 : run scripted
                 (@attempt_loop ref_lib
                    (str_replace (@PROMPT_TEMPLATE ref_lib) "{CHUNK}" "chunk")
                    1 0.6 (py_range 1 (1 + 1)) EmptyString)
                 [Returned first_pass_text; Returned verifier_pass_text]
               = (Ok (inr first_pass_text), [Returned verifier_pass_text]))
    by (vm_compute; reflexivity).
  assert (H2 : @safe_parse_model_output ref_lib first_pass_text
               = Ok first_pass_record) by reflexivity.
  assert (H3 : borderline first_pass_record = Ok true)
    by (vm_compute; reflexivity).
  assert (H4 : scripted [Returned verifier_pass_text] (verifier_prompt "chunk")
               = (Returned verifier_pass_text, [])) by reflexivity.
  assert (H5 : @safe_parse_model_output ref_lib verifier_pass_text
               = Ok verifier_pass_record) by reflexivity.
  destruct (@verifier_merge ref_lib (list response) scripted "chunk" 1 0.6
              _ _ _ _ _ _ _ H1 H2 H3 H4 H5)
    as (final & pm & vm & pc & vc & c & Hrun & Hpm & Hvm & Hpc & Hvc & Hc & _
        & Hmin & Hmnpi & Hkeys).
  vm_compute in Hpm, Hvm, Hpc, Hvc.
  injection Hpm as <-. injection Hvm as <-.
  injection Hpc as <-. injection Hvc as <-.
  exists final, c. split; [exact Hrun|]. split; [exact Hmnpi|].
  split; [exact Hc|]. split; [rewrite Hmin; reflexivity|].
  rewrite (Hkeys "notes") by (by repeat constructor).
  vm_compute. reflexivity.
Defined.

Lemma aggregate_flagged_witness :
  exists s m,
    @aggregate_results ref_lib
       [entry "yes" 0.9 ["M&A/Transactions"]; entry "no" 0.2 []] = Ok s /\
    overall_mnpi s = "yes" /\
    is_max_of m (@record_confidence ref_lib <$>
                   flagged_records
                     [entry "yes" 0.9 ["M&A/Transactions"]; entry "no" 0.2 []]) /\
    overall_confidence s = fl_round2 m /\
    recommended_action s =
      (if fl_leb (Fin 0.75) (fl_round2 m) then "escalate" else "human_review").
Proof.
  destruct (@aggregate_flagged ref_lib
              [entry "yes" 0.9 ["M&A/Transactions"]; entry "no" 0.2 []]
              eq_refl eq_refl eq_refl eq_refl)
    as (s & cs & m & Hagg & Hyes & _ & _ & _ & Hmax & Hconf & Hact).
  exists s, m. split; [exact Hagg|]. split; [exact Hyes|].
  split; [exact Hmax|]. split; [exact Hconf | exact Hact].
Defined.

Lemma aggregate_unflagged_witness :
  exists s,
    @aggregate_results ref_lib
       [entry "no" 0.2 []; entry "unclear" 0.4 []] = Ok s /\
    overall_mnpi s = "no" /\ categories s = [] /\
    recommended_action s = "human_review".
Proof.
  destruct (@aggregate_unflagged ref_lib
              [entry "no" 0.2 []; entry "unclear" 0.4 []]
              eq_refl eq_refl eq_refl)
    as (s & m & Hagg & Hno & Hcats & _ & _ & Hact & _).
  exists s. split; [exact Hagg|]. split; [exact Hno|]. split; [exact Hcats|].
  exact Hact.
Defined.

Lemma aggregate_total_on_typed_entries_witness :
  exists s,
    @aggregate_results ref_lib
       [VInt 7; entry "yes" 0.6 ["Executive Changes"; "None"]; VDict ∅] = Ok s /\
    well_formed s.
Proof.
  assert (Hok : forallb (@entry_ok ref_lib)
                  [VInt 7; entry "yes" 0.6 ["Executive Changes"; "None"]; VDict ∅]
                = true) by (vm_compute; reflexivity).
  assert (Hrange : forallb (@in_unit_range ref_lib)
                  [VInt 7; entry "yes" 0.6 ["Executive Changes"; "None"]; VDict ∅]
                = true) by (vm_compute; reflexivity).
  destruct (proj1 (@aggregate_total_on_typed_entries ref_lib _) Hok)
    as (s & Hagg & _ & Hwf & _).
  exists s. split; [exact Hagg | exact (Hwf Hrange)].
Defined.


(** * Further properties *)

(** ** The normalizer field by field *)

Lemma existsb_eqb_elem (s : string) (dom : list string) :
  existsb (String.eqb s) dom = true <-> s ∈ dom.
Proof.
  rewrite existsb_exists. split.
  - intros (a & Hin & He). apply String.eqb_eq in He as ->.
    by apply list_elem_of_In.
  - intros H. exists s. split; [by apply list_elem_of_In | apply String.eqb_refl].
Qed.

Lemma in_strs_valid_str (d : dict) (k : string) (dom : list string) :
  in_strs (py_get d k) dom = match valid_str (d !! k) dom with
                             | Some _ => true
                             | None => false
                             end.
Proof.
  unfold in_strs, py_get, valid_str. destruct (d !! k) as [[]|]; simpl; try done.
  - induction dom; simpl; [done|]. by rewrite IHdom.
  - induction dom; simpl; [done|]. by rewrite IHdom.
  - induction dom; simpl; [done|]. by rewrite IHdom.
  - induction dom; simpl; [done|]. by rewrite IHdom.
  - induction dom; simpl; [done|]. by rewrite IHdom.
  - assert (H : existsb (eq_str (VStr s)) dom = existsb (String.eqb s) dom)
      by (induction dom; simpl; [done | by f_equal]).
    rewrite H. by destruct (existsb (String.eqb s) dom).
  - induction dom; simpl; [done|]. by rewrite IHdom.
  - induction dom; simpl; [done|]. by rewrite IHdom.
  - induction dom; simpl; [done|]. by rewrite IHdom.
Qed.

Lemma valid_str_some (v : option value) (dom : list string) (s : string) :
  valid_str v dom = Some s -> v = Some (VStr s) /\ s ∈ dom.
Proof.
  unfold valid_str. destruct v as [[]|]; try discriminate.
  destruct (existsb (String.eqb s0) dom) eqn:E; [|discriminate].
  intros [= ->]. split; [done | by apply existsb_eqb_elem].
Qed.

(** The clamp on any float leaves a finite one. *)
Lemma fl_clamp_round_clamped (x : pyfloat) :
  float_value (fl_clamp_round x) = VFloat (clamped x).
Proof.
  destruct x as [q|[]]; [by rewrite fl_clamp_round_fin | reflexivity..].
Qed.

Section NormalizerFields.
Context {lib : PyLib}.

Lemma coerce_mnpi_lookup (d : dict) :
  coerce_mnpi d !! "mnpi" = Some (VStr (coerced_verdict d)).
Proof.
  unfold coerce_mnpi, coerced_verdict, verdicts.
  rewrite (in_strs_valid_str d "mnpi").
  destruct (valid_str (d !! "mnpi") _) as [s|] eqn:E; simpl.
  - by apply valid_str_some in E as [-> _].
  - apply lookup_insert_eq.
Qed.

Lemma coerce_categories_lookup (d : dict) :
  coerce_categories d !! "categories" = Some (VList (raw_categories d)).
Proof.
  unfold coerce_categories, raw_categories, py_get.
  destruct (d !! "categories") as [[]|] eqn:E; simpl;
    try apply lookup_insert_eq. exact E.
Qed.

Lemma py_float_float_value (x : pyfloat) : py_float (float_value x) = Ok x.
Proof. by destruct x. Qed.

(** Clamping after the coercion: the raw confidence clamped and rounded,
    or the overflow of an [int] beyond the float range. *)
Lemma clamp_coerce_confidence (d : dict) :
  match d !! "confidence" with
  | Some (VInt n) =>
      if (Z.abs n <? float_int_limit)%Z
      then clamp_confidence (coerce_confidence d)
           = Ok (<["confidence" := VFloat (expected_confidence d)]> d)
      else clamp_confidence (coerce_confidence d)
           = Raise (Exn OverflowError "int too large to convert to float")
  | _ =>
      exists d', clamp_confidence (coerce_confidence d)
                 = Ok (<["confidence" := VFloat (expected_confidence d)]> d') /\
                 changes_only ["confidence"] d d'
  end.
Proof.
  unfold clamp_confidence, coerce_confidence, expected_confidence,
    raw_confidence, py_get, py_get_or, py_getitem.
  destruct (d !! "confidence") as [v|] eqn:E; [destruct v|];
    rewrite <- ?fl_clamp_round_clamped; cbn -[fl_clamp_round]; rewrite ?E;
    cbn -[fl_clamp_round];
    try (eexists; split;
         [rewrite lookup_insert_eq; cbn -[fl_clamp_round]; reflexivity
         | apply changes_only_insert]);
    try (exists d; split; [reflexivity | apply changes_only_refl]).
  - destruct (Z.abs n <? float_int_limit)%Z;
      rewrite <- ?fl_clamp_round_clamped; reflexivity.
  - destruct (float_of_str s); rewrite <- ?fl_clamp_round_clamped;
      cbn -[fl_clamp_round]; eexists;
      (split; [rewrite lookup_insert_eq; cbn -[fl_clamp_round];
               rewrite ?py_float_float_value; reflexivity
              | apply changes_only_insert]).
Qed.
Lemma in_allowed_hashable (c : value) :
  is_hashable c = true -> in_allowed c = Ok (in_vocabulary c).
Proof. destruct c; try discriminate; intros _; reflexivity. Qed.

Lemma filter_allowed_hashable (l : list value) :
  forallb is_hashable l = true ->
  filter_allowed l = Ok (List.filter in_vocabulary l).
Proof.
  induction l as [|c l IH]; simpl; [done|]. intros H.
  apply andb_true_iff in H as [Hc Hl].
  rewrite (in_allowed_hashable c Hc), (IH Hl). simpl.
  by destruct (in_vocabulary c).
Qed.

Lemma filter_allowed_unhashable (l : list value) :
  forallb is_hashable l = false ->
  exists e, filter_allowed l = Raise e /\ exn_kind_of e = TypeError.
Proof.
  induction l as [|c l IH]; simpl; [discriminate|]. intros H.
  destruct (is_hashable c) eqn:Hc; simpl in H.
  - rewrite (in_allowed_hashable c Hc). simpl.
    destruct (IH H) as (e & -> & He). simpl. eauto.
  - destruct c; try discriminate; simpl; eauto.
Qed.

Lemma validate_categories_lookup (d : dict) (l : list value) :
  d !! "categories" = Some (VList l) ->
  forallb is_hashable l = true ->
  exists d', validate_categories d = Ok d' /\
    d' !! "categories"
      = Some (VList (match List.filter in_vocabulary l with
                     | [] => [VStr "None"]
                     | kept => kept
                     end)) /\
    changes_only ["categories"] d d'.
Proof.
  intros Hl Hh. unfold validate_categories, py_getitem. rewrite Hl. simpl.
  rewrite (filter_allowed_hashable l Hh). simpl. rewrite lookup_insert_eq. simpl.
  destruct (List.filter in_vocabulary l) as [|c kept]; simpl;
    eexists; (split; [reflexivity|]); (split; [apply lookup_insert_eq|]).
  - intros k Hk. rewrite !lookup_insert_ne; [done | |];
      intros <-; apply Hk; by repeat constructor.
  - apply changes_only_insert.
Qed.

Lemma risk_level_sanity_lookup (d : dict) (c : Q) :
  d !! "confidence" = Some (VFloat c) ->
  exists d', risk_level_sanity d = Ok d' /\
    d' !! "risk_level"
      = Some (VStr (default (derived_risk c)
                            (valid_str (d !! "risk_level") risk_levels))) /\
    changes_only ["risk_level"] d d'.
Proof.
  intros Hc. unfold risk_level_sanity, risk_levels.
  rewrite (in_strs_valid_str d "risk_level").
  destruct (valid_str (d !! "risk_level") _) as [s|] eqn:E; simpl.
  - apply valid_str_some in E as [E _]. exists d.
    split; [done|]. split; [done | apply changes_only_refl].
  - unfold py_getitem, derived_risk. rewrite Hc. simpl.
    destruct (Qle_bool 0.75 c); simpl;
      [|destruct (Qle_bool 0.5 c); simpl];
      eexists; (split; [reflexivity|]);
      (split; [apply lookup_insert_eq | apply changes_only_insert]).
Qed.

Lemma recommended_action_sanity_lookup (d : dict) (r m : string) :
  d !! "risk_level" = Some (VStr r) -> d !! "mnpi" = Some (VStr m) ->
  exists d', recommended_action_sanity d = Ok d' /\
    d' !! "recommended_action"
      = Some (VStr (default (derived_action m r)
                      (valid_str (d !! "recommended_action") actions))) /\
    changes_only ["recommended_action"] d d'.
Proof.
  intros Hr Hm. unfold recommended_action_sanity, actions.
  rewrite (in_strs_valid_str d "recommended_action").
  destruct (valid_str (d !! "recommended_action") _) as [s|] eqn:E; simpl.
  - apply valid_str_some in E as [E _]. exists d.
    split; [done|]. split; [done | apply changes_only_refl].
  - unfold py_getitem, derived_action. rewrite Hr. simpl.
    destruct (String.eqb r "high"); simpl;
      [|rewrite Hm; simpl; destruct (String.eqb m "unclear"); simpl;
        [|destruct (String.eqb r "medium"); simpl]];
      eexists; (split; [reflexivity|]);
      (split; [apply lookup_insert_eq | apply changes_only_insert]).
Qed.

End NormalizerFields.

Section NormalizerExplicit.
Context {lib : PyLib}.

Lemma raw_categories_hashable (d : dict) :
  normalizable d = true -> forallb is_hashable (raw_categories d) = true.
Proof.
  unfold normalizable, raw_categories. intros H.
  apply andb_true_iff in H as [H _].
  destruct (d !! "categories") as [[]|]; done.
Qed.

(** The five validated fields of the result as functions of the decoded
    dict, for a dict the normalizer can digest. *)
Lemma normalize_fields_explicit (d : dict) :
  normalizable d = true ->
  exists out,
    normalize_fields d = Ok out /\
    out !! "mnpi" = Some (VStr (expected_verdict d)) /\
    out !! "categories" = Some (VList (expected_categories d)) /\
    out !! "confidence" = Some (VFloat (expected_confidence d)) /\
    out !! "risk_level" = Some (VStr (expected_risk d)) /\
    out !! "recommended_action" = Some (VStr (expected_action d)) /\
    changes_only validated_keys d out.
Proof.
  intros Hn. pose proof (raw_categories_hashable d Hn) as Hhash.
  unfold normalizable in Hn. apply andb_true_iff in Hn as [_ Hconf].
  unfold normalize_fields.
  pose proof (coerce_mnpi_lookup d) as Hm1.
  pose proof (coerce_mnpi_frame d) as F1.
  set (d1 := coerce_mnpi d) in *.
  pose proof (coerce_categories_lookup d1) as Hc2.
  pose proof (coerce_categories_frame d1) as F2.
  set (d2 := coerce_categories d1) in *.
  assert (Hraw : raw_categories d1 = raw_categories d).
  { unfold raw_categories. by rewrite (F1 "categories" ltac:(not_in_keys)). }
  rewrite Hraw in Hc2.
  assert (Hconf2 : d2 !! "confidence" = d !! "confidence").
  { through F2. through F1. done. }
  assert (Hexp : expected_confidence d2 = expected_confidence d).
  { unfold expected_confidence, raw_confidence. by rewrite Hconf2. }
  assert (Hclamp : exists d3,
    clamp_confidence (coerce_confidence d2)
      = Ok (<["confidence" := VFloat (expected_confidence d)]> d3) /\
    changes_only ["confidence"] d2 d3).
  { pose proof (clamp_coerce_confidence d2) as H. rewrite Hconf2, Hexp in H.
    destruct (d !! "confidence") as [[]|]; try exact H.
    rewrite Hconf in H. exists d2. split; [exact H | apply changes_only_refl]. }
  destruct Hclamp as (d3 & -> & F3). simpl.
  set (c := expected_confidence d) in *.
  pose proof (changes_only_insert "confidence" (VFloat c) d3) as F4.
  set (d4 := <["confidence" := VFloat c]> d3) in *.
  assert (Hm4 : d4 !! "mnpi" = Some (VStr (coerced_verdict d))).
  { through F4. through F3. through F2. exact Hm1. }
  assert (Hc4 : d4 !! "confidence" = Some (VFloat c))
    by apply lookup_insert_eq.
  pose proof (low_confidence_override_spec d4 _ _ Hm4 Hc4) as E5.
  pose proof (low_confidence_override_frame d4 _ E5) as F5.
  rewrite E5. simpl.
  change ((coerced_verdict d =? "yes")%string && Qltb c 0.5)
    with (is_low_yes d) in *.
  set (d5 := if is_low_yes d then _ else d4) in *.
  assert (Hm5 : d5 !! "mnpi" = Some (VStr (expected_verdict d))).
  { unfold expected_verdict. subst d5. destruct (is_low_yes d); [|exact Hm4].
    rewrite lookup_insert_ne by discriminate. apply lookup_insert_eq. }
  assert (Ha5 : valid_str (d5 !! "recommended_action") actions
                = if is_low_yes d then Some "human_review"
                  else valid_str (d !! "recommended_action") actions).
  { subst d5. destruct (is_low_yes d).
    - rewrite lookup_insert_eq. reflexivity.
    - through F4. through F3. through F2. through F1. reflexivity. }
  assert (Hcat5 : d5 !! "categories" = Some (VList (raw_categories d))).
  { through F5. through F4. through F3. exact Hc2. }
  destruct (validate_categories_lookup d5 _ Hcat5 Hhash)
    as (d6 & -> & Hcat6 & F6). simpl.
  assert (Hc6 : d6 !! "confidence" = Some (VFloat c)).
  { through F6. through F5. exact Hc4. }
  destruct (risk_level_sanity_lookup d6 c Hc6) as (d7 & -> & Hr7 & F7). simpl.
  assert (Hrisk : d6 !! "risk_level" = d !! "risk_level").
  { through F6. through F5. through F4. through F3. through F2. through F1.
    done. }
  rewrite Hrisk in Hr7. fold (expected_risk d) in Hr7.
  assert (Hm7 : d7 !! "mnpi" = Some (VStr (expected_verdict d))).
  { through F7. through F6. exact Hm5. }
  destruct (recommended_action_sanity_lookup d7 _ _ Hr7 Hm7)
    as (d8 & -> & Ha8 & F8).
  assert (Hact : d7 !! "recommended_action" = d5 !! "recommended_action").
  { through F7. through F6. done. }
  rewrite Hact, Ha5 in Ha8.
  exists d8. split; [reflexivity|].
  split; [through F8; exact Hm7|].
  split; [through F8; through F7; exact Hcat6|].
  split; [through F8; through F7; exact Hc6|].
  split; [through F8; exact Hr7|].
  split.
  - rewrite Ha8. unfold expected_action. by destruct (is_low_yes d).
  - intros key Hkey. unfold validated_keys in Hkey.
    rewrite F8, F7, F6, F5, F4, F3, F2, F1; [done|..];
      intros Hin; apply Hkey; clear - Hin;
      rewrite ?elem_of_cons, ?elem_of_nil in *; tauto.
Qed.

(** What makes the normalizer raise. *)
Lemma normalize_fields_raises (d : dict) :
  normalizable d = false ->
  exists e, normalize_fields d = Raise e /\
            (exn_kind_of e = TypeError \/ exn_kind_of e = OverflowError).
Proof.
  intros Hn. unfold normalize_fields.
  pose proof (coerce_mnpi_lookup d) as Hm1.
  pose proof (coerce_mnpi_frame d) as F1.
  set (d1 := coerce_mnpi d) in *.
  pose proof (coerce_categories_lookup d1) as Hc2.
  pose proof (coerce_categories_frame d1) as F2.
  set (d2 := coerce_categories d1) in *.
  assert (Hraw : raw_categories d1 = raw_categories d).
  { unfold raw_categories. by rewrite (F1 "categories" ltac:(not_in_keys)). }
  rewrite Hraw in Hc2.
  assert (Hconf2 : d2 !! "confidence" = d !! "confidence").
  { through F2. through F1. done. }
  assert (Hexp : expected_confidence d2 = expected_confidence d).
  { unfold expected_confidence, raw_confidence. by rewrite Hconf2. }
  pose proof (clamp_coerce_confidence d2) as Hclamp.
  rewrite Hconf2, Hexp in Hclamp.
  assert (Hcases :
    (exists e, clamp_confidence (coerce_confidence d2) = Raise e /\
               exn_kind_of e = OverflowError) \/
    (forallb is_hashable (raw_categories d) = false /\
     exists d3, clamp_confidence (coerce_confidence d2)
                = Ok (<["confidence" := VFloat (expected_confidence d)]> d3) /\
                changes_only ["confidence"] d2 d3)).
  { unfold normalizable in Hn. apply andb_false_iff in Hn.
    assert (Hcat : (match d !! "categories" with
                    | Some (VList l) => forallb is_hashable l
                    | _ => true
                    end) = forallb is_hashable (raw_categories d)).
    { unfold raw_categories. by destruct (d !! "categories") as [[]|]. }
    rewrite Hcat in Hn.
    destruct (d !! "confidence") as [[]|];
      try (destruct Hn as [Hn|Hn]; [|discriminate]; right; split; [done|];
           exact Hclamp).
    destruct (Z.abs n <? float_int_limit)%Z.
    - destruct Hn as [Hn|Hn]; [|discriminate]. right. split; [done|].
      exists d2. split; [exact Hclamp | apply changes_only_refl].
    - left. eexists. split; [exact Hclamp | reflexivity]. }
  destruct Hcases as [(e & -> & He) | (Hh & d3 & -> & F3)]; simpl; [eauto|].
  set (c := expected_confidence d) in *.
  pose proof (changes_only_insert "confidence" (VFloat c) d3) as F4.
  set (d4 := <["confidence" := VFloat c]> d3) in *.
  assert (Hm4 : d4 !! "mnpi" = Some (VStr (coerced_verdict d))).
  { through F4. through F3. through F2. exact Hm1. }
  assert (Hc4 : d4 !! "confidence" = Some (VFloat c))
    by apply lookup_insert_eq.
  pose proof (low_confidence_override_spec d4 _ _ Hm4 Hc4) as E5.
  pose proof (low_confidence_override_frame d4 _ E5) as F5.
  rewrite E5. simpl.
  set (d5 := if (coerced_verdict d =? "yes")%string && Qltb c 0.5
             then _ else d4) in *.
  assert (Hcat5 : d5 !! "categories" = Some (VList (raw_categories d))).
  { through F5. through F4. through F3. exact Hc2. }
  unfold validate_categories, py_getitem. rewrite Hcat5. simpl.
  destruct (filter_allowed_unhashable _ Hh) as (e & -> & He). simpl. eauto.
Qed.

End NormalizerExplicit.

(** ** Properties of the normalizer *)

Section NormalizerProperties.
Context {lib : PyLib}.

(** X1. Whatever record safe_parse_model_output returns, its mnpi,
    risk_level and recommended_action are strings of their enumerations,
    its categories are a non-empty list of tags of the vocabulary, and its
    confidence is a float that is a whole number of hundredths between 0.0
    and 0.95. *)
Theorem normalizer_output_in_domain (text : string) (out : dict) :
  safe_parse_model_output text = Ok out ->
  str_field out "mnpi" verdicts /\
  cats_field out /\
  conf_field out /\
  str_field out "risk_level" risk_levels /\
  str_field out "recommended_action" actions.
Proof.
  intros H. destruct (safe_parse_validated text out H).
  repeat split; assumption.
Qed.

(** X2. The normalizer touches five keys only: every other key of the
    decoded object (evidence_summary, notes, anything else the model sent)
    has in the result the value it had, and a key that was absent stays
    absent. *)
Theorem normalizer_passes_other_keys_through (text m : string) (d out : dict)
    (k : string) :
  re_search_braces text = Some m ->
  json_loads m = Some (VDict d) ->
  safe_parse_model_output text = Ok out ->
  k ∉ validated_keys ->
  out !! k = d !! k.
Proof.
  intros Hs Hj Hout Hk. unfold safe_parse_model_output in Hout.
  rewrite Hs, Hj in Hout. simpl in Hout.
  apply normalize_fields_ok in Hout as [_ F]. by apply F.
Qed.

(** X3. On a decoded object the normalizer raises exactly when the
    categories list holds a list or a dict (they cannot be looked up in the
    vocabulary set), or the confidence is an int beyond the float range;
    the exception is a TypeError or an OverflowError.  Otherwise it returns
    a record. *)
Theorem normalizer_raises_exactly (text m : string) (d : dict) :
  re_search_braces text = Some m ->
  json_loads m = Some (VDict d) ->
  (normalizable d = true -> exists out, safe_parse_model_output text = Ok out) /\
  (normalizable d = false ->
   exists e, safe_parse_model_output text = Raise e /\
             (exn_kind_of e = TypeError \/ exn_kind_of e = OverflowError)).
Proof.
  intros Hs Hj. unfold safe_parse_model_output. rewrite Hs, Hj. simpl. split.
  - intros Hn. destruct (normalize_fields_explicit d Hn) as (out & -> & _).
    eauto.
  - apply normalize_fields_raises.
Qed.

(** X4. The categories of the result are the tags of the decoded list that
    belong to the vocabulary, in their order; when none is left, or the
    decoded categories are missing or not a list, they are [None]. *)
Theorem normalizer_filters_categories (text m : string) (d out : dict) :
  re_search_braces text = Some m ->
  json_loads m = Some (VDict d) ->
  safe_parse_model_output text = Ok out ->
  out !! "categories"
    = Some (VList (match List.filter in_vocabulary
                           (match d !! "categories" with
                            | Some (VList l) => l
                            | _ => [VStr "None"]
                            end) with
                   | [] => [VStr "None"]
                   | kept => kept
                   end)).
Proof.
  intros Hs Hj Hout. unfold safe_parse_model_output in Hout.
  rewrite Hs, Hj in Hout. simpl in Hout.
  destruct (normalizable d) eqn:Hn.
  - destruct (normalize_fields_explicit d Hn) as (out' & E & _ & Hc & _).
    rewrite E in Hout. injection Hout as <-. exact Hc.
  - destruct (normalize_fields_raises d Hn) as (e & E & _). congruence.
Qed.

(** X5. The confidence of the result is the raw confidence clamped to
    [0.0, 0.95] and rounded to two decimals, where the raw confidence is
    the decoded number (an int as the nearest float), what float makes of a
    decoded string, and 0.0 when the key is missing or holds anything
    else; min, max and round are those of the floats, so that a raw
    confidence of nan or inf ends at 0.95 and one of -inf at 0.0. *)
Theorem normalizer_confidence (text m : string) (d out : dict) :
  re_search_braces text = Some m ->
  json_loads m = Some (VDict d) ->
  safe_parse_model_output text = Ok out ->
  out !! "confidence"
    = Some (float_value
              (fl_round2 (fl_max (Fin 0.0) (fl_min (Fin 0.95) (raw_confidence d)))))
  /\
  (forall q, raw_confidence d = Fin q ->
     out !! "confidence"
       = Some (VFloat (round2 (py_max 0.0 (py_min 0.95 q))))).
Proof.
  intros Hs Hj Hout. unfold safe_parse_model_output in Hout.
  rewrite Hs, Hj in Hout. simpl in Hout.
  destruct (normalizable d) eqn:Hn.
  - destruct (normalize_fields_explicit d Hn) as (out' & E & _ & _ & Hc & _).
    rewrite E in Hout. injection Hout as <-. rewrite Hc.
    unfold expected_confidence. split.
    + by rewrite <- fl_clamp_round_clamped.
    + by intros q ->.
  - destruct (normalize_fields_raises d Hn) as (e & E & _). congruence.
Qed.

(** X6. A decoded risk_level that is low, medium or high is kept; any
    other, or none, is replaced by the level derived from the normalized
    confidence: high from 0.75, medium from 0.5, low below. *)
Theorem normalizer_risk_level (text m : string) (d out : dict) (c : Q) :
  re_search_braces text = Some m ->
  json_loads m = Some (VDict d) ->
  safe_parse_model_output text = Ok out ->
  out !! "confidence" = Some (VFloat c) ->
  out !! "risk_level"
    = Some (VStr (match valid_str (d !! "risk_level") risk_levels with
                  | Some r => r
                  | None =>
                      if Qle_bool 0.75 c then "high"
                      else if Qle_bool 0.5 c then "medium" else "low"
                  end)).
Proof.
  intros Hs Hj Hout Hc. unfold safe_parse_model_output in Hout.
  rewrite Hs, Hj in Hout. simpl in Hout.
  destruct (normalizable d) eqn:Hn.
  - destruct (normalize_fields_explicit d Hn)
      as (out' & E & _ & _ & Hc' & Hr & _).
    rewrite E in Hout. injection Hout as <-.
    rewrite Hc' in Hc. injection Hc as <-. rewrite Hr.
    unfold expected_risk, derived_risk.
    by destruct (valid_str _ _).
  - destruct (normalize_fields_raises d Hn) as (e & E & _). congruence.
Qed.

(** X7. Unless the low-confidence override fired, a decoded
    recommended_action that is escalate, human_review or no_action is kept,
    and any other, or none, is derived from the normalized record:
    escalate when the risk level is high, else human_review when the
    verdict is unclear or the risk level is medium, else no_action. *)
Theorem normalizer_recommended_action (text m : string) (d out : dict)
    (verdict risk : string) :
  re_search_braces text = Some m ->
  json_loads m = Some (VDict d) ->
  safe_parse_model_output text = Ok out ->
  is_low_yes d = false ->
  out !! "mnpi" = Some (VStr verdict) ->
  out !! "risk_level" = Some (VStr risk) ->
  out !! "recommended_action"
    = Some (VStr (match valid_str (d !! "recommended_action") actions with
                  | Some a => a
                  | None =>
                      if String.eqb risk "high" then "escalate"
                      else if String.eqb verdict "unclear"
                              || String.eqb risk "medium"
                           then "human_review" else "no_action"
                  end)).
Proof.
  intros Hs Hj Hout Hlow Hv Hr. unfold safe_parse_model_output in Hout.
  rewrite Hs, Hj in Hout. simpl in Hout.
  destruct (normalizable d) eqn:Hn.
  - destruct (normalize_fields_explicit d Hn)
      as (out' & E & Hm' & _ & _ & Hr' & Ha & _).
    rewrite E in Hout. injection Hout as <-.
    rewrite Hm' in Hv. injection Hv as <-.
    rewrite Hr' in Hr. injection Hr as <-. rewrite Ha.
    unfold expected_action, derived_action. rewrite Hlow.
    by destruct (valid_str _ _).
  - destruct (normalize_fields_raises d Hn) as (e & E & _). congruence.
Qed.

End NormalizerProperties.

(** ** Bounds through the clamp *)

Lemma clamp_bounds (x : Q) :
  (0 <= py_max 0.0 (py_min 0.95 x) <= 0.95)%Q.
Proof.
  unfold py_max, py_min.
  destruct (Qltb x 0.95) eqn:E1.
  - apply Qltb_lt in E1. destruct (Qltb 0.0 x) eqn:E2.
    + apply Qltb_lt in E2. lra.
    + lra.
  - destruct (Qltb 0.0 0.95); lra.
Qed.

Lemma clamp_lower (lo x : Q) :
  (lo <= 0.95)%Q -> (lo <= x)%Q -> (lo <= py_max 0.0 (py_min 0.95 x))%Q.
Proof.
  intros Hlo Hx. unfold py_max, py_min.
  destruct (Qltb x 0.95) eqn:E1.
  - destruct (Qltb 0.0 x) eqn:E2; [done|]. apply Qltb_ge in E2. lra.
  - destruct (Qltb 0.0 0.95) eqn:E2; [done|]. apply Qltb_ge in E2. lra.
Qed.

Lemma round2_between (lo hi : Z) (q : Q) :
  (lo # 100 <= q)%Q -> (q <= hi # 100)%Q ->
  (lo # 100 <= round2 q)%Q /\ (round2 q <= hi # 100)%Q.
Proof.
  intros Hlo Hhi. unfold round2.
  destruct (round_half_even_bounds lo hi (q * 100)) as [H1 H2].
  - unfold Qle in *. simpl in *. lia.
  - unfold Qle in *. simpl in *. lia.
  - unfold Qle. simpl. lia.
Qed.

Lemma clamp_round_lower (k : Z) (x : Q) :
  (k <= 95)%Z -> (k # 100 <= x)%Q -> (k # 100 <= clamp_round x)%Q.
Proof.
  intros Hk Hx. unfold clamp_round.
  apply (round2_between k 95).
  - apply clamp_lower; [|done]. unfold Qle. simpl. lia.
  - apply clamp_bounds.
Qed.

Lemma clamped_range (x : pyfloat) :
  exists k : Z, clamped x = k # 100 /\ (0 <= k <= 95)%Z.
Proof.
  destruct x as [q|[]]; simpl.
  - apply clamp_round_range.
  - exists 95%Z. split; [reflexivity | lia].
  - exists 95%Z. split; [reflexivity | lia].
  - exists 0%Z. split; [reflexivity | lia].
Qed.

Lemma clamped_lower (x : pyfloat) :
  fl_leb (Fin 0.75) x = true -> (0.75 <= clamped x)%Q.
Proof.
  destruct x as [q|[]]; simpl; try done.
  intros H. apply Qle_bool_iff in H.
  by apply (clamp_round_lower 75).
Qed.

Section NormalizerMore.
Context {lib : PyLib}.

(** X8. A decoded object that names neither risk_level nor
    recommended_action and whose raw confidence is at least 0.75 gets
    recommended_action escalate, whatever its verdict: also when mnpi is
    no. *)
Theorem confident_answer_without_action_escalates (text m : string)
    (d out : dict) :
  re_search_braces text = Some m ->
  json_loads m = Some (VDict d) ->
  safe_parse_model_output text = Ok out ->
  d !! "risk_level" = None ->
  d !! "recommended_action" = None ->
  fl_leb (Fin 0.75) (raw_confidence d) = true ->
  out !! "risk_level" = Some (VStr "high") /\
  out !! "recommended_action" = Some (VStr "escalate").
Proof.
  intros Hs Hj Hout Hr Ha Hc. unfold safe_parse_model_output in Hout.
  rewrite Hs, Hj in Hout. simpl in Hout.
  destruct (normalizable d) eqn:Hn.
  - destruct (normalize_fields_explicit d Hn)
      as (out' & E & _ & _ & _ & Hr' & Ha' & _).
    rewrite E in Hout. injection Hout as <-.
    assert (Hge : (0.75 <= expected_confidence d)%Q)
      by (by apply clamped_lower).
    assert (Hrisk : expected_risk d = "high").
    { unfold expected_risk, derived_risk. rewrite Hr. simpl.
      apply Qle_bool_iff in Hge. by rewrite Hge. }
    assert (Hlow : is_low_yes d = false).
    { unfold is_low_yes. apply andb_false_iff. right. apply Qltb_ge. lra. }
    rewrite Hr', Ha'. unfold expected_action. rewrite Hlow, Ha, Hrisk.
    split; reflexivity.
  - destruct (normalize_fields_raises d Hn) as (e & E & _). congruence.
Qed.

Lemma existsb_eqb_in (s : string) (dom : list string) :
  s ∈ dom -> existsb (String.eqb s) dom = true.
Proof. apply existsb_eqb_elem. Qed.

(** X9. Normalizing is idempotent: the fields of a record the normalizer
    returned normalize to that same record. *)
Theorem normalize_fields_idempotent (d out : dict) :
  normalize_fields d = Ok out -> normalize_fields out = Ok out.
Proof.
  intros H.
  destruct (normalizable d) eqn:Hn;
    [|destruct (normalize_fields_raises d Hn) as (e & E & _); congruence].
  destruct (normalize_fields_explicit d Hn)
    as (o & E & Hm & Hcat & Hc & Hr & Ha & _).
  rewrite E in H. injection H as ->.
  pose proof (normalize_fields_ok d out E) as [V _].
  destruct V as [(m & Hm' & Hmv) (l & Hl & Hlne & Hall) _
                 (r & Hr' & Hrv) (a & Ha' & Hav) Hlow].
  assert (Hn' : normalizable out = true).
  { unfold normalizable. rewrite Hl, Hc. rewrite andb_true_r.
    apply forallb_forall. intros c Hin. apply list_elem_of_In in Hin.
    rewrite Forall_forall in Hall. by destruct (Hall c Hin) as (s & -> & _). }
  destruct (normalize_fields_explicit out Hn')
    as (o' & E' & Hm2 & Hcat2 & Hc2 & Hr2 & Ha2 & F).
  rewrite E'. f_equal.
  assert (Hconf : expected_confidence out = expected_confidence d).
  { unfold expected_confidence at 1. unfold raw_confidence. rewrite Hc.
    unfold expected_confidence. cbn [clamped].
    destruct (clamped_range (raw_confidence d)) as (k & -> & Hk).
    by apply clamp_round_hundredth. }
  assert (Hcv : coerced_verdict out = m).
  { unfold coerced_verdict, valid_str. rewrite Hm'.
    by rewrite (existsb_eqb_in m verdicts Hmv). }
  assert (Hly : is_low_yes out = false).
  { unfold is_low_yes. rewrite Hcv, Hconf.
    destruct (String.eqb_spec m "yes") as [->|Hne]; [|done]. simpl.
    apply Qltb_ge. by apply Hlow. }
  assert (Hv : expected_verdict out = m).
  { unfold expected_verdict. by rewrite Hly. }
  assert (Hrk : expected_risk out = r).
  { unfold expected_risk, valid_str. rewrite Hr'.
    by rewrite (existsb_eqb_in r risk_levels Hrv). }
  assert (Hac : expected_action out = a).
  { unfold expected_action, valid_str. rewrite Hly, Ha'.
    by rewrite (existsb_eqb_in a actions Hav). }
  assert (Hcs : expected_categories out = l).
  { unfold expected_categories, raw_categories. rewrite Hl.
    assert (Hf : List.filter in_vocabulary l = l).
    { clear - Hall. induction Hall as [|c l (s & -> & Hs) _ IH]; [done|].
      cbn [List.filter]. unfold in_vocabulary at 1.
      rewrite (existsb_eqb_in s allowed Hs). by rewrite IH. }
    rewrite Hf. by destruct l. }
  apply map_eq. intros key.
  destruct (decide (key ∈ validated_keys)) as [Hin|Hnin]; [|by apply F].
  unfold validated_keys in Hin.
  repeat (apply elem_of_cons in Hin as [->|Hin]);
    [ by rewrite Hm2, Hv, Hm'
    | by rewrite Hcat2, Hcs, Hl
    | by rewrite Hc2, Hconf, Hc
    | by rewrite Ha2, Hac, Ha'
    | by rewrite Hr2, Hrk, Hr'
    | by apply elem_of_nil in Hin ].
Qed.

End NormalizerMore.

(** ** The properties of the normalizer at concrete inputs *)

Lemma normalizer_output_in_domain_witness :
  @safe_parse_model_output ref_lib low_yes_text = Ok low_yes_record /\
  conf_field low_yes_record.
Proof.
  assert (H : @safe_parse_model_output ref_lib low_yes_text = Ok low_yes_record)
    by reflexivity.
  split; [exact H|].
  exact (proj1 (proj2 (proj2 (@normalizer_output_in_domain ref_lib _ _ H)))).
Defined.

Lemma normalizer_passes_other_keys_through_witness :
  first_pass_record !! "notes" = first_pass_decoded !! "notes".
Proof.
  assert (H1 : re_search_braces first_pass_text = Some first_pass_text)
    by (vm_compute; reflexivity).
  assert (H2 : @json_loads ref_lib first_pass_text
               = Some (VDict first_pass_decoded)) by (vm_compute; reflexivity).
  assert (H3 : @safe_parse_model_output ref_lib first_pass_text
               = Ok first_pass_record) by reflexivity.
  assert (H4 : "notes" ∉ validated_keys) by not_in_keys.
  exact (@normalizer_passes_other_keys_through ref_lib _ _ _ _ _ H1 H2 H3 H4).
Defined.

Lemma normalizer_raises_exactly_witness :
  (exists out, @safe_parse_model_output ref_lib first_pass_text = Ok out) /\
  (exists e, @safe_parse_model_output ref_lib nested_categories_text = Raise e /\
             (exn_kind_of e = TypeError \/ exn_kind_of e = OverflowError)).
Proof.
  assert (H1 : re_search_braces first_pass_text = Some first_pass_text)
    by (vm_compute; reflexivity).
  assert (H2 : @json_loads ref_lib first_pass_text
               = Some (VDict first_pass_decoded)) by (vm_compute; reflexivity).
  assert (H3 : normalizable first_pass_decoded = true)
    by (vm_compute; reflexivity).
  assert (G1 : re_search_braces nested_categories_text
               = Some nested_categories_text) by (vm_compute; reflexivity).
  assert (G2 : @json_loads ref_lib nested_categories_text
               = Some (VDict nested_categories_decoded))
    by (vm_compute; reflexivity).
  assert (G3 : normalizable nested_categories_decoded = false)
    by (vm_compute; reflexivity).
  split.
  - exact (proj1 (@normalizer_raises_exactly ref_lib _ _ _ H1 H2) H3).
  - exact (proj2 (@normalizer_raises_exactly ref_lib _ _ _ G1 G2) G3).
Defined.

Lemma normalizer_filters_categories_witness :
  mixed_tags_record !! "categories" = Some (VList [VStr "M&A/Transactions"]).
Proof.
  assert (H1 : re_search_braces mixed_tags_text = Some mixed_tags_text)
    by (vm_compute; reflexivity).
  assert (H2 : @json_loads ref_lib mixed_tags_text
               = Some (VDict mixed_tags_decoded)) by (vm_compute; reflexivity).
  assert (H3 : @safe_parse_model_output ref_lib mixed_tags_text
               = Ok mixed_tags_record) by reflexivity.
  exact (@normalizer_filters_categories ref_lib _ _ _ _ H1 H2 H3).
Defined.

Lemma normalizer_confidence_witness :
  mixed_tags_record !! "confidence" = Some (VFloat (95 # 100)).
Proof.
  assert (H1 : re_search_braces mixed_tags_text = Some mixed_tags_text)
    by (vm_compute; reflexivity).
  assert (H2 : @json_loads ref_lib mixed_tags_text
               = Some (VDict mixed_tags_decoded)) by (vm_compute; reflexivity).
  assert (H3 : @safe_parse_model_output ref_lib mixed_tags_text
               = Ok mixed_tags_record) by reflexivity.
  rewrite (proj1 (@normalizer_confidence ref_lib _ _ _ _ H1 H2 H3)).
  vm_compute. reflexivity.
Defined.

Lemma normalizer_risk_level_witness :
  mixed_tags_record !! "risk_level" = Some (VStr "high").
Proof.
  assert (H1 : re_search_braces mixed_tags_text = Some mixed_tags_text)
    by (vm_compute; reflexivity).
  assert (H2 : @json_loads ref_lib mixed_tags_text
               = Some (VDict mixed_tags_decoded)) by (vm_compute; reflexivity).
  assert (H3 : @safe_parse_model_output ref_lib mixed_tags_text
               = Ok mixed_tags_record) by reflexivity.
  assert (H4 : mixed_tags_record !! "confidence" = Some (VFloat (95 # 100)))
    by (vm_compute; reflexivity).
  exact (@normalizer_risk_level ref_lib _ _ _ _ _ H1 H2 H3 H4).
Defined.

Lemma normalizer_recommended_action_witness :
  mixed_tags_record !! "recommended_action" = Some (VStr "escalate").
Proof.
  assert (H1 : re_search_braces mixed_tags_text = Some mixed_tags_text)
    by (vm_compute; reflexivity).
  assert (H2 : @json_loads ref_lib mixed_tags_text
               = Some (VDict mixed_tags_decoded)) by (vm_compute; reflexivity).
  assert (H3 : @safe_parse_model_output ref_lib mixed_tags_text
               = Ok mixed_tags_record) by reflexivity.
  assert (H4 : @is_low_yes ref_lib mixed_tags_decoded = false)
    by (vm_compute; reflexivity).
  assert (H5 : mixed_tags_record !! "mnpi" = Some (VStr "no"))
    by (vm_compute; reflexivity).
  assert (H6 : mixed_tags_record !! "risk_level" = Some (VStr "high"))
    by (vm_compute; reflexivity).
  exact (@normalizer_recommended_action ref_lib _ _ _ _ _ _ H1 H2 H3 H4 H5 H6).
Defined.

Lemma confident_answer_without_action_escalates_witness :
  terse_no_record !! "mnpi" = Some (VStr "no") /\
  terse_no_record !! "risk_level" = Some (VStr "high") /\
  terse_no_record !! "recommended_action" = Some (VStr "escalate").
Proof.
  assert (H1 : re_search_braces terse_no_text = Some terse_no_text)
    by (vm_compute; reflexivity).
  assert (H2 : @json_loads ref_lib terse_no_text = Some (VDict terse_no_decoded))
    by (vm_compute; reflexivity).
  assert (H3 : @safe_parse_model_output ref_lib terse_no_text
               = Ok terse_no_record) by reflexivity.
  assert (H4 : terse_no_decoded !! "risk_level" = None)
    by (vm_compute; reflexivity).
  assert (H5 : terse_no_decoded !! "recommended_action" = None)
    by (vm_compute; reflexivity).
  assert (H6 : fl_leb (Fin 0.75) (@raw_confidence ref_lib terse_no_decoded)
               = true) by (vm_compute; reflexivity).
  split; [vm_compute; reflexivity|].
  exact (@confident_answer_without_action_escalates ref_lib _ _ _ _
           H1 H2 H3 H4 H5 H6).
Defined.

Lemma normalize_fields_idempotent_witness :
  @normalize_fields ref_lib terse_no_record = Ok terse_no_record.
Proof.
  assert (H : @normalize_fields ref_lib terse_no_decoded = Ok terse_no_record)
    by reflexivity.
  exact (@normalize_fields_idempotent ref_lib _ _ H).
Defined.

(** ** Properties of the controller *)

Lemma invocations_pbind {St A B} (model : St -> string -> response * St)
    (m : prog A) (f : A -> prog B) (st : St) :
  invocations model (pbind m f) st =
  (invocations model m st
   + invocations model (f (fst (run model m st))) (snd (run model m st)))%nat.
Proof.
  revert st. induction m as [a | p k IH | d k IH]; intros st; simpl.
  - reflexivity.
  - destruct (model st p) as [r st']. by rewrite IH.
  - apply IH.
Qed.

Section ControllerProperties.
Context {lib : PyLib} {St : Type} (model : St -> string -> response * St).

Lemma accept_now_true (p : dict) (c : Q) (m : string) :
  p !! "confidence" = Some (VFloat c) -> p !! "mnpi" = Some (VStr m) ->
  (0.75 <= c)%Q \/ m = "no" ->
  accept_now p = Ok true.
Proof.
  intros Hc Hm H. unfold accept_now, py_getitem. rewrite Hc. simpl.
  destruct (Qle_bool 0.75 c) eqn:E; simpl; [done|].
  rewrite Hm. simpl. destruct H as [H| ->]; [|done].
  apply Qle_bool_iff in H. congruence.
Qed.

(** X10. Early accept: with a budget of at least one attempt, when the
    first answer normalizes to a record whose confidence is at least 0.75
    or whose verdict is no, that record is returned at once, after exactly
    one invocation of the model: no retry, no verifier pass. *)
Theorem classify_chunk_early_accept (chunk : string) (max_retries : Z)
    (retry_delay : pyfloat) (st st1 : St) (text : string) (p : dict) (c : Q)
    (m : string) :
  (1 <= max_retries)%Z ->
  model st (str_replace PROMPT_TEMPLATE "{CHUNK}" chunk) = (Returned text, st1) ->
  safe_parse_model_output text = Ok p ->
  p !! "confidence" = Some (VFloat c) -> p !! "mnpi" = Some (VStr m) ->
  (0.75 <= c)%Q \/ m = "no" ->
  run model (classify_chunk chunk max_retries retry_delay) st = (Ok p, st1) /\
  invocations model (classify_chunk chunk max_retries retry_delay) st = 1%nat.
Proof.
  intros Hmr Hmodel Hp Hc Hm Hacc.
  pose proof (accept_now_true p c m Hc Hm Hacc) as Ha.
  unfold classify_chunk, py_range.
  rewrite seqZ_cons by lia. cbn [attempt_loop].
  unfold mbind, prog_bind, attempt_try, llm_invoke. simpl.
  rewrite Hmodel. simpl. rewrite Hp. simpl. rewrite Ha. simpl. done.
Qed.

(** The attempt loop invokes the model at most once per attempt. *)
Lemma attempt_loop_invocations (prompt : string) (max_retries : Z)
    (retry_delay : pyfloat) (attempts : list Z) :
  forall (last0 : string) (st : St),
    (invocations model
       (attempt_loop prompt max_retries retry_delay attempts last0) st
     <= length attempts)%nat.
Proof.
  induction attempts as [|a rest IH]; intros last0 st; [simpl; lia|].
  cbn [attempt_loop]. unfold mbind, prog_bind, attempt_try, llm_invoke.
  simpl. unfold time_sleep.
  destruct (model st prompt) as [r st1].
  destruct (a <? max_retries)%Z; destruct (sleep_refusal retry_delay) as [se|];
    destruct r as [text|e]; simpl;
    try (destruct (safe_parse_model_output text) as [parsed|e]; simpl;
         [destruct (accept_now parsed) as [[]|e]; simpl|]);
    try lia;
    match goal with
    | |- (S (invocations _ (attempt_loop _ _ _ _ ?l) ?s) <= _)%nat =>
        specialize (IH l s); lia
    end.
Qed.

Lemma verifier_stage_invocations (chunk last : string) (st : St) :
  (invocations model (verifier_stage chunk last) st <= 1)%nat.
Proof.
  unfold verifier_stage.
  destruct (safe_parse_model_output last) as [parsed|]; simpl; [|lia].
  destruct (borderline parsed) as [[]|]; simpl; try lia.
  destruct (model st (verifier_prompt chunk)) as [r st1].
  destruct r as [vt|e]; simpl.
  - destruct (safe_parse_model_output vt) as [vp|]; simpl; [|lia].
    destruct (merge_passes parsed vp); simpl; lia.
  - lia.
Qed.

Lemma py_range_length (n : Z) : length (py_range 1 (n + 1)) = Z.to_nat n.
Proof. unfold py_range. rewrite length_seqZ. lia. Qed.

(** The invocations of classify_chunk are those of the loop and, when the
    loop hands a text on, those of the code after it. *)
Lemma classify_chunk_invocations_split (chunk : string) (max_retries : Z)
    (retry_delay : pyfloat) (st : St) :
  invocations model (classify_chunk chunk max_retries retry_delay) st
  = (invocations model
       (attempt_loop (str_replace PROMPT_TEMPLATE "{CHUNK}" chunk) max_retries
          retry_delay (py_range 1 (max_retries + 1)) EmptyString) st
     + match run model
               (attempt_loop (str_replace PROMPT_TEMPLATE "{CHUNK}" chunk)
                  max_retries retry_delay (py_range 1 (max_retries + 1))
                  EmptyString) st with
       | (Ok (inr last), st1) =>
           invocations model (verifier_stage chunk last) st1
       | _ => 0
       end)%nat.
Proof.
  unfold classify_chunk. unfold mbind, prog_bind.
  rewrite invocations_pbind.
  by destruct (run model (attempt_loop _ _ _ _ _) st)
    as [[[record|last]|e] st1].
Qed.

(** X11. Whatever the model does, classify_chunk invokes it at most
    max_retries + 1 times (one per attempt and one for the verifier pass),
    and at most once when max_retries is not positive. *)
Theorem classify_chunk_invocation_bound (chunk : string) (max_retries : Z)
    (retry_delay : pyfloat) (st : St) :
  (invocations model (classify_chunk chunk max_retries retry_delay) st
   <= Z.to_nat max_retries + 1)%nat.
Proof.
  rewrite classify_chunk_invocations_split.
  pose proof (attempt_loop_invocations
                (str_replace PROMPT_TEMPLATE "{CHUNK}" chunk) max_retries
                retry_delay (py_range 1 (max_retries + 1)) EmptyString st)
    as Hloop.
  rewrite py_range_length in Hloop.
  destruct (run model (attempt_loop _ _ _ _ _) st)
    as [[[record|last]|e] st1].
  - lia.
  - pose proof (verifier_stage_invocations chunk last st1). lia.
  - lia.
Qed.

End ControllerProperties.

Section ControllerOutcomes.
Context {lib : PyLib} {St : Type} (model : St -> string -> response * St).

(** What the loop of classify_chunk hands to the code after it. *)
Lemma classify_loop_last (prompt : string) (max_retries : Z) (retry_delay : pyfloat)
    (st st1 : St) (last : string) :
  run model (attempt_loop prompt max_retries retry_delay
               (py_range 1 (max_retries + 1)) EmptyString) st
    = (Ok (inr last), st1) ->
  ((max_retries <= 0)%Z /\ last = EmptyString /\ st1 = st) \/
  ((1 <= max_retries)%Z /\
   exists p, safe_parse_model_output last = Ok p /\ accept_now p = Ok false).
Proof.
  intros Hloop. unfold py_range in Hloop.
  destruct (Z.le_gt_cases max_retries 0) as [Hle|Hgt].
  - left. rewrite seqZ_nil in Hloop by lia. simpl in Hloop.
    injection Hloop as <- <-. done.
  - right. split; [lia|].
    replace (max_retries + 1 - 1)%Z with (Z.of_nat (Z.to_nat max_retries))
      in Hloop by lia.
    apply attempt_loop_falls_through in Hloop as [[Hz _] | H]; [lia | done | lia].
Qed.

(** A record the loop returns is a normalized one or the terminal one. *)
Lemma attempt_loop_returns_validated (prompt : string) (max_retries : Z)
    (retry_delay : pyfloat) (attempts : list Z) :
  forall (last0 : string) (st st' : St) (record : dict),
    run model (attempt_loop prompt max_retries retry_delay attempts last0) st
      = (Ok (inl record), st') ->
    validated record.
Proof.
  induction attempts as [|a rest IH]; intros last0 st st' record Hrun.
  - simpl in Hrun. discriminate.
  - cbn [attempt_loop] in Hrun.
    unfold mbind, prog_bind in Hrun. rewrite run_pbind in Hrun.
    unfold attempt_try in Hrun.
    unfold mbind at 1, prog_bind in Hrun. rewrite run_pbind in Hrun.
    simpl in Hrun. unfold time_sleep in Hrun.
    destruct (model st prompt) as [r st1].
    destruct (a <? max_retries)%Z;
      destruct (sleep_refusal retry_delay) as [se|];
      destruct r as [text|e]; simpl in Hrun;
      try (destruct (safe_parse_model_output text) as [parsed|e] eqn:Esp;
           simpl in Hrun;
           [destruct (accept_now parsed) as [[]|e] eqn:Eacc; simpl in Hrun|]);
      try discriminate; eauto.
    all: injection Hrun as <- <-;
      eauto using safe_parse_validated, unclear_record_validated.
Qed.

Lemma borderline_validated (p : dict) :
  validated p ->
  exists c, p !! "confidence" = Some (VFloat c) /\
            borderline p = Ok (Qle_bool 0.4 c && Qltb c 0.75).
Proof.
  intros [_ _ (c & Hc & _) _ _ _]. exists c. split; [done|].
  unfold borderline, py_getitem. rewrite Hc. simpl.
  by destruct (Qle_bool 0.4 c).
Qed.

Lemma verifier_failed_ok (p : dict) :
  notes_appendable p = true ->
  verifier_failed p =
    Ok (<["notes" := VStr (notes_text p ++ " | verifier failed")]>
          (<["recommended_action" := VStr "human_review"]> p)).
Proof.
  unfold notes_appendable, notes_text, verifier_failed, py_get, py_or.
  rewrite lookup_insert_ne by done.
  destruct (p !! "notes") as [v|]; [|done].
  destruct v as [|b|n|q|x|s|l|d]; simpl; intros H;
    try (apply negb_true_iff in H; simpl in H; rewrite H);
    try done.
  by destruct s.
Qed.

Lemma verifier_failed_raises (p : dict) (e : exn) :
  verifier_failed p = Raise e ->
  exn_kind_of e = TypeError /\
  exists v, p !! "notes" = Some v /\ truthy v = true /\ is_str v = false.
Proof.
  unfold verifier_failed, py_get, py_or.
  rewrite lookup_insert_ne by done.
  destruct (p !! "notes") as [v|]; [|done].
  simpl. destruct (truthy v) eqn:Ht; [|done].
  destruct v; simpl; intros H; try discriminate;
    injection H as <-; split; try reflexivity; eauto.
Qed.

Lemma verifier_failed_validated (p out : dict) :
  validated p -> verifier_failed p = Ok out -> validated out.
Proof.
  intros [Hm Hc Hq Hr Ha Hlow] H. unfold verifier_failed in H.
  destruct (py_add_str _ _) as [notes|]; [|discriminate].
  simpl in H. injection H as <-.
  constructor.
  - destruct Hm as (s & H1 & H2). exists s.
    by rewrite !lookup_insert_ne by done.
  - destruct Hc as (l & H1 & H2). exists l.
    by rewrite !lookup_insert_ne by done.
  - destruct Hq as (q & H1 & H2). exists q.
    by rewrite !lookup_insert_ne by done.
  - destruct Hr as (s & H1 & H2). exists s.
    by rewrite !lookup_insert_ne by done.
  - exists "human_review". rewrite lookup_insert_ne by done.
    rewrite lookup_insert_eq. split; [done | by repeat constructor].
  - intros q. rewrite !lookup_insert_ne by done. apply Hlow.
Qed.

(** A run of classify_chunk is a run of the loop, followed by the code
    after it when the loop hands a text on. *)
Lemma classify_chunk_run_split (chunk : string) (max_retries : Z)
    (retry_delay : pyfloat) (st : St) :
  run model (classify_chunk chunk max_retries retry_delay) st
  = match run model
            (attempt_loop (str_replace PROMPT_TEMPLATE "{CHUNK}" chunk)
               max_retries retry_delay (py_range 1 (max_retries + 1))
               EmptyString) st with
    | (Ok (inl record), st1) => (Ok record, st1)
    | (Ok (inr last), st1) => run model (verifier_stage chunk last) st1
    | (Raise e, st1) => (Raise e, st1)
    end.
Proof.
  unfold classify_chunk. unfold mbind, prog_bind. rewrite run_pbind.
  by destruct (run model (attempt_loop _ _ _ _ _) st)
    as [[[record|last]|e] st1].
Qed.

End ControllerOutcomes.

Section ControllerVerdicts.
Context {lib : PyLib} {St : Type} (model : St -> string -> response * St).

Lemma validated_not_accepted (p : dict) :
  validated p -> accept_now p = Ok false ->
  exists pm pc, p !! "mnpi" = Some (VStr pm) /\ pm <> "no" /\
                p !! "confidence" = Some (VFloat pc) /\ (pc < 0.75)%Q /\
                (pm = "yes" -> (0.5 <= pc)%Q) /\
                (pm = "yes" \/ pm = "unclear").
Proof.
  intros Vp Hacc.
  destruct (accept_now_false p Vp Hacc) as (pm & pc & Hpm & Hpmv & Hpc & Hlt).
  exists pm, pc. split; [done|].
  assert (Hcases : pm = "yes" \/ pm = "unclear").
  { apply elem_of_cons in Hpmv as [?|Hpmv]; [by left|].
    apply elem_of_cons in Hpmv as [?|Hpmv]; [by right|].
    by apply elem_of_nil in Hpmv. }
  split; [by destruct Hcases as [-> | ->]|].
  split; [done|]. split; [done|]. split; [|done].
  intros ->. by apply (v_no_low_yes _ Vp).
Qed.

Lemma merge_passes_result_validated (p vp final : dict) :
  validated p -> validated vp -> accept_now p = Ok false ->
  merge_passes p vp = Ok final -> validated final.
Proof.
  intros Vp Vvp Hacc Hmerge.
  destruct (validated_not_accepted p Vp Hacc)
    as (pm & pc & Hpm & Hno & Hpc & _ & Hyes & Hcases).
  destruct (v_mnpi _ Vvp) as (vm & Hvm & Hvmv).
  destruct (v_confidence _ Vvp) as (vc & Hvc & Hvh).
  destruct (v_confidence _ Vp) as (pc' & Hpc' & Hph).
  rewrite Hpc in Hpc'. injection Hpc' as <-.
  rewrite (merge_passes_validated p vp pm vm pc vc Vp Vvp Hpm Hno Hvm Hpc Hvc)
    in Hmerge.
  injection Hmerge as <-.
  destruct (v_categories _ Vvp) as (vl & Hvl & Hvne & Hvall).
  destruct (v_risk_level _ Vvp) as (vr & Hvr & Hvrv).
  destruct (v_recommended_action _ Vvp) as (va & Hva & Hvav).
  constructor.
  - exists (spec_merged_verdict pm vm). split; [reflexivity|].
    unfold spec_merged_verdict.
    destruct (_ || _); [by repeat constructor|].
    destruct (negb _); [by repeat constructor|].
    destruct Hcases as [-> | ->]; by repeat constructor.
  - exists vl. split; [|done].
    change (Some (prefer_verifier vp p "categories") = Some (VList vl)).
    unfold prefer_verifier. rewrite Hvl. simpl. by destruct vl.
  - exists (clamp_round (py_min pc vc)). split; [reflexivity|].
    assert (Hmin : hundredths (py_min pc vc)) by by apply py_min_hundredths.
    destruct Hmin as (k & Hk & Hrange). exists k. split; [|done].
    rewrite <- Hk. apply clamp_round_fixed. by exists k.
  - exists vr. split; [|done].
    change (Some (prefer_verifier vp p "risk_level") = Some (VStr vr)).
    unfold prefer_verifier. rewrite Hvr. simpl.
    destruct (String.eqb_spec vr EmptyString) as [->|]; [|done].
    unfold risk_levels in Hvrv.
    repeat (apply elem_of_cons in Hvrv as [?|Hvrv]; [discriminate|]).
    by apply elem_of_nil in Hvrv.
  - exists va. split; [|done].
    change (Some (prefer_verifier vp p "recommended_action")
            = Some (VStr va)).
    unfold prefer_verifier. rewrite Hva. simpl.
    destruct (String.eqb_spec va EmptyString) as [->|]; [|done].
    unfold actions in Hvav.
    repeat (apply elem_of_cons in Hvav as [?|Hvav]; [discriminate|]).
    by apply elem_of_nil in Hvav.
  - intros q Hm Hq.
    change (Some (VStr (spec_merged_verdict pm vm)) = Some (VStr "yes")) in Hm.
    change (Some (VFloat (clamp_round (py_min pc vc))) = Some (VFloat q)) in Hq.
    injection Hm as Hm. injection Hq as <-.
    assert (pm = "yes" /\ vm = "yes") as [-> ->].
    { unfold spec_merged_verdict in Hm.
      destruct (String.eqb_spec pm "unclear"); [discriminate|].
      destruct (String.eqb_spec vm "unclear"); [discriminate|].
      simpl in Hm.
      destruct (String.eqb_spec pm vm); simpl in Hm; [|discriminate].
      by subst. }
    rewrite clamp_round_fixed by by apply py_min_hundredths.
    apply py_min_lower; [by apply Hyes | by apply (v_no_low_yes _ Vvp)].
Qed.

(** The records of the code after the loop keep the invariant. *)
Lemma verifier_stage_validated (chunk : string) (max_retries : Z)
    (retry_delay : pyfloat) (st st1 st' : St) (last : string) (record : dict) :
  run model
      (attempt_loop (str_replace PROMPT_TEMPLATE "{CHUNK}" chunk) max_retries
         retry_delay (py_range 1 (max_retries + 1)) EmptyString) st
    = (Ok (inr last), st1) ->
  run model (verifier_stage chunk last) st1 = (Ok record, st') ->
  validated record.
Proof.
  intros Hloop Hrun.
  assert (Hp : exists p, safe_parse_model_output last = Ok p /\
                 (borderline p = Ok true -> accept_now p = Ok false)).
  { apply classify_loop_last in Hloop as [(_ & -> & _) | (_ & p & Hp & Ha)].
    - exists no_json_record. split; [reflexivity|].
      intros Hb.
      assert (Hb' : borderline no_json_record = Ok false)
        by (vm_compute; reflexivity).
      congruence.
    - exists p. done. }
  destruct Hp as (p & Hp & Hacc).
  pose proof (safe_parse_validated _ _ Hp) as Vp.
  unfold verifier_stage in Hrun. rewrite Hp in Hrun. simpl in Hrun.
  destruct (borderline p) as [[]|] eqn:Hb; simpl in Hrun.
  - specialize (Hacc eq_refl).
    destruct (model st1 (verifier_prompt chunk)) as [[vt|e] st2];
      simpl in Hrun.
    + destruct (safe_parse_model_output vt) as [vp|] eqn:Hvp;
        simpl in Hrun.
      * pose proof (safe_parse_validated _ _ Hvp) as Vvp.
        destruct (merge_passes p vp) as [final|] eqn:Hmerge;
          simpl in Hrun; injection Hrun as Hrun _.
        -- subst. by apply (merge_passes_result_validated p vp).
        -- by apply (verifier_failed_validated p).
      * injection Hrun as Hrun _. by apply (verifier_failed_validated p).
    + injection Hrun as Hrun _. by apply (verifier_failed_validated p).
  - injection Hrun as <- _. done.
  - discriminate.
Qed.

(** X12. Every record classify_chunk returns, on any path (early accept,
    terminal record, first pass outside the band, merge with the verifier,
    failed verifier), has its verdict, risk level and action in their
    domains, a non-empty list of known tags, a confidence that is a
    hundredth within 0 and 0.95, and is never a yes below 0.5. *)
Theorem classify_chunk_returns_validated (chunk : string) (max_retries : Z)
    (retry_delay : pyfloat) (st st' : St) (record : dict) :
  run model (classify_chunk chunk max_retries retry_delay) st
    = (Ok record, st') ->
  validated record.
Proof.
  intros Hrun. rewrite classify_chunk_run_split in Hrun.
  destruct (run model (attempt_loop _ _ _ _ _) st)
    as [[[r|last]|e] st1] eqn:Hloop.
  - injection Hrun as <- <-.
    by apply attempt_loop_returns_validated in Hloop.
  - by apply (verifier_stage_validated chunk max_retries retry_delay
                st st1 st' last).
  - discriminate.
Qed.

(** X13. When the verifier pass fails (the invocation raises, or the
    normalizer raises on its answer) and the notes of the first pass are a
    string or falsy, classify_chunk returns the first-pass record with
    recommended_action set to human_review and the marker appended to its
    notes; every other key, the verdict and the confidence included, is
    that of the first pass. *)
Theorem verifier_failure_marks_for_review (chunk : string) (max_retries : Z)
    (retry_delay : pyfloat) (st st1 st2 : St) (last : string) (p : dict) :
  run model
      (attempt_loop (str_replace PROMPT_TEMPLATE "{CHUNK}" chunk) max_retries
         retry_delay (py_range 1 (max_retries + 1)) EmptyString) st
    = (Ok (inr last), st1) ->
  safe_parse_model_output last = Ok p ->
  borderline p = Ok true ->
  verifier_fails model chunk st1 st2 ->
  notes_appendable p = true ->
  exists out,
    run model (classify_chunk chunk max_retries retry_delay) st
      = (Ok out, st2) /\
    out !! "recommended_action" = Some (VStr "human_review") /\
    out !! "notes" = Some (VStr (notes_text p ++ " | verifier failed")) /\
    changes_only ["recommended_action"; "notes"] p out.
Proof.
  intros Hloop Hp Hborder Hfail Hnotes.
  eexists. split.
  { unfold classify_chunk. unfold mbind, prog_bind. rewrite run_pbind.
    rewrite Hloop. unfold verifier_stage. rewrite Hp. simpl.
    rewrite Hborder. simpl.
    destruct Hfail as [(e & Hm) | (vt & e & Hm & Hvt)]; rewrite Hm; simpl.
    - rewrite (verifier_failed_ok p Hnotes). reflexivity.
    - rewrite Hvt. simpl. rewrite (verifier_failed_ok p Hnotes).
      reflexivity. }
  split; [by rewrite lookup_insert_ne, lookup_insert_eq|].
  split; [by rewrite lookup_insert_eq|].
  intros k Hk. rewrite !lookup_insert_ne; [done| |].
  - intros <-. apply Hk. by repeat constructor.
  - intros <-. apply Hk. by repeat constructor.
Qed.

(** An exception of the code after the loop is one of the handler of a
    failed verifier pass. *)
Lemma verifier_stage_raise (chunk : string) (max_retries : Z)
    (retry_delay : pyfloat) (st st1 st' : St) (last : string) (e : exn) :
  run model
      (attempt_loop (str_replace PROMPT_TEMPLATE "{CHUNK}" chunk) max_retries
         retry_delay (py_range 1 (max_retries + 1)) EmptyString) st
    = (Ok (inr last), st1) ->
  run model (verifier_stage chunk last) st1 = (Raise e, st') ->
  exists p, safe_parse_model_output last = Ok p /\
            validated p /\ borderline p = Ok true /\
            verifier_failed p = Raise e.
Proof.
  intros Hloop Hrun.
  assert (Hp : exists p, safe_parse_model_output last = Ok p).
  { apply classify_loop_last in Hloop as [(_ & -> & _) | (_ & p & Hp & _)].
    - by exists no_json_record.
    - by exists p. }
  destruct Hp as (p & Hp).
  pose proof (safe_parse_validated _ _ Hp) as Vp.
  destruct (borderline_validated p Vp) as (c & Hc & Hb).
  unfold verifier_stage in Hrun. rewrite Hp in Hrun. simpl in Hrun.
  rewrite Hb in Hrun. simpl in Hrun.
  destruct (Qle_bool 0.4 c && Qltb c 0.75) eqn:Hband; simpl in Hrun;
    [|discriminate].
  exists p. split; [done|]. split; [done|]. split; [done|].
  destruct (model st1 (verifier_prompt chunk)) as [[vt|e'] st2];
    simpl in Hrun.
  - destruct (safe_parse_model_output vt) as [vp|]; simpl in Hrun.
    + destruct (merge_passes p vp); simpl in Hrun; congruence.
    + congruence.
  - congruence.
Qed.

(** X14. With a delay that time.sleep accepts, the only exception that
    leaves classify_chunk is the TypeError of the handler of a failed
    verifier pass: the attempt loop of that run handed on a response whose
    normalized record, the first pass, was in the borderline band, the
    handler raised that exception on this record, and the notes of the
    record are truthy and not a string. *)
Theorem classify_chunk_raises_only_in_handler (chunk : string)
    (max_retries : Z) (retry_delay : pyfloat) (st st' : St) (e : exn) :
  sleep_refusal retry_delay = None ->
  run model (classify_chunk chunk max_retries retry_delay) st
    = (Raise e, st') ->
  exn_kind_of e = TypeError /\
  exists (last : string) (st1 : St) (p : dict) (v : value),
    run model
        (attempt_loop (str_replace PROMPT_TEMPLATE "{CHUNK}" chunk)
           max_retries retry_delay (py_range 1 (max_retries + 1)) EmptyString)
        st
      = (Ok (inr last), st1) /\
    run model (verifier_stage chunk last) st1 = (Raise e, st') /\
    safe_parse_model_output last = Ok p /\
    validated p /\ borderline p = Ok true /\
    verifier_failed p = Raise e /\
    p !! "notes" = Some v /\ truthy v = true /\ is_str v = false.
Proof.
  intros Hd Hrun. rewrite classify_chunk_run_split in Hrun.
  destruct (attempt_loop_catches model
              (str_replace PROMPT_TEMPLATE "{CHUNK}" chunk) max_retries
              retry_delay (py_range 1 (max_retries + 1)) Hd EmptyString st)
    as (r & st1 & Hloop).
  rewrite Hloop in Hrun. destruct r as [r|last]; [discriminate|].
  destruct (verifier_stage_raise chunk max_retries retry_delay st st1 st'
              last e Hloop Hrun) as (p & Hp & Vp & Hb & Hraise).
  destruct (verifier_failed_raises p e Hraise) as (Hk & v & Hv & Ht & Hs).
  split; [done|]. exists last, st1, p, v. done.
Qed.

(** X15. A first pass that was not accepted and lies outside the
    borderline band is returned as it is, without a verifier pass; such a
    record is always an unclear one with a confidence below 0.4. *)
Theorem unsure_answer_outside_band (chunk : string) (max_retries : Z)
    (retry_delay : pyfloat) (st st1 : St) (last : string) (p : dict) :
  (1 <= max_retries)%Z ->
  run model
      (attempt_loop (str_replace PROMPT_TEMPLATE "{CHUNK}" chunk) max_retries
         retry_delay (py_range 1 (max_retries + 1)) EmptyString) st
    = (Ok (inr last), st1) ->
  safe_parse_model_output last = Ok p ->
  borderline p = Ok false ->
  run model (classify_chunk chunk max_retries retry_delay) st = (Ok p, st1) /\
  p !! "mnpi" = Some (VStr "unclear") /\
  exists c, p !! "confidence" = Some (VFloat c) /\ (c < 0.4)%Q.
Proof.
  intros Hmr Hloop Hp Hborder.
  split.
  { unfold classify_chunk. unfold mbind, prog_bind. rewrite run_pbind.
    rewrite Hloop. unfold verifier_stage. rewrite Hp. simpl.
    rewrite Hborder. reflexivity. }
  pose proof (safe_parse_validated _ _ Hp) as Vp.
  apply classify_loop_last in Hloop as [(? & _) | (_ & p' & Hp' & Hacc)];
    [lia|].
  rewrite Hp in Hp'. injection Hp' as <-.
  destruct (validated_not_accepted p Vp Hacc)
    as (pm & pc & Hpm & _ & Hpc & Hlt & Hyes & Hcases).
  destruct (borderline_validated p Vp) as (c & Hc & Hb).
  rewrite Hpc in Hc. injection Hc as <-.
  rewrite Hborder in Hb. injection Hb as Hb. symmetry in Hb.
  apply andb_false_iff in Hb as [Hb|Hb].
  - assert (Hlow : (pc < 0.4)%Q).
    { apply Qnot_le_lt. intros H. apply Qle_bool_iff in H. congruence. }
    split; [|by exists pc].
    destruct Hcases as [-> | ->]; [|done].
    specialize (Hyes eq_refl). exfalso.
    apply (Qlt_irrefl 0.4). eapply Qle_lt_trans; [|exact Hlow].
    eapply Qle_trans; [|exact Hyes]. done.
  - exfalso. apply Qltb_lt in Hlt. congruence.
Qed.

End ControllerVerdicts.

Section ControllerRetries.
Context {lib : PyLib} {St : Type} (model : St -> string -> response * St).

Lemma attempt_loop_all_fail_invocations (prompt : string) (max_retries : Z)
    (retry_delay : pyfloat) (k : nat) :
  sleep_refusal retry_delay = None ->
  (forall st p, exists e st', model st p = (Failed e, st')) ->
  forall (a : Z) (last0 : string) (st : St),
    (a + Z.of_nat (S k) - 1)%Z = max_retries ->
    invocations model (attempt_loop prompt max_retries retry_delay
                         (seqZ a (Z.of_nat (S k))) last0) st = S k.
Proof.
  intros Hd Hfail.
  induction k as [|k IH]; intros a last0 st Hinv;
    rewrite seqZ_cons by lia;
    cbn [attempt_loop]; unfold mbind, prog_bind, attempt_try, llm_invoke;
    simpl; unfold time_sleep; rewrite Hd;
    destruct (Hfail st prompt) as (e & st1 & Hm); rewrite Hm; simpl.
  - destruct (Z.ltb_spec a max_retries); [lia|]. reflexivity.
  - destruct (Z.ltb_spec a max_retries); [|lia]. simpl.
    replace (Z.pred (Z.of_nat (S (S k)))) with (Z.of_nat (S k)) by lia.
    f_equal. apply IH. lia.
Qed.

(** X16. When every invocation of the model fails (budget of at least one
    attempt, a delay that time.sleep accepts), classify_chunk makes exactly
    max_retries
    invocations, none for the verifier, and returns the terminal record:
    unclear, confidence 0.0, human_review, with the message of the last
    failure in its notes. *)
Theorem retries_exhausted_terminal_record (chunk : string) (max_retries : Z)
    (retry_delay : pyfloat) (st : St) :
  (1 <= max_retries)%Z -> sleep_refusal retry_delay = None ->
  (forall st p, exists e st', model st p = (Failed e, st')) ->
  exists e st0 st' out,
    model st0 (str_replace PROMPT_TEMPLATE "{CHUNK}" chunk) = (Failed e, st') /\
    run model (classify_chunk chunk max_retries retry_delay) st
      = (Ok out, st') /\
    invocations model (classify_chunk chunk max_retries retry_delay) st
      = Z.to_nat max_retries /\
    out !! "mnpi" = Some (VStr "unclear") /\
    out !! "confidence" = Some (VFloat 0.0) /\
    out !! "recommended_action" = Some (VStr "human_review") /\
    out !! "notes" = Some (VStr ("LLM error after retries: " ++ exn_msg e)).
Proof.
  intros Hmr Hd Hfail.
  destruct (attempt_loop_all_fail model
              (str_replace PROMPT_TEMPLATE "{CHUNK}" chunk)
              max_retries retry_delay (Z.to_nat max_retries - 1) Hd Hfail
              1%Z EmptyString st ltac:(lia)) as (e & st0 & st' & Hm & Hrun).
  pose proof (attempt_loop_all_fail_invocations
                (str_replace PROMPT_TEMPLATE "{CHUNK}" chunk)
                max_retries retry_delay (Z.to_nat max_retries - 1) Hd Hfail
                1%Z EmptyString st ltac:(lia)) as Hinv.
  exists e, st0, st', (llm_error_record e).
  split; [exact Hm|].
  replace (Z.of_nat (S (Z.to_nat max_retries - 1)))
    with (max_retries + 1 - 1)%Z in Hrun, Hinv by lia.
  split; [|split; [|repeat split; reflexivity]].
  - unfold classify_chunk, py_range. unfold mbind, prog_bind.
    rewrite run_pbind. rewrite Hrun. reflexivity.
  - unfold classify_chunk, py_range. unfold mbind, prog_bind.
    rewrite invocations_pbind. rewrite Hinv, Hrun. simpl. lia.
Qed.

(** X17. A retry_delay that time.sleep refuses makes a retry impossible:
    with a budget of at least two attempts, when the first attempt settles
    nothing (the invocation or the normalizer raises, or the record is not
    accepted), the exception of time.sleep leaves classify_chunk after one
    invocation.  It is the ValueError for a negative sleep length when the
    delay is negative and above -9e9 seconds, a ValueError when the delay
    is nan, and an OverflowError when the delay is infinite or 1e10
    seconds or more in magnitude. *)
Theorem refused_delay_escapes (chunk : string) (max_retries : Z)
    (retry_delay : pyfloat) (st st1 : St) (r : response) (e : exn) :
  sleep_refusal retry_delay = Some e -> (2 <= max_retries)%Z ->
  model st (str_replace PROMPT_TEMPLATE "{CHUNK}" chunk) = (r, st1) ->
  unsettled r ->
  run model (classify_chunk chunk max_retries retry_delay) st
    = (Raise e, st1) /\
  invocations model (classify_chunk chunk max_retries retry_delay) st = 1%nat /\
  (forall q, retry_delay = Fin q -> (-9000000000 < q)%Q -> (q < 0)%Q ->
     e = Exn ValueError "sleep length must be non-negative") /\
  (retry_delay = NonFin NaN ->
     e = Exn ValueError "Invalid value NaN (not a number)") /\
  (retry_delay = NonFin PosInf \/ retry_delay = NonFin NegInf \/
   (exists q, retry_delay = Fin q /\ (10000000000 <= Qabs q)%Q) ->
     e = Exn OverflowError "timestamp too large to convert to C _PyTime_t").
Proof.
  intros Hd Hmr Hmodel Hr.
  split; [|split].
  - unfold classify_chunk, py_range.
    rewrite seqZ_cons by lia. cbn [attempt_loop].
    unfold mbind, prog_bind, attempt_try, llm_invoke. simpl.
    rewrite Hmodel. unfold time_sleep. rewrite Hd.
    destruct (Z.ltb_spec 1 max_retries) as [_|]; [|lia].
    destruct r as [text|e']; simpl in *; [|done].
    destruct (safe_parse_model_output text) as [parsed|e']; simpl; [|done].
    destruct (accept_now parsed) as [[]|e']; simpl; done.
  - unfold classify_chunk, py_range.
    rewrite seqZ_cons by lia. cbn [attempt_loop].
    unfold mbind, prog_bind, attempt_try, llm_invoke. simpl.
    rewrite Hmodel. unfold time_sleep. rewrite Hd.
    destruct (Z.ltb_spec 1 max_retries) as [_|]; [|lia].
    destruct r as [text|e']; simpl in *; [|done].
    destruct (safe_parse_model_output text) as [parsed|e']; simpl; [|done].
    destruct (accept_now parsed) as [[]|e']; simpl; done.
  - split; [|split].
    + intros q -> Hlo Hhi. unfold sleep_refusal in Hd.
      assert (E1 : Qle_bool 10000000000 (Qabs q) = false).
      { destruct (Qle_bool 10000000000 (Qabs q)) eqn:E; [|reflexivity].
        apply Qle_bool_iff in E. rewrite Qabs_neg in E by lra. lra. }
      rewrite E1 in Hd. apply Qltb_lt in Hlo, Hhi. rewrite Hhi, Hlo in Hd.
      congruence.
    + intros ->. simpl in Hd. congruence.
    + unfold sleep_refusal, sleep_overflow in Hd.
      intros [-> | [-> | (q & -> & Hq)]]; try congruence.
      apply Qle_bool_iff in Hq. rewrite Hq in Hd. congruence.
Qed.

(** X18. A retry recovers from an attempt that settles nothing: with a
    budget of at least two attempts and a delay that time.sleep accepts,
    when the first attempt fails or is not accepted and the second answer
    normalizes to a record with confidence at least 0.75 or verdict no,
    that record is returned after exactly two invocations. *)
Theorem classify_chunk_retry_accept (chunk : string) (max_retries : Z)
    (retry_delay : pyfloat) (st st1 st2 : St) (r : response) (text : string)
    (p : dict) (c : Q) (m : string) :
  sleep_refusal retry_delay = None -> (2 <= max_retries)%Z ->
  model st (str_replace PROMPT_TEMPLATE "{CHUNK}" chunk) = (r, st1) ->
  unsettled r ->
  model st1 (str_replace PROMPT_TEMPLATE "{CHUNK}" chunk)
    = (Returned text, st2) ->
  safe_parse_model_output text = Ok p ->
  p !! "confidence" = Some (VFloat c) -> p !! "mnpi" = Some (VStr m) ->
  (0.75 <= c)%Q \/ m = "no" ->
  run model (classify_chunk chunk max_retries retry_delay) st = (Ok p, st2) /\
  invocations model (classify_chunk chunk max_retries retry_delay) st = 2%nat.
Proof.
  intros Hd Hmr Hmodel Hr Hmodel2 Hp Hc Hm Hacc.
  pose proof (accept_now_true p c m Hc Hm Hacc) as Ha.
  unfold classify_chunk, py_range.
  rewrite seqZ_cons by lia. rewrite seqZ_cons by lia. cbn [attempt_loop].
  unfold mbind, prog_bind, attempt_try, llm_invoke. simpl.
  rewrite Hmodel. unfold time_sleep. rewrite Hd.
  destruct (Z.ltb_spec 1 max_retries) as [_|]; [|lia].
  destruct r as [text1|e]; simpl in *.
  - destruct (safe_parse_model_output text1) as [parsed|e]; simpl.
    + destruct (accept_now parsed) as [[]|e]; simpl; [done| |];
        rewrite Hmodel2; simpl; rewrite Hp; simpl; rewrite Ha; simpl; done.
    + rewrite Hmodel2. simpl. rewrite Hp. simpl. rewrite Ha. simpl. done.
  - rewrite Hmodel2. simpl. rewrite Hp. simpl. rewrite Ha. simpl. done.
Qed.

End ControllerRetries.

Lemma classify_chunk_early_accept_witness :
  run scripted (@classify_chunk ref_lib "chunk" 2 0.6) [Returned terse_no_text]
    = (Ok terse_no_record, []) /\
  invocations scripted (@classify_chunk ref_lib "chunk" 2 0.6)
    [Returned terse_no_text] = 1%nat.
Proof.
  assert (H0 : (1 <= 2)%Z) by lia.
  assert (H1 : scripted [Returned terse_no_text]
                 (str_replace (@PROMPT_TEMPLATE ref_lib) "{CHUNK}" "chunk")
               = (Returned terse_no_text, [])) by reflexivity.
  assert (H2 : @safe_parse_model_output ref_lib terse_no_text
               = Ok terse_no_record) by reflexivity.
  assert (H3 : terse_no_record !! "confidence" = Some (VFloat (90 # 100)))
    by (vm_compute; reflexivity).
  assert (H4 : terse_no_record !! "mnpi" = Some (VStr "no"))
    by (vm_compute; reflexivity).
  assert (H5 : (0.75 <= 90 # 100)%Q \/ "no" = "no") by (by right).
  exact (@classify_chunk_early_accept ref_lib _ scripted "chunk" 2 0.6
           _ _ _ _ _ _ H0 H1 H2 H3 H4 H5).
Defined.

Lemma classify_chunk_returns_validated_witness : validated merged_example.
Proof.
  assert (H : run scripted (@classify_chunk ref_lib "chunk" 1 0.6)
                [Returned first_pass_text; Returned verifier_pass_text]
              = (Ok merged_example, [])) by reflexivity.
  exact (@classify_chunk_returns_validated ref_lib _ scripted "chunk" 1 0.6
           _ _ _ H).
Defined.

Lemma verifier_failure_marks_for_review_witness :
  exists out,
    run scripted (@classify_chunk ref_lib "chunk" 1 0.6)
        [Returned first_pass_text; Failed connection_error]
      = (Ok out, []) /\
    out !! "recommended_action" = Some (VStr "human_review") /\
    out !! "notes"
      = Some (VStr (notes_text first_pass_record ++ " | verifier failed")) /\
    changes_only ["recommended_action"; "notes"] first_pass_record out.
Proof.
  assert (H1 : run scripted
                 (@attempt_loop ref_lib
                    (str_replace (@PROMPT_TEMPLATE ref_lib) "{CHUNK}" "chunk")
                    1 0.6 (py_range 1 (1 + 1)) EmptyString)
                 [Returned first_pass_text; Failed connection_error]
               = (Ok (inr first_pass_text), [Failed connection_error]))
    by (vm_compute; reflexivity).
  assert (H2 : @safe_parse_model_output ref_lib first_pass_text
               = Ok first_pass_record) by reflexivity.
  assert (H3 : borderline first_pass_record = Ok true)
    by (vm_compute; reflexivity).
  assert (H4 : @verifier_fails ref_lib _ scripted "chunk"
                 [Failed connection_error] []).
  { left. exists connection_error. reflexivity. }
  assert (H5 : notes_appendable first_pass_record = true)
    by (vm_compute; reflexivity).
  exact (@verifier_failure_marks_for_review ref_lib _ scripted "chunk" 1 0.6
           _ _ _ _ _ H1 H2 H3 H4 H5).
Defined.

Lemma classify_chunk_raises_only_in_handler_witness :
  exn_kind_of
    (Exn TypeError "unsupported operand type(s) for +: 'int' and 'str'")
    = TypeError /\
  exists last st1 p v,
    run scripted
        (@attempt_loop ref_lib
           (str_replace (@PROMPT_TEMPLATE ref_lib) "{CHUNK}" "chunk")
           1 0.6 (py_range 1 (1 + 1)) EmptyString)
        [Returned numeric_notes_text; Failed connection_error]
      = (Ok (inr last), st1) /\
    run scripted (@verifier_stage ref_lib "chunk" last) st1
      = (Raise (Exn TypeError
                  "unsupported operand type(s) for +: 'int' and 'str'"), []) /\
    @safe_parse_model_output ref_lib last = Ok p /\
    validated p /\ borderline p = Ok true /\
    verifier_failed p
      = Raise (Exn TypeError
                 "unsupported operand type(s) for +: 'int' and 'str'") /\
    p !! "notes" = Some v /\ truthy v = true /\ is_str v = false.
Proof.
  assert (H0 : @sleep_refusal ref_lib 0.6 = None) by reflexivity.
  assert (H1 : run scripted (@classify_chunk ref_lib "chunk" 1 0.6)
                 [Returned numeric_notes_text; Failed connection_error]
               = (Raise (Exn TypeError
                    "unsupported operand type(s) for +: 'int' and 'str'"), []))
    by (vm_compute; reflexivity).
  exact (@classify_chunk_raises_only_in_handler ref_lib _ scripted "chunk" 1
           0.6 _ _ _ H0 H1).
Defined.

Lemma unsure_answer_outside_band_witness :
  run scripted (@classify_chunk ref_lib "chunk" 1 0.6) [Returned low_yes_text]
    = (Ok low_yes_record, []) /\
  low_yes_record !! "mnpi" = Some (VStr "unclear") /\
  exists c, low_yes_record !! "confidence" = Some (VFloat c) /\ (c < 0.4)%Q.
Proof.
  assert (H0 : (1 <= 1)%Z) by lia.
  assert (H1 : run scripted
                 (@attempt_loop ref_lib
                    (str_replace (@PROMPT_TEMPLATE ref_lib) "{CHUNK}" "chunk")
                    1 0.6 (py_range 1 (1 + 1)) EmptyString)
                 [Returned low_yes_text]
               = (Ok (inr low_yes_text), []))
    by (vm_compute; reflexivity).
  assert (H2 : @safe_parse_model_output ref_lib low_yes_text
               = Ok low_yes_record) by reflexivity.
  assert (H3 : borderline low_yes_record = Ok false)
    by (vm_compute; reflexivity).
  exact (@unsure_answer_outside_band ref_lib _ scripted "chunk" 1 0.6
           _ _ _ _ H0 H1 H2 H3).
Defined.

Lemma retries_exhausted_terminal_record_witness :
  exists e st0 st' out,
    unreachable_model st0
      (str_replace (@PROMPT_TEMPLATE ref_lib) "{CHUNK}" "chunk")
      = (Failed e, st') /\
    run unreachable_model (@classify_chunk ref_lib "chunk" 2 0.6) tt
      = (Ok out, st') /\
    invocations unreachable_model (@classify_chunk ref_lib "chunk" 2 0.6) tt
      = Z.to_nat 2 /\
    out !! "mnpi" = Some (VStr "unclear") /\
    out !! "confidence" = Some (VFloat 0.0) /\
    out !! "recommended_action" = Some (VStr "human_review") /\
    out !! "notes" = Some (VStr ("LLM error after retries: " ++ exn_msg e)).
Proof.
  assert (H0 : (1 <= 2)%Z) by lia.
  assert (H1 : @sleep_refusal ref_lib 0.6 = None) by reflexivity.
  assert (H2 : forall st p, exists e st',
               unreachable_model st p = (Failed e, st')).
  { intros st p. exists connection_error, tt. reflexivity. }
  exact (@retries_exhausted_terminal_record ref_lib _ unreachable_model
           "chunk" 2 0.6 tt H0 H1 H2).
Defined.

Lemma refused_delay_escapes_witness :
  (run scripted (@classify_chunk ref_lib "chunk" 2 (-1 # 2))
       [Failed connection_error]
     = (Raise (Exn ValueError "sleep length must be non-negative"), []) /\
   invocations scripted (@classify_chunk ref_lib "chunk" 2 (-1 # 2))
       [Failed connection_error] = 1%nat) /\
  (run scripted (@classify_chunk ref_lib "chunk" 2 100000000000000000000)
       [Failed connection_error]
     = (Raise (Exn OverflowError
                 "timestamp too large to convert to C _PyTime_t"), []) /\
   invocations scripted (@classify_chunk ref_lib "chunk" 2 100000000000000000000)
       [Failed connection_error] = 1%nat).
Proof.
  assert (H0 : @sleep_refusal ref_lib (-1 # 2)
               = Some (Exn ValueError "sleep length must be non-negative"))
    by reflexivity.
  assert (G0 : @sleep_refusal ref_lib 100000000000000000000
               = Some (Exn OverflowError
                         "timestamp too large to convert to C _PyTime_t"))
    by reflexivity.
  assert (H1 : (2 <= 2)%Z) by lia.
  assert (H2 : scripted [Failed connection_error]
                 (str_replace (@PROMPT_TEMPLATE ref_lib) "{CHUNK}" "chunk")
               = (Failed connection_error, [])) by reflexivity.
  assert (H3 : @unsettled ref_lib (Failed connection_error)) by exact I.
  split.
  - destruct (@refused_delay_escapes ref_lib _ scripted "chunk" 2 (-1 # 2)
                _ _ _ _ H0 H1 H2 H3) as (Hrun & Hinv & _).
    by split.
  - destruct (@refused_delay_escapes ref_lib _ scripted "chunk" 2
                100000000000000000000 _ _ _ _ G0 H1 H2 H3) as (Hrun & Hinv & _).
    by split.
Defined.

Lemma classify_chunk_retry_accept_witness :
  run scripted (@classify_chunk ref_lib "chunk" 2 0.6)
      [Failed connection_error; Returned terse_no_text]
    = (Ok terse_no_record, []) /\
  invocations scripted (@classify_chunk ref_lib "chunk" 2 0.6)
      [Failed connection_error; Returned terse_no_text] = 2%nat.
Proof.
  assert (H0 : @sleep_refusal ref_lib 0.6 = None) by reflexivity.
  assert (H1 : (2 <= 2)%Z) by lia.
  assert (H2 : scripted [Failed connection_error; Returned terse_no_text]
                 (str_replace (@PROMPT_TEMPLATE ref_lib) "{CHUNK}" "chunk")
               = (Failed connection_error, [Returned terse_no_text]))
    by reflexivity.
  assert (H3 : @unsettled ref_lib (Failed connection_error)) by exact I.
  assert (H4 : scripted [Returned terse_no_text]
                 (str_replace (@PROMPT_TEMPLATE ref_lib) "{CHUNK}" "chunk")
               = (Returned terse_no_text, [])) by reflexivity.
  assert (H5 : @safe_parse_model_output ref_lib terse_no_text
               = Ok terse_no_record) by reflexivity.
  assert (H6 : terse_no_record !! "confidence" = Some (VFloat (90 # 100)))
    by (vm_compute; reflexivity).
  assert (H7 : terse_no_record !! "mnpi" = Some (VStr "no"))
    by (vm_compute; reflexivity).
  assert (H8 : (0.75 <= 90 # 100)%Q \/ "no" = "no") by (by right).
  exact (@classify_chunk_retry_accept ref_lib _ scripted "chunk" 2 0.6
           _ _ _ _ _ _ _ _ H0 H1 H2 H3 H4 H5 H6 H7 H8).
Defined.

(** ** Properties of the aggregator *)

Lemma round2_lower (lo : Z) (q : Q) :
  (lo # 100 <= q)%Q -> (lo # 100 <= round2 q)%Q.
Proof.
  intros Hlo.
  assert (Hhi : (q <= Qceiling (q * 100) # 100)%Q).
  { pose proof (Qle_ceiling (q * 100)) as H.
    unfold Qle in *. simpl in *. lia. }
  exact (proj1 (round2_between lo _ q Hlo Hhi)).
Qed.

Lemma fl_round2_lower (x : pyfloat) :
  fl_leb (Fin 0.75) x = true -> fl_leb (Fin 0.75) (fl_round2 x) = true.
Proof.
  destruct x as [q|[]]; simpl; try done.
  rewrite !Qle_bool_iff. apply (round2_lower 75).
Qed.

Section AggregatorRaw.
Context {lib : PyLib}.

Lemma aggregate_inv (results : list value) (s : DocumentSummary) :
  aggregate_results results = Ok s ->
  exists n, normalize_results results = Ok n /\ summarize n = Ok s.
Proof.
  unfold aggregate_results.
  destruct (normalize_results results) as [n|]; [|discriminate].
  simpl. intros H. by exists n.
Qed.

Lemma normalize_entry_inv (d : dict) (e : normalized_entry) :
  normalize_entry d = Ok e -> e = read_entry d.
Proof.
  intros H. destruct (normalize_entry_cases d) as [E | (e' & E & _)];
    rewrite E in H; [by injection H | discriminate].
Qed.

Lemma normalize_entry_fields (d : dict) (e : normalized_entry) :
  normalize_entry d = Ok e ->
  n_mnpi e = py_get_or d "mnpi" (VStr "unclear") /\
  n_categories e = match d !! "categories" with
                   | Some (VList l) => l
                   | _ => [VStr "None"]
                   end /\
  n_confidence e = record_confidence d.
Proof.
  intros H. rewrite (normalize_entry_inv d e H).
  unfold read_entry, record_verdict, py_get_or. simpl.
  split; [by destruct (d !! "mnpi") | by split].
Qed.

Lemma normalize_results_total (results : list value) :
  forallb entry_confidence_ok results = true ->
  exists n, normalize_results results = Ok n.
Proof. intros H. eexists. by apply normalize_results_reads. Qed.

Lemma normalize_results_elem (results : list value) (n : list normalized_entry)
    (r : dict) :
  normalize_results results = Ok n -> VDict r ∈ results ->
  exists e, normalize_entry r = Ok e /\ e ∈ n.
Proof.
  revert n. induction results as [|v results IH]; intros n H Hin.
  - by apply elem_of_nil in Hin.
  - apply elem_of_cons in Hin. simpl in H.
    destruct v;
      try (destruct Hin as [Hin|Hin]; [discriminate | by apply IH]).
    destruct (normalize_entry d) as [e|] eqn:He; [|discriminate].
    simpl in H.
    destruct (normalize_results results) as [m|]; [|discriminate].
    simpl in H. injection H as <-.
    destruct Hin as [Hin|Hin].
    + injection Hin as ->. exists e. split; [done | by left].
    + destruct (IH m eq_refl Hin) as (e' & He' & Hm).
      exists e'. split; [done | by right].
Qed.

Lemma normalize_entry_flag (d : dict) (e : normalized_entry) :
  normalize_entry d = Ok e ->
  is_flagged e = says_yes (VDict d) /\ is_unclear e = says_unclear (VDict d).
Proof.
  intros H. destruct (normalize_entry_fields d e H) as (Hm & _ & _).
  unfold is_flagged, is_unclear. rewrite Hm. simpl.
  unfold py_get_or, py_get. by destruct (d !! "mnpi").
Qed.

Lemma normalize_results_counts (results : list value)
    (n : list normalized_entry) :
  normalize_results results = Ok n ->
  length (List.filter is_flagged n) = length (List.filter says_yes results) /\
  existsb is_unclear n = existsb says_unclear results.
Proof.
  revert n. induction results as [|v results IH]; simpl; intros n H.
  - by injection H as <-.
  - destruct v; simpl; try (by apply IH).
    destruct (normalize_entry d) as [e|] eqn:He; [|discriminate]. simpl in H.
    destruct (normalize_results results) as [m|]; [|discriminate].
    simpl in H. injection H as <-. simpl.
    destruct (IH m eq_refl) as [IH1 IH2].
    destruct (normalize_entry_flag d e He) as [Hf Hu].
    simpl in Hf, Hu. rewrite Hf, Hu, IH2. split; [|done].
    destruct (eq_str (py_get d "mnpi") "yes"); simpl; by rewrite IH1.
Qed.

Lemma add_all_kind (cs : list value) :
  forall s ex, add_all s cs = Raise ex -> exn_kind_of ex = TypeError.
Proof.
  induction cs as [|c cs IH]; intros s ex H; simpl in H; [discriminate|].
  destruct c; simpl in H; try (by eapply IH); by injection H as <-.
Qed.

Lemma add_all_unhashable (cs : list value) (c : value) :
  c ∈ cs -> is_hashable c = false ->
  forall s, exists ex, add_all s cs = Raise ex /\ exn_kind_of ex = TypeError.
Proof.
  intros Hin Hc s.
  destruct (add_all s cs) as [s'|ex] eqn:H.
  - exfalso. revert s s' H.
    induction cs as [|c' cs IH]; intros s s' H.
    + by apply elem_of_nil in Hin.
    + apply elem_of_cons in Hin as [<-|Hin].
      * destruct c; simpl in *; discriminate.
      * simpl in H. destruct (to_hashable c') as [h|]; [|discriminate].
        simpl in H. by eapply IH.
  - exists ex. split; [done|]. by eapply add_all_kind.
Qed.

Lemma collect_categories_unhashable (flags : list normalized_entry)
    (r : normalized_entry) (c : value) :
  r ∈ flags -> c ∈ n_categories r -> is_hashable c = false ->
  forall s, exists ex,
    collect_categories s flags = Raise ex /\ exn_kind_of ex = TypeError.
Proof.
  intros Hr Hc Hh. induction flags as [|r' flags IH]; intros s.
  - by apply elem_of_nil in Hr.
  - simpl. apply elem_of_cons in Hr as [<-|Hr].
    + destruct (add_all_unhashable _ c Hc Hh s) as (ex & -> & Hk).
      by exists ex.
    + destruct (add_all s (n_categories r')) as [s'|ex] eqn:H; simpl.
      * by apply IH.
      * exists ex. split; [done|]. by eapply add_all_kind.
Qed.

(** X19. The reason of every summary counts the input: when some entry is
    a dict with mnpi yes it reads Detected MNPI in N chunk(s), N the number
    of such entries; otherwise it is one of the two No MNPI detected texts,
    the longer one exactly when some dict entry has mnpi unclear or no mnpi
    at all. *)
Theorem aggregate_reason (results : list value) (s : DocumentSummary) :
  aggregate_results results = Ok s ->
  reason s = reason_text results.
Proof.
  intros H. destruct (aggregate_inv _ _ H) as (n & Hn & Hs).
  destruct (normalize_results_counts _ _ Hn) as [Hlen Hunclear].
  pose proof (normalize_results_flags _ _ Hn) as Hflags.
  unfold reason_text. rewrite <- Hflags, <- Hlen, <- Hunclear.
  unfold summarize in Hs.
  destruct (List.filter is_flagged n) as [|first others] eqn:Hf.
  - apply filter_nil_existsb in Hf. rewrite Hf.
    injection Hs as <-. simpl. by destruct (existsb is_unclear n).
  - assert (He : existsb is_flagged n = true).
    { destruct (existsb is_flagged n) eqn:E; [done|].
      apply filter_nil_existsb in E. congruence. }
    rewrite He.
    destruct (collect_categories [] (first :: others)) as [cset|];
      [|discriminate].
    simpl in Hs. destruct (sanitize_categories cset) as [cats|];
      [|discriminate].
    simpl in Hs. by injection Hs as <-.
Qed.

(** X20. One confident flagged chunk is enough, unless a flagged chunk
    has nan as its confidence: when no flagged record has a nan confidence
    and some entry is a dict with mnpi yes and a confidence that converts
    to a float of at least 0.75, every summary the aggregator returns has a
    confidence of at least 0.75 and recommends escalate. *)
Theorem confident_flag_escalates (results : list value) (s : DocumentSummary)
    (r : dict) :
  aggregate_results results = Ok s ->
  flagged_nan_free results = true ->
  VDict r ∈ results ->
  r !! "mnpi" = Some (VStr "yes") ->
  fl_leb (Fin 0.75) (record_confidence r) = true ->
  overall_mnpi s = "yes" /\
  fl_leb (Fin 0.75) (overall_confidence s) = true /\
  recommended_action s = "escalate".
Proof.
  intros H Hnan Hin Hm Hge.
  destruct (aggregate_inv _ _ H) as (n & Hn & Hs).
  rewrite (normalize_results_inv _ _ Hn) in Hs.
  assert (Hr : r ∈ flagged_records results).
  { unfold flagged_records. apply elem_of_filter_bool.
    split; [by apply elem_of_dicts_of|].
    unfold says_yes, py_get. by rewrite Hm. }
  pose proof (flagged_no_nan results Hnan) as Hnn.
  pose proof (filter_flagged_read (dicts_of results)) as Hf.
  fold (flagged_records results) in Hf.
  unfold summarize in Hs. rewrite Hf in Hs.
  destruct (flagged_records results) as [|r0 rs] eqn:Hfl;
    [by apply elem_of_nil in Hr|].
  rewrite fmap_cons in Hs.
  destruct (collect_categories [] _) as [cset|]; [|discriminate].
  simpl in Hs. destruct (sanitize_categories cset) as [cats|];
    [|discriminate].
  simpl in Hs. injection Hs as <-.
  cbn [overall_mnpi overall_confidence recommended_action].
  rewrite confidence_read.
  change (n_confidence (read_entry r0)) with (record_confidence r0).
  assert (Hmax : fl_leb (Fin 0.75)
                   (fl_round2 (py_max_from (record_confidence r0)
                                           (record_confidence <$> rs)))
                 = true).
  { apply fl_round2_lower.
    apply fl_leb_trans with (record_confidence r); [exact Hge|].
    apply (py_max_from_spec _ _ Hnn).
    change (record_confidence r ∈ record_confidence <$> r0 :: rs).
    by apply list_elem_of_fmap_2. }
  split; [done|]. split; [done|]. unfold fl_leb in Hmax. by rewrite Hmax.
Qed.

(** X21. The categories of unflagged entries are never read: when the
    confidence of every dict entry converts to a float and no entry has
    mnpi yes, the aggregator returns a summary, with verdict no and no
    categories, whatever the categories of the entries hold. *)
Theorem unflagged_ignores_categories (results : list value) :
  forallb entry_confidence_ok results = true ->
  existsb says_yes results = false ->
  exists s,
    aggregate_results results = Ok s /\
    overall_mnpi s = "no" /\ categories s = [] /\
    recommended_action s =
      (if existsb says_unclear results then "human_review" else "no_action").
Proof.
  intros Hok Hno.
  destruct (normalize_results_total results Hok) as (n & Hn).
  pose proof (normalize_results_flags _ _ Hn) as Hflags.
  destruct (normalize_results_counts _ _ Hn) as [_ Hunclear].
  rewrite Hno in Hflags. apply filter_nil_existsb in Hflags.
  unfold aggregate_results. rewrite Hn. simpl.
  rewrite (summarize_unflagged n Hflags).
  eexists. split; [reflexivity|]. simpl. by rewrite Hunclear.
Qed.

(** X22. A list or a dict among the categories of a flagged entry makes
    the aggregator raise: when the entries normalize and some dict entry
    with mnpi yes has categories that hold a list or a dict, a TypeError
    leaves aggregate_results. *)
Theorem unhashable_category_raises (results : list value)
    (n : list normalized_entry) (r : dict) (l : list value) (c : value) :
  normalize_results results = Ok n ->
  VDict r ∈ results ->
  r !! "mnpi" = Some (VStr "yes") ->
  r !! "categories" = Some (VList l) ->
  c ∈ l -> is_hashable c = false ->
  exists ex,
    aggregate_results results = Raise ex /\ exn_kind_of ex = TypeError.
Proof.
  intros Hn Hin Hm Hcats Hc Hh.
  destruct (normalize_results_elem _ _ _ Hn Hin) as (e & He & Hen).
  destruct (normalize_entry_fields r e He) as (Hem & Hecat & _).
  rewrite Hcats in Hecat.
  assert (Hfl : is_flagged e = true).
  { unfold is_flagged. rewrite Hem. unfold py_get_or. by rewrite Hm. }
  assert (Hef : e ∈ List.filter is_flagged n)
    by by apply elem_of_filter_bool.
  unfold aggregate_results. rewrite Hn. simpl. unfold summarize.
  destruct (List.filter is_flagged n) as [|first others] eqn:Hf;
    [by apply elem_of_nil in Hef|].
  rewrite <- Hecat in Hc.
  destruct (collect_categories_unhashable _ e c Hef Hc Hh [])
    as (ex & -> & Hk).
  by exists ex.
Qed.

End AggregatorRaw.

(** ** The aggregator on the records of the classifier *)

Lemma hundredths_proper (a b : Q) : (a == b)%Q -> hundredths a -> hundredths b.
Proof.
  intros Hab (k & Hk & Hr). exists k. split; [|done]. by rewrite <- Hab.
Qed.

Lemma round2_hundredths (q : Q) : hundredths q -> hundredths (round2 q).
Proof.
  intros (k & Hk & Hr). rewrite (round2_proper _ _ Hk), round2_hundredth.
  exists k. split; [reflexivity | done].
Qed.

Section AggregatorOnRecords.
Context {lib : PyLib}.

Lemma validated_entry_ok (d : dict) : validated d -> entry_ok (VDict d) = true.
Proof.
  intros [_ (l & Hl & _ & Hall) (q & Hq & _) _ _ _]. simpl.
  unfold py_get. rewrite Hq, Hl. simpl. clear Hl.
  induction Hall as [|c l (s & -> & _) _ IH]; [done|]. simpl. exact IH.
Qed.

Lemma validated_record_entry (d : dict) (e : normalized_entry) :
  validated d -> normalize_entry d = Ok e -> record_entry e.
Proof.
  intros [_ (l & Hl & _ & Hall) (q & Hq & Hh) _ _ _] He.
  destruct (normalize_entry_fields d e He) as (_ & Hcat & Hconf).
  rewrite Hl in Hcat. unfold record_confidence in Hconf. rewrite Hq in Hconf.
  unfold record_entry. rewrite Hconf, Hcat. split; [by exists q | done].
Qed.

Lemma normalize_results_origin (results : list value)
    (n : list normalized_entry) (e : normalized_entry) :
  normalize_results results = Ok n -> e ∈ n ->
  exists r, VDict r ∈ results /\ normalize_entry r = Ok e.
Proof.
  revert n. induction results as [|v results IH]; intros n H Hin; simpl in H.
  - injection H as <-. by apply elem_of_nil in Hin.
  - assert (Hskip : normalize_results results = Ok n ->
                    exists r, VDict r ∈ v :: results /\ normalize_entry r = Ok e).
    { intros H'. destruct (IH n H' Hin) as (r & Hr & He).
      exists r. split; [by right | done]. }
    destruct v; try (by apply Hskip). clear Hskip.
    destruct (normalize_entry d) as [e'|] eqn:He; [|discriminate].
    simpl in H.
    destruct (normalize_results results) as [m|]; [|discriminate].
    simpl in H. injection H as <-.
    apply elem_of_cons in Hin as [->|Hin].
    + exists d. split; [by left | done].
    + destruct (IH m eq_refl Hin) as (r & Hr & He').
      exists r. split; [by right | done].
Qed.

(** The records of the classifier normalize to entries of their kind. *)
Lemma validated_normalize (ds : list dict) :
  Forall validated ds ->
  exists n, normalize_results (VDict <$> ds) = Ok n /\
            Forall strings_only n /\ Forall record_entry n.
Proof.
  intros Hv.
  assert (Hok : forallb entry_ok (VDict <$> ds) = true).
  { induction Hv as [|d ds Hd _ IH]; [done|].
    change (entry_ok (VDict d) && forallb entry_ok (VDict <$> ds) = true).
    by rewrite (validated_entry_ok d Hd), IH. }
  destruct (normalize_results_ok _ Hok) as (n & Hn & Hs).
  exists n. split; [done|]. split; [done|].
  rewrite Forall_forall. intros e He.
  destruct (normalize_results_origin _ _ _ Hn He) as (r & Hr & Hre).
  apply list_elem_of_fmap_1 in Hr as (d & Hd & Hin).
  injection Hd as ->. rewrite Forall_forall in Hv.
  by apply (validated_record_entry d); [apply Hv|].
Qed.

(** The summary of such entries. *)
Lemma summarize_record_entries (n : list normalized_entry) :
  Forall strings_only n -> Forall record_entry n ->
  exists s,
    summarize n = Ok s /\
    well_formed s /\
    (exists q, overall_confidence s = Fin q /\ hundredths q) /\
    (forall c, VStr c ∈ categories s -> c ∈ allowed /\ c <> "None") /\
    overall_mnpi s = (if existsb is_flagged n then "yes" else "no").
Proof.
  intros Hs Hrec.
  pose proof (strings_only_flagged n Hs) as Hsf.
  destruct (summarize_shape n Hsf) as (s & Hsum & Hshape).
  assert (Hq : exists q, overall_confidence s = Fin q /\ hundredths q).
  { destruct (summarize_confidence n s Hsum) as (x & Hx & ->).
    destruct Hx as [Hx | [_ ->]].
    - apply list_elem_of_fmap in Hx as (e & -> & He).
      rewrite Forall_forall in Hrec.
      destruct (Hrec e He) as [(q & -> & Hh) _].
      exists (round2 q). split; [done|]. by apply round2_hundredths.
    - exists (round2 0.0). split; [done|].
      exists 0%Z. split; [reflexivity | lia]. }
  exists s. split; [done|]. split; [by split|]. split; [done|].
  destruct (List.filter is_flagged n) as [|first others] eqn:Hf.
  - rewrite (summarize_unflagged n Hf) in Hsum. injection Hsum as <-.
    apply filter_nil_existsb in Hf. rewrite Hf. simpl.
    split; [|done]. intros c Hc. by apply elem_of_nil in Hc.
  - destruct (summarize_flagged n first others Hsf Hf)
      as (cs & E & Hsorted & Hin).
    rewrite E in Hsum. injection Hsum as <-.
    assert (He : existsb is_flagged n = true).
    { destruct (existsb is_flagged n) eqn:E'; [done|].
      apply filter_nil_existsb in E'. congruence. }
    rewrite He. simpl. split; [|done].
    intros c Hc.
    apply list_elem_of_fmap_1 in Hc as (c' & Hc' & Hcs).
    injection Hc' as <-.
    apply Hin in Hcs as (Hne & e & He' & Hce).
    split; [|done].
    rewrite <- Hf in He'. apply elem_of_filter_bool in He' as [He' _].
    rewrite Forall_forall in Hrec. destruct (Hrec e He') as [_ Hall].
    rewrite Forall_forall in Hall.
    destruct (Hall _ Hce) as (s' & Hs' & Hal). by injection Hs' as ->.
Qed.

(** X23. On records of the classifier the aggregator does not raise:
    for dicts with validated fields it returns a well-formed summary whose
    confidence is a hundredth within 0 and 0.95, whose categories are tags
    of the vocabulary other than None, and whose verdict is yes exactly
    when some record says yes. *)
Theorem aggregate_on_validated_records (ds : list dict) :
  Forall validated ds ->
  exists s,
    aggregate_results (VDict <$> ds) = Ok s /\
    well_formed s /\
    (exists q, overall_confidence s = Fin q /\ hundredths q) /\
    (forall c, VStr c ∈ categories s -> c ∈ allowed /\ c <> "None") /\
    overall_mnpi s
      = (if existsb says_yes (VDict <$> ds) then "yes" else "no").
Proof.
  intros Hv.
  destruct (validated_normalize ds Hv) as (n & Hn & Hs & Hrec).
  destruct (summarize_record_entries n Hs Hrec)
    as (s & Hsum & Hwf & Hh & Hc & Hm).
  exists s. split.
  { unfold aggregate_results. rewrite Hn. exact Hsum. }
  split; [exact Hwf|]. split; [exact Hh|]. split; [exact Hc|].
  by rewrite <- (normalize_results_flags _ _ Hn).
Qed.

End AggregatorOnRecords.

(** ** The pipeline: analyzer and aggregator *)

Lemma py_max_from_const (q : Q) (xs : list pyfloat) :
  Forall (fun x => x = Fin q) xs -> py_max_from (Fin q) xs = Fin q.
Proof.
  unfold py_max_from. induction 1 as [|x xs -> _ IH]; simpl; [done|].
  unfold fl_max at 2. cbn [fl_ltb].
  assert (H : Qltb q q = false) by (apply Qltb_ge, Qle_refl).
  by rewrite H.
Qed.

Section Pipeline.
Context {lib : PyLib} {St : Type} (model : St -> string -> response * St).

Lemma default_delay_accepted : sleep_refusal default_retry_delay = None.
Proof.
  apply sleep_refusal_accepts; unfold Qle; simpl; lia.
Qed.

Lemma analyze_loop_records (chunks : list string) :
  forall (acc results : list value) (st st' : St),
    run model (analyze_loop chunks acc) st = (Ok results, st') ->
    exists ds, results = (acc ++ (VDict <$> ds))%list /\
               classified model st chunks ds st' /\
               length ds = length chunks /\ Forall validated ds.
Proof.
  induction chunks as [|chunk rest IH]; intros acc results st st' H.
  - simpl in H. injection H as <- <-. exists [].
    split; [by rewrite app_nil_r|]. split; [constructor | by split].
  - cbn [analyze_loop] in H. unfold mbind, prog_bind in H.
    rewrite run_pbind in H.
    destruct (run model (classify_chunk chunk default_max_retries
                           default_retry_delay) st)
      as [[d|e] st1] eqn:Hc; simpl in H; [|discriminate].
    apply IH in H as (ds & -> & Hcl & Hlen & Hv).
    exists (d :: ds). split; [by rewrite <- app_assoc|].
    split; [by econstructor|].
    split; [simpl; by rewrite Hlen|].
    constructor; [|done].
    rewrite classify_chunk_run_split in Hc.
    destruct (run model (attempt_loop _ _ _ _ _) st)
      as [[[r|last]|e] st0] eqn:Hloop.
    + injection Hc as <- _.
      by apply attempt_loop_returns_validated in Hloop.
    + by apply (verifier_stage_validated model chunk default_max_retries
                  default_retry_delay st st0 st1 last).
    + discriminate.
Qed.


Lemma analyze_loop_invocations (chunks : list string) :
  forall (acc : list value) (st : St),
    (invocations model (analyze_loop chunks acc) st
     <= 3 * length chunks)%nat.
Proof.
  induction chunks as [|chunk rest IH]; intros acc st; [simpl; lia|].
  cbn [analyze_loop]. unfold mbind, prog_bind. rewrite invocations_pbind.
  assert (Hc : (invocations model
                  (classify_chunk chunk default_max_retries
                     default_retry_delay) st <= 3)%nat).
  { rewrite classify_chunk_invocations_split.
    pose proof (attempt_loop_invocations model
                  (str_replace PROMPT_TEMPLATE "{CHUNK}" chunk)
                  default_max_retries default_retry_delay
                  (py_range 1 (default_max_retries + 1)) EmptyString st)
      as Hloop.
    rewrite py_range_length in Hloop.
    change (Z.to_nat default_max_retries) with 2%nat in Hloop.
    destruct (run model (attempt_loop _ _ _ _ _) st)
      as [[[record|last]|e] st0].
    - lia.
    - pose proof (verifier_stage_invocations model chunk last st0). lia.
    - lia. }
  destruct (run model (classify_chunk chunk default_max_retries
                         default_retry_delay) st) as [[d|e] st1];
    cbn [fst snd length invocations].
  - match goal with
    | |- context [invocations model (analyze_loop rest ?a) ?s] =>
        specialize (IH a s)
    end.
    lia.
  - lia.
Qed.

Lemma analyze_loop_all_fail (chunks : list string) :
  (forall st p, exists e st', model st p = (Failed e, st')) ->
  forall (acc : list value) (st : St),
    exists st' es,
      run model (analyze_loop chunks acc) st
        = (Ok (acc ++ (VDict <$> (llm_error_record <$> es)))%list, st') /\
      length es = length chunks /\
      invocations model (analyze_loop chunks acc) st
        = (2 * length chunks)%nat.
Proof.
  intros Hfail. induction chunks as [|chunk rest IH]; intros acc st.
  - exists st, []. simpl. by rewrite app_nil_r.
  - assert (Hmr : (1 <= default_max_retries)%Z) by (unfold default_max_retries; lia).
    pose proof default_delay_accepted as Hd.
    destruct (classify_chunk_all_fail model chunk default_max_retries
                default_retry_delay st Hmr Hd Hfail)
      as (e & _ & st1 & _ & Hrun & _).
    assert (Hinv : invocations model
                     (classify_chunk chunk default_max_retries
                        default_retry_delay) st = 2%nat).
    { unfold classify_chunk, py_range. unfold mbind, prog_bind.
      rewrite invocations_pbind.
      pose proof (attempt_loop_all_fail_invocations model
                    (str_replace PROMPT_TEMPLATE "{CHUNK}" chunk)
                    default_max_retries default_retry_delay 1 Hd Hfail
                    1%Z EmptyString st eq_refl) as Hi.
      destruct (attempt_loop_all_fail model
                  (str_replace PROMPT_TEMPLATE "{CHUNK}" chunk)
                  default_max_retries default_retry_delay 1 Hd Hfail
                  1%Z EmptyString st eq_refl) as (e' & _ & st2 & _ & Hr).
      change (seqZ 1 (default_max_retries + 1 - 1))
        with (seqZ 1 (Z.of_nat 2)).
      rewrite Hi, Hr. reflexivity. }
    destruct (IH (acc ++ [VDict (llm_error_record e)])%list st1)
      as (st' & es & Hrest & Hlen & Hinvs).
    exists st', (e :: es).
    cbn [analyze_loop]. unfold mbind, prog_bind.
    rewrite run_pbind, invocations_pbind, Hrun, Hinv. simpl.
    rewrite Hrest, Hinvs.
    split; [by rewrite <- app_assoc|]. split; [by rewrite Hlen | lia].
Qed.

Lemma normalize_results_terminal (es : list exn) :
  normalize_results (VDict <$> (llm_error_record <$> es))
  = Ok (replicate (length es) terminal_entry).
Proof.
  induction es as [|e es IH]; [done|].
  change (normalize_results (VDict (llm_error_record e)
                             :: (VDict <$> (llm_error_record <$> es)))
          = Ok (terminal_entry :: replicate (length es) terminal_entry)).
  cbn [normalize_results]. rewrite IH.
  assert (He : normalize_entry (llm_error_record e) = Ok terminal_entry)
    by reflexivity.
  by rewrite He.
Qed.

Lemma summarize_terminal (k : nat) :
  summarize (replicate (S k) terminal_entry) = Ok unreachable_summary.
Proof.
  assert (Hf : List.filter is_flagged (replicate (S k) terminal_entry) = []).
  { induction k as [|k IH]; [done|]. exact IH. }
  rewrite (summarize_unflagged _ Hf). unfold unreachable_summary.
  assert (Hm : py_max_default
                 (n_confidence <$> replicate (S k) terminal_entry) (Fin 0.0)
               = Fin 0.0).
  { change (py_max_from (Fin 0.0)
              (n_confidence <$> replicate k terminal_entry)
            = Fin 0.0).
    apply py_max_from_const. rewrite Forall_fmap.
    apply Forall_forall. intros e He.
    by apply elem_of_replicate in He as [-> _]. }
  rewrite Hm. reflexivity.
Qed.

Lemma summarize_document_run (chunks : list string) (st : St) :
  run model (summarize_document chunks) st
  = (fst (run model (analyze_chunks chunks) st) ≫= aggregate_results,
     snd (run model (analyze_chunks chunks) st)).
Proof.
  unfold summarize_document. unfold mbind at 1, prog_bind.
  rewrite run_pbind. by destruct (run model (analyze_chunks chunks) st).
Qed.

(** X24. The analysis keeps one record per chunk, in order: when
    analyze_document's loop returns, its results are the dicts that
    classify_chunk returned on the chunks, one after the other in their
    order, as many as there are chunks; each has the validated fields of a
    classifier record, and the normalization step leaves each as it is. *)
Theorem analyze_chunks_records (chunks : list string) (results : list value)
    (st st' : St) :
  run model (analyze_chunks chunks) st = (Ok results, st') ->
  exists ds, classified model st chunks ds st' /\
             results = VDict <$> ds /\
             Forall (fun d => _normalize_classify_output (VDict d) = VDict d)
                    ds /\
             length ds = length chunks /\ Forall validated ds.
Proof.
  intros H. apply analyze_loop_records in H as (ds & -> & Hcl & Hlen & Hv).
  exists ds. split; [done|]. split; [done|]. split; [|by split].
  by apply Forall_forall.
Qed.


(** X26. The analysis invokes the model at most three times per chunk:
    two attempts and one verifier pass. *)
Theorem analyze_chunks_invocation_bound (chunks : list string) (st : St) :
  (invocations model (analyze_chunks chunks) st <= 3 * length chunks)%nat.
Proof. apply analyze_loop_invocations. Qed.

(** X27. When the model cannot be reached (every invocation fails), the
    pipeline still returns a summary for a document of at least one chunk,
    after two invocations per chunk: verdict no, confidence 0.0, the
    unclear reason and human_review. *)
Theorem pipeline_unreachable_model (chunks : list string) (st : St) :
  chunks <> [] ->
  (forall st p, exists e st', model st p = (Failed e, st')) ->
  exists st',
    run model (summarize_document chunks) st = (Ok unreachable_summary, st') /\
    invocations model (analyze_chunks chunks) st = (2 * length chunks)%nat.
Proof.
  intros Hne Hfail.
  destruct (analyze_loop_all_fail chunks Hfail [] st)
    as (st' & es & Hrun & Hlen & Hinv).
  exists st'. split; [|exact Hinv].
  assert (Hagg : aggregate_results (VDict <$> (llm_error_record <$> es))
                 = Ok unreachable_summary).
  { unfold aggregate_results. rewrite normalize_results_terminal.
    destruct es as [|e es]; [by destruct chunks|].
    change (summarize (replicate (S (length es)) terminal_entry)
            = Ok unreachable_summary).
    apply summarize_terminal. }
  rewrite summarize_document_run. unfold analyze_chunks. rewrite Hrun.
  cbn [fst snd app].
  by rewrite <- Hagg.
Qed.

End Pipeline.

Lemma aggregate_reason_witness :
  reason mixed_summary = @reason_text mixed_results.
Proof.
  assert (H : @aggregate_results ref_lib mixed_results = Ok mixed_summary)
    by (vm_compute; reflexivity).
  exact (@aggregate_reason ref_lib mixed_results mixed_summary H).
Defined.

Lemma confident_flag_escalates_witness :
  overall_mnpi mixed_summary = "yes" /\
  fl_leb (Fin 0.75) (overall_confidence mixed_summary) = true /\
  recommended_action mixed_summary = "escalate".
Proof.
  assert (H : @aggregate_results ref_lib mixed_results = Ok mixed_summary)
    by (vm_compute; reflexivity).
  assert (Hnan : @flagged_nan_free ref_lib mixed_results = true)
    by (vm_compute; reflexivity).
  assert (Hin : VDict confident_flag ∈ mixed_results) by (by left).
  assert (Hm : confident_flag !! "mnpi" = Some (VStr "yes"))
    by (vm_compute; reflexivity).
  assert (Hge : fl_leb (Fin 0.75) (@record_confidence ref_lib confident_flag)
                = true) by (vm_compute; reflexivity).
  exact (@confident_flag_escalates ref_lib mixed_results mixed_summary
           confident_flag H Hnan Hin Hm Hge).
Defined.

Lemma unflagged_ignores_categories_witness :
  exists s,
    @aggregate_results ref_lib [VDict (nested_tags "no")] = Ok s /\
    overall_mnpi s = "no" /\ categories s = [] /\
    recommended_action s =
      (if existsb says_unclear [VDict (nested_tags "no")]
       then "human_review" else "no_action").
Proof.
  assert (H1 : forallb (@entry_confidence_ok ref_lib)
                 [VDict (nested_tags "no")] = true)
    by (vm_compute; reflexivity).
  assert (H2 : existsb says_yes [VDict (nested_tags "no")] = false)
    by (vm_compute; reflexivity).
  exact (@unflagged_ignores_categories ref_lib _ H1 H2).
Defined.

Lemma unhashable_category_raises_witness :
  exists ex,
    @aggregate_results ref_lib [VDict (nested_tags "yes")] = Raise ex /\
    exn_kind_of ex = TypeError.
Proof.
  assert (H1 : @normalize_results ref_lib [VDict (nested_tags "yes")]
               = Ok [nested_tags_entry "yes"]) by (vm_compute; reflexivity).
  assert (H2 : VDict (nested_tags "yes") ∈ [VDict (nested_tags "yes")])
    by (by left).
  assert (H3 : nested_tags "yes" !! "mnpi" = Some (VStr "yes"))
    by (vm_compute; reflexivity).
  assert (H4 : nested_tags "yes" !! "categories" = Some (VList [VList []]))
    by (vm_compute; reflexivity).
  assert (H5 : VList [] ∈ [VList []]) by (by left).
  assert (H6 : is_hashable (VList []) = false) by reflexivity.
  exact (@unhashable_category_raises ref_lib _ _ _ _ _ H1 H2 H3 H4 H5 H6).
Defined.

Lemma aggregate_on_validated_records_witness :
  exists s,
    @aggregate_results ref_lib (VDict <$> [terse_no_record; first_pass_record])
      = Ok s /\
    well_formed s /\
    (exists q, overall_confidence s = Fin q /\ hundredths q) /\
    (forall c, VStr c ∈ categories s -> c ∈ allowed /\ c <> "None") /\
    overall_mnpi s
      = (if existsb says_yes (VDict <$> [terse_no_record; first_pass_record])
         then "yes" else "no").
Proof.
  assert (H1 : @safe_parse_model_output ref_lib terse_no_text
               = Ok terse_no_record) by reflexivity.
  assert (H2 : @safe_parse_model_output ref_lib first_pass_text
               = Ok first_pass_record) by reflexivity.
  assert (Hv : Forall validated [terse_no_record; first_pass_record]).
  { constructor; [exact (safe_parse_validated _ _ H1)|].
    constructor; [exact (safe_parse_validated _ _ H2) | constructor]. }
  exact (@aggregate_on_validated_records ref_lib _ Hv).
Defined.

Lemma analyze_chunks_records_witness :
  exists ds,
    @classified ref_lib _ scripted
      [Returned terse_no_text; Returned terse_no_text]
      ["first chunk"; "second chunk"] ds [] /\
    [VDict terse_no_record; VDict terse_no_record] = VDict <$> ds /\
    Forall (fun d => @_normalize_classify_output ref_lib (VDict d) = VDict d)
           ds /\
    length ds = length ["first chunk"; "second chunk"] /\
    Forall validated ds.
Proof.
  assert (H : run scripted (@analyze_chunks ref_lib
                              ["first chunk"; "second chunk"])
                [Returned terse_no_text; Returned terse_no_text]
              = (Ok [VDict terse_no_record; VDict terse_no_record], []))
    by reflexivity.
  exact (@analyze_chunks_records ref_lib _ scripted _ _ _ _ H).
Defined.


Lemma pipeline_unreachable_model_witness :
  exists st',
    run unreachable_model (@summarize_document ref_lib ["only chunk"]) tt
      = (Ok unreachable_summary, st') /\
    invocations unreachable_model (@analyze_chunks ref_lib ["only chunk"]) tt
      = (2 * length ["only chunk"])%nat.
Proof.
  assert (H1 : ["only chunk"] <> @nil string) by discriminate.
  assert (H2 : forall st p, exists e st',
               unreachable_model st p = (Failed e, st')).
  { intros st p. exists connection_error, tt. reflexivity. }
  exact (@pipeline_unreachable_model ref_lib _ unreachable_model
           ["only chunk"] tt H1 H2).
Defined.
